(** * libuiohook: virtual codes, modifier mask and event synthesis

    A shallow embedding of the parts of libuiohook that translate key
    codes, keep the global modifier mask and post synthetic events, for
    the three back ends (Windows, macOS, X11).

    C integers are modelled as [Z] with the wrap-around of their type
    written out; static variables become fields of a state record that is
    threaded through the functions; calls into the operating system become
    fields of an environment record (an oracle for what the OS answers)
    and entries of an injection trace (what the OS was asked to do). *)

From Stdlib Require Import ZArith List String Ascii Bool Lia.
Import ListNotations.
Local Open Scope Z_scope.

(** Truncation to the unsigned C integer types. *)
Definition uint8 (z : Z) : Z := z mod 2 ^ 8.
Definition uint16 (z : Z) : Z := z mod 2 ^ 16.
Definition uint32 (z : Z) : Z := z mod 2 ^ 32.

(** A C loop [for (k = lo; ...; k++)] that runs [n] times. *)
Fixpoint for_loop {S : Type} (n : nat) (k : Z) (body : Z -> S -> S) (s : S) : S :=
  match n with
  | O => s
  | Datatypes.S n' => for_loop n' (k + 1) body (body k s)
  end.

(** ** include/uiohook.h *)
Module UIOHook.

Definition UIOHOOK_SUCCESS : Z := 0x00.
Definition UIOHOOK_FAILURE : Z := 0x01.
Definition UIOHOOK_ERROR_OUT_OF_MEMORY : Z := 0x02.
Definition UIOHOOK_ERROR_POST_TEXT_NULL : Z := 0x03.
Definition UIOHOOK_ERROR_X_OPEN_DISPLAY : Z := 0x20.

Inductive event_type : Set :=
| EVENT_HOOK_ENABLED
| EVENT_HOOK_DISABLED
| EVENT_KEY_TYPED
| EVENT_KEY_PRESSED
| EVENT_KEY_RELEASED
| EVENT_MOUSE_CLICKED
| EVENT_MOUSE_PRESSED
| EVENT_MOUSE_RELEASED
| EVENT_MOUSE_MOVED
| EVENT_MOUSE_DRAGGED
| EVENT_MOUSE_WHEEL
| EVENT_MOUSE_PRESSED_IGNORE_COORDS
| EVENT_MOUSE_RELEASED_IGNORE_COORDS
| EVENT_MOUSE_MOVED_RELATIVE_TO_CURSOR.

Record keyboard_event_data : Set := {
  keycode : Z;   (* uint16_t *)
  rawcode : Z;   (* uint16_t *)
  keychar : Z    (* wchar_t *)
}.

Record mouse_event_data : Set := {
  button : Z;    (* uint16_t *)
  clicks : Z;    (* uint16_t *)
  mouse_x : Z;   (* int16_t x *)
  mouse_y : Z    (* int16_t y *)
}.

Record mouse_wheel_event_data : Set := {
  wheel_x : Z;     (* int16_t x *)
  wheel_y : Z;     (* int16_t y *)
  wheel_type : Z;  (* uint8_t type *)
  rotation : Z;    (* int16_t *)
  delta : Z;       (* uint16_t *)
  direction : Z    (* uint8_t *)
}.

(** The C union [data] overlays the three payloads; every function
    below reads only the member that the event type it switched on
    selects, so the members are kept side by side. *)
Record uiohook_event : Set := {
  type : event_type;
  time : Z;
  mask : Z;
  reserved : Z;
  keyboard : keyboard_event_data;
  mouse : mouse_event_data;
  wheel : mouse_wheel_event_data
}.

(* Virtual key codes. *)
Definition VC_ESCAPE := 0x001B.
Definition VC_F1 := 0x0070.
Definition VC_F2 := 0x0071.
Definition VC_F3 := 0x0072.
Definition VC_F4 := 0x0073.
Definition VC_F5 := 0x0074.
Definition VC_F6 := 0x0075.
Definition VC_F7 := 0x0076.
Definition VC_F8 := 0x0077.
Definition VC_F9 := 0x0078.
Definition VC_F10 := 0x0079.
Definition VC_F11 := 0x007A.
Definition VC_F12 := 0x007B.
Definition VC_F13 := 0xF000.
Definition VC_F14 := 0xF001.
Definition VC_F15 := 0xF002.
Definition VC_F16 := 0xF003.
Definition VC_F17 := 0xF004.
Definition VC_F18 := 0xF005.
Definition VC_F19 := 0xF006.
Definition VC_F20 := 0xF007.
Definition VC_F21 := 0xF008.
Definition VC_F22 := 0xF009.
Definition VC_F23 := 0xF00A.
Definition VC_F24 := 0xF00B.
Definition VC_BACK_QUOTE := 0x00C0.
Definition VC_0 := 0x0030.
Definition VC_1 := 0x0031.
Definition VC_2 := 0x0032.
Definition VC_3 := 0x0033.
Definition VC_4 := 0x0034.
Definition VC_5 := 0x0035.
Definition VC_6 := 0x0036.
Definition VC_7 := 0x0037.
Definition VC_8 := 0x0038.
Definition VC_9 := 0x0039.
Definition VC_MINUS := 0x002D.
Definition VC_EQUALS := 0x003D.
Definition VC_BACKSPACE := 0x0008.
Definition VC_TAB := 0x0009.
Definition VC_CAPS_LOCK := 0x0014.
Definition VC_A := 0x0041.
Definition VC_B := 0x0042.
Definition VC_C := 0x0043.
Definition VC_D := 0x0044.
Definition VC_E := 0x0045.
Definition VC_F := 0x0046.
Definition VC_G := 0x0047.
Definition VC_H := 0x0048.
Definition VC_I := 0x0049.
Definition VC_J := 0x004A.
Definition VC_K := 0x004B.
Definition VC_L := 0x004C.
Definition VC_M := 0x004D.
Definition VC_N := 0x004E.
Definition VC_O := 0x004F.
Definition VC_P := 0x0050.
Definition VC_Q := 0x0051.
Definition VC_R := 0x0052.
Definition VC_S := 0x0053.
Definition VC_T := 0x0054.
Definition VC_U := 0x0055.
Definition VC_V := 0x0056.
Definition VC_W := 0x0057.
Definition VC_X := 0x0058.
Definition VC_Y := 0x0059.
Definition VC_Z := 0x005A.
Definition VC_OPEN_BRACKET := 0x005B.
Definition VC_CLOSE_BRACKET := 0x005C.
Definition VC_BACK_SLASH := 0x005D.
Definition VC_SEMICOLON := 0x003B.
Definition VC_QUOTE := 0x00DE.
Definition VC_ENTER := 0x000A.
Definition VC_COMMA := 0x002C.
Definition VC_PERIOD := 0x002E.
Definition VC_SLASH := 0x002F.
Definition VC_SPACE := 0x0020.
Definition VC_102 := 0x0099.
Definition VC_MISC := 0x0E01.
Definition VC_PRINT_SCREEN := 0x009A.
Definition VC_PRINT := 0x009C.
Definition VC_SELECT := 0x009D.
Definition VC_EXECUTE := 0x009E.
Definition VC_SCROLL_LOCK := 0x0091.
Definition VC_PAUSE := 0x0013.
Definition VC_CANCEL := 0x00D3.
Definition VC_HELP := 0x009F.
Definition VC_INSERT := 0x009B.
Definition VC_DELETE := 0x007F.
Definition VC_HOME := 0x0024.
Definition VC_END := 0x0023.
Definition VC_PAGE_UP := 0x0021.
Definition VC_PAGE_DOWN := 0x0022.
Definition VC_UP := 0x0026.
Definition VC_LEFT := 0x0025.
Definition VC_RIGHT := 0x0027.
Definition VC_DOWN := 0x0028.
Definition VC_NUM_LOCK := 0x0090.
Definition VC_KP_CLEAR := 0x000C.
Definition VC_KP_DIVIDE := 0x006F.
Definition VC_KP_MULTIPLY := 0x006A.
Definition VC_KP_SUBTRACT := 0x006D.
Definition VC_KP_EQUALS := 0x007C.
Definition VC_KP_ADD := 0x006B.
Definition VC_KP_ENTER := 0x007D.
Definition VC_KP_DECIMAL := 0x006E.
Definition VC_KP_SEPARATOR := 0x006C.
Definition VC_KP_PLUS_MINUS := 0x007E.
Definition VC_KP_0 := 0x0060.
Definition VC_KP_1 := 0x0061.
Definition VC_KP_2 := 0x0062.
Definition VC_KP_3 := 0x0063.
Definition VC_KP_4 := 0x0064.
Definition VC_KP_5 := 0x0065.
Definition VC_KP_6 := 0x0066.
Definition VC_KP_7 := 0x0067.
Definition VC_KP_8 := 0x0068.
Definition VC_KP_9 := 0x0069.
Definition VC_KP_OPEN_PARENTHESIS := 0xEE01.
Definition VC_KP_CLOSE_PARENTHESIS := 0xEE02.
Definition VC_SHIFT_L := 0xA010.
Definition VC_SHIFT_R := 0xB010.
Definition VC_CONTROL_L := 0xA011.
Definition VC_CONTROL_R := 0xB011.
Definition VC_ALT_L := 0xA012.
Definition VC_ALT_R := 0xB012.
Definition VC_META_L := 0xA09D.
Definition VC_META_R := 0xB09D.
Definition VC_CONTEXT_MENU := 0x020D.
Definition VC_FUNCTION := 0x020E.
Definition VC_CHANGE_INPUT_SOURCE := 0x020F.
Definition VC_POWER := 0xE05E.
Definition VC_SLEEP := 0xE05F.
Definition VC_WAKE := 0xE063.
Definition VC_MEDIA := 0xE023.
Definition VC_MEDIA_PLAY := 0xE022.
Definition VC_MEDIA_STOP := 0xE024.
Definition VC_MEDIA_PREVIOUS := 0xE010.
Definition VC_MEDIA_NEXT := 0xE019.
Definition VC_MEDIA_SELECT := 0xE06D.
Definition VC_MEDIA_EJECT := 0xE02C.
Definition VC_MEDIA_CLOSE := 0xE02D.
Definition VC_MEDIA_EJECT_CLOSE := 0xE02F.
Definition VC_MEDIA_RECORD := 0xE031.
Definition VC_MEDIA_REWIND := 0xE033.
Definition VC_VOLUME_MUTE := 0xE020.
Definition VC_VOLUME_DOWN := 0xE030.
Definition VC_VOLUME_UP := 0xE02E.
Definition VC_ATTN := 0xE090.
Definition VC_CR_SEL := 0xE091.
Definition VC_EX_SEL := 0xE092.
Definition VC_ERASE_EOF := 0xE093.
Definition VC_PLAY := 0xE094.
Definition VC_ZOOM := 0xE095.
Definition VC_NO_NAME := 0xE096.
Definition VC_PA1 := 0xE097.
Definition VC_APP_1 := 0xE026.
Definition VC_APP_2 := 0xE027.
Definition VC_APP_3 := 0xE028.
Definition VC_APP_4 := 0xE029.
Definition VC_APP_BROWSER := 0xE025.
Definition VC_APP_CALCULATOR := 0xE021.
Definition VC_APP_MAIL := 0xE06C.
Definition VC_BROWSER_SEARCH := 0xE065.
Definition VC_BROWSER_HOME := 0xE032.
Definition VC_BROWSER_BACK := 0xE06A.
Definition VC_BROWSER_FORWARD := 0xE069.
Definition VC_BROWSER_STOP := 0xE068.
Definition VC_BROWSER_REFRESH := 0xE067.
Definition VC_BROWSER_FAVORITES := 0xE066.
Definition VC_KATAKANA_HIRAGANA := 0x0106.
Definition VC_KATAKANA := 0x00F1.
Definition VC_HIRAGANA := 0x00F2.
Definition VC_KANA := 0x0015.
Definition VC_KANJI := 0x0019.
Definition VC_HANGUL := 0x00E9.
Definition VC_JUNJA := 0x00E8.
Definition VC_FINAL := 0x00E7.
Definition VC_HANJA := 0x00E6.
Definition VC_ACCEPT := 0x001E.
Definition VC_CONVERT := 0x001C.
Definition VC_NONCONVERT := 0x001D.
Definition VC_IME_ON := 0x0109.
Definition VC_IME_OFF := 0x0108.
Definition VC_MODE_CHANGE := 0x0107.
Definition VC_PROCESS := 0x0105.
Definition VC_ALPHANUMERIC := 0x00F0.
Definition VC_UNDERSCORE := 0x020B.
Definition VC_YEN := 0x020C.
Definition VC_JP_COMMA := 0x0210.
Definition VC_STOP := 0xFF78.
Definition VC_PROPS := 0xFF76.
Definition VC_FRONT := 0xFF77.
Definition VC_OPEN := 0xFF74.
Definition VC_FIND := 0xFF70.
Definition VC_AGAIN := 0xFF79.
Definition VC_UNDO := 0xFF7A.
Definition VC_REDO := 0xFF7F.
Definition VC_COPY := 0xFF7C.
Definition VC_PASTE := 0xFF7D.
Definition VC_CUT := 0xFF7B.
Definition VC_LINE_FEED := 0xC001.
Definition VC_MACRO := 0xC002.
Definition VC_SCALE := 0xC003.
Definition VC_SETUP := 0xC004.
Definition VC_FILE := 0xC005.
Definition VC_SEND_FILE := 0xC006.
Definition VC_DELETE_FILE := 0xC007.
Definition VC_MS_DOS := 0xC008.
Definition VC_LOCK := 0xC009.
Definition VC_ROTATE_DISPLAY := 0xC00A.
Definition VC_CYCLE_WINDOWS := 0xC00B.
Definition VC_COMPUTER := 0xC00C.
Definition VC_PHONE := 0xC00D.
Definition VC_ISO := 0xC00E.
Definition VC_CONFIG := 0xC00F.
Definition VC_EXIT := 0xC010.
Definition VC_MOVE := 0xC011.
Definition VC_EDIT := 0xC012.
Definition VC_SCROLL_UP := 0xC013.
Definition VC_SCROLL_DOWN := 0xC014.
Definition VC_NEW := 0xC015.
Definition VC_PLAY_CD := 0xC016.
Definition VC_PAUSE_CD := 0xC017.
Definition VC_DASHBOARD := 0xC018.
Definition VC_SUSPEND := 0xC019.
Definition VC_CLOSE := 0xC01A.
Definition VC_FAST_FORWARD := 0xC01C.
Definition VC_BASS_BOOST := 0xC01D.
Definition VC_HP := 0xC01E.
Definition VC_CAMERA := 0xC01F.
Definition VC_SOUND := 0xC020.
Definition VC_QUESTION := 0xC021.
Definition VC_EMAIL := 0xC022.
Definition VC_CHAT := 0xC023.
Definition VC_CONNECT := 0xC024.
Definition VC_FINANCE := 0xC025.
Definition VC_SPORT := 0xC026.
Definition VC_SHOP := 0xC027.
Definition VC_ALT_ERASE := 0xC028.
Definition VC_BRIGTNESS_DOWN := 0xC029.
Definition VC_BRIGTNESS_UP := 0xC02A.
Definition VC_BRIGTNESS_CYCLE := 0xC02B.
Definition VC_BRIGTNESS_AUTO := 0xC02C.
Definition VC_SWITCH_VIDEO_MODE := 0xC02D.
Definition VC_KEYBOARD_LIGHT_TOGGLE := 0xC02E.
Definition VC_KEYBOARD_LIGHT_DOWN := 0xC02F.
Definition VC_KEYBOARD_LIGHT_UP := 0xC030.
Definition VC_SEND := 0xC031.
Definition VC_REPLY := 0xC032.
Definition VC_FORWARD_MAIL := 0xC033.
Definition VC_SAVE := 0xC034.
Definition VC_DOCUMENTS := 0xC035.
Definition VC_BATTERY := 0xC036.
Definition VC_BLUETOOTH := 0xC037.
Definition VC_WLAN := 0xC038.
Definition VC_UWB := 0xC039.
Definition VC_X11_UNKNOWN := 0xC03A.
Definition VC_VIDEO_NEXT := 0xC03B.
Definition VC_VIDEO_PREVIOUS := 0xC03C.
Definition VC_DISPLAY_OFF := 0xC03D.
Definition VC_WWAN := 0xC03E.
Definition VC_RFKILL := 0xC03F.
Definition VC_UNDEFINED := 0x0000.
Definition CHAR_UNDEFINED := 0xFFFF.

(* Virtual modifier masks. *)
Definition MASK_SHIFT_L := Z.shiftl 1 0.
Definition MASK_CTRL_L := Z.shiftl 1 1.
Definition MASK_META_L := Z.shiftl 1 2.
Definition MASK_ALT_L := Z.shiftl 1 3.
Definition MASK_SHIFT_R := Z.shiftl 1 4.
Definition MASK_CTRL_R := Z.shiftl 1 5.
Definition MASK_META_R := Z.shiftl 1 6.
Definition MASK_ALT_R := Z.shiftl 1 7.
Definition MASK_ALT := Z.lor MASK_ALT_L MASK_ALT_R.
Definition MASK_BUTTON1 := Z.shiftl 1 8.
Definition MASK_BUTTON2 := Z.shiftl 1 9.
Definition MASK_BUTTON3 := Z.shiftl 1 10.
Definition MASK_BUTTON4 := Z.shiftl 1 11.
Definition MASK_BUTTON5 := Z.shiftl 1 12.
Definition MASK_NUM_LOCK := Z.shiftl 1 13.
Definition MASK_CAPS_LOCK := Z.shiftl 1 14.
Definition MASK_SCROLL_LOCK := Z.shiftl 1 15.

(* Virtual mouse buttons. *)
Definition MOUSE_NOBUTTON := 0.
Definition MOUSE_BUTTON1 := 1.
Definition MOUSE_BUTTON2 := 2.
Definition MOUSE_BUTTON3 := 3.
Definition MOUSE_BUTTON4 := 4.
Definition MOUSE_BUTTON5 := 5.

Definition WHEEL_UNIT_SCROLL := 1.
Definition WHEEL_BLOCK_SCROLL := 2.
Definition WHEEL_VERTICAL_DIRECTION := 3.
Definition WHEEL_HORIZONTAL_DIRECTION := 4.

End UIOHook.

(** ** The Windows back end *)
Module Windows.
Import UIOHook.

(** *** Virtual-key codes, window messages and input flags

    These constants come from the Windows SDK header winuser.h, which
    the sources include; the values are the documented ones. *)
Definition VK_CANCEL := 0x03.
Definition VK_BACK := 0x08.
Definition VK_TAB := 0x09.
Definition VK_CLEAR := 0x0C.
Definition VK_RETURN := 0x0D.
Definition VK_SHIFT := 0x10.
Definition VK_CONTROL := 0x11.
Definition VK_MENU := 0x12.
Definition VK_PAUSE := 0x13.
Definition VK_CAPITAL := 0x14.
Definition VK_KANA := 0x15.
Definition VK_HANGUL := 0x15.
Definition VK_IME_ON := 0x16.
Definition VK_JUNJA := 0x17.
Definition VK_FINAL := 0x18.
Definition VK_HANJA := 0x19.
Definition VK_KANJI := 0x19.
Definition VK_IME_OFF := 0x1A.
Definition VK_ESCAPE := 0x1B.
Definition VK_CONVERT := 0x1C.
Definition VK_NONCONVERT := 0x1D.
Definition VK_ACCEPT := 0x1E.
Definition VK_MODECHANGE := 0x1F.
Definition VK_SPACE := 0x20.
Definition VK_PRIOR := 0x21.
Definition VK_NEXT := 0x22.
Definition VK_END := 0x23.
Definition VK_HOME := 0x24.
Definition VK_LEFT := 0x25.
Definition VK_UP := 0x26.
Definition VK_RIGHT := 0x27.
Definition VK_DOWN := 0x28.
Definition VK_SELECT := 0x29.
Definition VK_PRINT := 0x2A.
Definition VK_EXECUTE := 0x2B.
Definition VK_SNAPSHOT := 0x2C.
Definition VK_INSERT := 0x2D.
Definition VK_DELETE := 0x2E.
Definition VK_HELP := 0x2F.
Definition VK_LWIN := 0x5B.
Definition VK_RWIN := 0x5C.
Definition VK_APPS := 0x5D.
Definition VK_SLEEP := 0x5F.
Definition VK_NUMPAD0 := 0x60.
Definition VK_NUMPAD1 := 0x61.
Definition VK_NUMPAD2 := 0x62.
Definition VK_NUMPAD3 := 0x63.
Definition VK_NUMPAD4 := 0x64.
Definition VK_NUMPAD5 := 0x65.
Definition VK_NUMPAD6 := 0x66.
Definition VK_NUMPAD7 := 0x67.
Definition VK_NUMPAD8 := 0x68.
Definition VK_NUMPAD9 := 0x69.
Definition VK_MULTIPLY := 0x6A.
Definition VK_ADD := 0x6B.
Definition VK_SEPARATOR := 0x6C.
Definition VK_SUBTRACT := 0x6D.
Definition VK_DECIMAL := 0x6E.
Definition VK_DIVIDE := 0x6F.
Definition VK_F1 := 0x70.
Definition VK_F2 := 0x71.
Definition VK_F3 := 0x72.
Definition VK_F4 := 0x73.
Definition VK_F5 := 0x74.
Definition VK_F6 := 0x75.
Definition VK_F7 := 0x76.
Definition VK_F8 := 0x77.
Definition VK_F9 := 0x78.
Definition VK_F10 := 0x79.
Definition VK_F11 := 0x7A.
Definition VK_F12 := 0x7B.
Definition VK_F13 := 0x7C.
Definition VK_F14 := 0x7D.
Definition VK_F15 := 0x7E.
Definition VK_F16 := 0x7F.
Definition VK_F17 := 0x80.
Definition VK_F18 := 0x81.
Definition VK_F19 := 0x82.
Definition VK_F20 := 0x83.
Definition VK_F21 := 0x84.
Definition VK_F22 := 0x85.
Definition VK_F23 := 0x86.
Definition VK_F24 := 0x87.
Definition VK_NUMLOCK := 0x90.
Definition VK_SCROLL := 0x91.
Definition VK_LSHIFT := 0xA0.
Definition VK_RSHIFT := 0xA1.
Definition VK_LCONTROL := 0xA2.
Definition VK_RCONTROL := 0xA3.
Definition VK_LMENU := 0xA4.
Definition VK_RMENU := 0xA5.
Definition VK_BROWSER_BACK := 0xA6.
Definition VK_BROWSER_FORWARD := 0xA7.
Definition VK_BROWSER_REFRESH := 0xA8.
Definition VK_BROWSER_STOP := 0xA9.
Definition VK_BROWSER_SEARCH := 0xAA.
Definition VK_BROWSER_FAVORITES := 0xAB.
Definition VK_BROWSER_HOME := 0xAC.
Definition VK_VOLUME_MUTE := 0xAD.
Definition VK_VOLUME_DOWN := 0xAE.
Definition VK_VOLUME_UP := 0xAF.
Definition VK_MEDIA_NEXT_TRACK := 0xB0.
Definition VK_MEDIA_PREV_TRACK := 0xB1.
Definition VK_MEDIA_STOP := 0xB2.
Definition VK_MEDIA_PLAY_PAUSE := 0xB3.
Definition VK_LAUNCH_MAIL := 0xB4.
Definition VK_LAUNCH_MEDIA_SELECT := 0xB5.
Definition VK_LAUNCH_APP1 := 0xB6.
Definition VK_LAUNCH_APP2 := 0xB7.
Definition VK_OEM_1 := 0xBA.
Definition VK_OEM_PLUS := 0xBB.
Definition VK_OEM_COMMA := 0xBC.
Definition VK_OEM_MINUS := 0xBD.
Definition VK_OEM_PERIOD := 0xBE.
Definition VK_OEM_2 := 0xBF.
Definition VK_OEM_3 := 0xC0.
Definition VK_OEM_4 := 0xDB.
Definition VK_OEM_5 := 0xDC.
Definition VK_OEM_6 := 0xDD.
Definition VK_OEM_7 := 0xDE.
Definition VK_OEM_8 := 0xDF.
Definition VK_OEM_102 := 0xE2.
Definition VK_PROCESSKEY := 0xE5.
Definition VK_ATTN := 0xF6.
Definition VK_CRSEL := 0xF7.
Definition VK_EXSEL := 0xF8.
Definition VK_EREOF := 0xF9.
Definition VK_PLAY := 0xFA.
Definition VK_ZOOM := 0xFB.
Definition VK_NONAME := 0xFC.
Definition VK_PA1 := 0xFD.
Definition VK_OEM_CLEAR := 0xFE.

Definition WM_NCXBUTTONDOWN := 0x00AB.
Definition WM_NCXBUTTONUP := 0x00AC.
Definition WM_MOUSEMOVE := 0x0200.
Definition WM_LBUTTONDOWN := 0x0201.
Definition WM_LBUTTONUP := 0x0202.
Definition WM_RBUTTONDOWN := 0x0204.
Definition WM_RBUTTONUP := 0x0205.
Definition WM_MBUTTONDOWN := 0x0207.
Definition WM_MBUTTONUP := 0x0208.
Definition WM_MOUSEWHEEL := 0x020A.
Definition WM_XBUTTONDOWN := 0x020B.
Definition WM_XBUTTONUP := 0x020C.
Definition WM_MOUSEHWHEEL := 0x020E.
Definition XBUTTON1 := 0x0001.
Definition XBUTTON2 := 0x0002.
Definition HIWORD (l : Z) : Z := Z.land (Z.shiftr l 16) 0xFFFF.
Definition HIBYTE (w : Z) : Z := Z.land (Z.shiftr w 8) 0xFF.

Definition KEYEVENTF_KEYDOWN := 0x0000.
Definition KEYEVENTF_EXTENDEDKEY := 0x0001.
Definition KEYEVENTF_KEYUP := 0x0002.
Definition KEYEVENTF_UNICODE := 0x0004.
Definition KF_ALTDOWN := 0x2000.
Definition MAPVK_VK_TO_VSC_EX := 4.
Definition MOUSEEVENTF_MOVE := 0x0001.
Definition MOUSEEVENTF_LEFTDOWN := 0x0002.
Definition MOUSEEVENTF_LEFTUP := 0x0004.
Definition MOUSEEVENTF_RIGHTDOWN := 0x0008.
Definition MOUSEEVENTF_RIGHTUP := 0x0010.
Definition MOUSEEVENTF_MIDDLEDOWN := 0x0020.
Definition MOUSEEVENTF_MIDDLEUP := 0x0040.
Definition MOUSEEVENTF_XDOWN := 0x0080.
Definition MOUSEEVENTF_XUP := 0x0100.
Definition MOUSEEVENTF_WHEEL := 0x0800.
Definition MOUSEEVENTF_HWHEEL := 0x1000.
Definition MOUSEEVENTF_VIRTUALDESK := 0x4000.
Definition MOUSEEVENTF_ABSOLUTE := 0x8000.

(** *** windows/input_helper.c *)

(** Rows are [(vcode, vk_code)], in the order of the source. *)
Definition vcode_keycode_table : list (Z * Z) :=
  [ (VC_CANCEL, VK_CANCEL); (VC_BACKSPACE, VK_BACK); (VC_TAB, VK_TAB);
    (VC_KP_CLEAR, VK_CLEAR); (VC_KP_CLEAR, VK_OEM_CLEAR);
    (VC_ENTER, VK_RETURN); (VC_KP_ENTER, VK_RETURN);
    (VC_SHIFT_L, VK_LSHIFT); (VC_SHIFT_R, VK_RSHIFT); (VC_SHIFT_L, VK_SHIFT);
    (VC_CONTROL_L, VK_LCONTROL); (VC_CONTROL_R, VK_RCONTROL);
    (VC_CONTROL_L, VK_CONTROL);
    (VC_ALT_L, VK_LMENU); (VC_ALT_R, VK_RMENU); (VC_ALT_L, VK_MENU);
    (VC_PAUSE, VK_PAUSE); (VC_CAPS_LOCK, VK_CAPITAL); (VC_KANA, VK_KANA);
    (VC_HANGUL, VK_HANGUL); (VC_IME_ON, VK_IME_ON); (VC_JUNJA, VK_JUNJA);
    (VC_FINAL, VK_FINAL); (VC_HANJA, VK_HANJA); (VC_KANJI, VK_KANJI);
    (VC_IME_OFF, VK_IME_OFF); (VC_ESCAPE, VK_ESCAPE);
    (VC_CONVERT, VK_CONVERT); (VC_NONCONVERT, VK_NONCONVERT);
    (VC_ACCEPT, VK_ACCEPT); (VC_MODE_CHANGE, VK_MODECHANGE);
    (VC_SPACE, VK_SPACE); (VC_PAGE_UP, VK_PRIOR); (VC_PAGE_DOWN, VK_NEXT);
    (VC_END, VK_END); (VC_HOME, VK_HOME); (VC_LEFT, VK_LEFT);
    (VC_UP, VK_UP); (VC_RIGHT, VK_RIGHT); (VC_DOWN, VK_DOWN);
    (VC_SELECT, VK_SELECT); (VC_PRINT, VK_PRINT); (VC_EXECUTE, VK_EXECUTE);
    (VC_PRINT_SCREEN, VK_SNAPSHOT); (VC_INSERT, VK_INSERT);
    (VC_DELETE, VK_DELETE); (VC_HELP, VK_HELP);
    (VC_0, 0x30); (VC_1, 0x31); (VC_2, 0x32); (VC_3, 0x33); (VC_4, 0x34);
    (VC_5, 0x35); (VC_6, 0x36); (VC_7, 0x37); (VC_8, 0x38); (VC_9, 0x39);
    (VC_A, 0x41); (VC_B, 0x42); (VC_C, 0x43); (VC_D, 0x44); (VC_E, 0x45);
    (VC_F, 0x46); (VC_G, 0x47); (VC_H, 0x48); (VC_I, 0x49); (VC_J, 0x4A);
    (VC_K, 0x4B); (VC_L, 0x4C); (VC_M, 0x4D); (VC_N, 0x4E); (VC_O, 0x4F);
    (VC_P, 0x50); (VC_Q, 0x51); (VC_R, 0x52); (VC_S, 0x53); (VC_T, 0x54);
    (VC_U, 0x55); (VC_V, 0x56); (VC_W, 0x57); (VC_X, 0x58); (VC_Y, 0x59);
    (VC_Z, 0x5A);
    (VC_META_L, VK_LWIN); (VC_META_R, VK_RWIN); (VC_CONTEXT_MENU, VK_APPS);
    (VC_SLEEP, VK_SLEEP);
    (VC_KP_0, VK_NUMPAD0); (VC_KP_1, VK_NUMPAD1); (VC_KP_2, VK_NUMPAD2);
    (VC_KP_3, VK_NUMPAD3); (VC_KP_4, VK_NUMPAD4); (VC_KP_5, VK_NUMPAD5);
    (VC_KP_6, VK_NUMPAD6); (VC_KP_7, VK_NUMPAD7); (VC_KP_8, VK_NUMPAD8);
    (VC_KP_9, VK_NUMPAD9); (VC_KP_9, VK_NUMPAD9);
    (VC_KP_MULTIPLY, VK_MULTIPLY); (VC_KP_ADD, VK_ADD);
    (VC_KP_SEPARATOR, VK_SEPARATOR); (VC_KP_SUBTRACT, VK_SUBTRACT);
    (VC_KP_DECIMAL, VK_DECIMAL); (VC_KP_DIVIDE, VK_DIVIDE);
    (VC_F1, VK_F1); (VC_F2, VK_F2); (VC_F3, VK_F3); (VC_F4, VK_F4);
    (VC_F5, VK_F5); (VC_F6, VK_F6); (VC_F7, VK_F7); (VC_F8, VK_F8);
    (VC_F9, VK_F9); (VC_F10, VK_F10); (VC_F11, VK_F11); (VC_F12, VK_F12);
    (VC_F13, VK_F13); (VC_F14, VK_F14); (VC_F15, VK_F15); (VC_F16, VK_F16);
    (VC_F17, VK_F17); (VC_F18, VK_F18); (VC_F19, VK_F19); (VC_F20, VK_F20);
    (VC_F21, VK_F21); (VC_F22, VK_F22); (VC_F23, VK_F23); (VC_F24, VK_F24);
    (VC_NUM_LOCK, VK_NUMLOCK); (VC_SCROLL_LOCK, VK_SCROLL);
    (VC_KP_EQUALS, 0x92);
    (VC_BROWSER_BACK, VK_BROWSER_BACK);
    (VC_BROWSER_FORWARD, VK_BROWSER_FORWARD);
    (VC_BROWSER_REFRESH, VK_BROWSER_REFRESH);
    (VC_BROWSER_STOP, VK_BROWSER_STOP);
    (VC_BROWSER_SEARCH, VK_BROWSER_SEARCH);
    (VC_BROWSER_FAVORITES, VK_BROWSER_FAVORITES);
    (VC_BROWSER_HOME, VK_BROWSER_HOME);
    (VC_VOLUME_MUTE, VK_VOLUME_MUTE); (VC_VOLUME_DOWN, VK_VOLUME_DOWN);
    (VC_VOLUME_UP, VK_VOLUME_UP);
    (VC_MEDIA_NEXT, VK_MEDIA_NEXT_TRACK);
    (VC_MEDIA_PREVIOUS, VK_MEDIA_PREV_TRACK);
    (VC_MEDIA_STOP, VK_MEDIA_STOP); (VC_MEDIA_PLAY, VK_MEDIA_PLAY_PAUSE);
    (VC_APP_MAIL, VK_LAUNCH_MAIL);
    (VC_MEDIA_SELECT, VK_LAUNCH_MEDIA_SELECT);
    (VC_APP_1, VK_LAUNCH_APP1); (VC_APP_2, VK_LAUNCH_APP2);
    (VC_SEMICOLON, VK_OEM_1); (VC_EQUALS, VK_OEM_PLUS);
    (VC_COMMA, VK_OEM_COMMA); (VC_MINUS, VK_OEM_MINUS);
    (VC_PERIOD, VK_OEM_PERIOD); (VC_SLASH, VK_OEM_2);
    (VC_BACK_QUOTE, VK_OEM_3); (VC_OPEN_BRACKET, VK_OEM_4);
    (VC_BACK_SLASH, VK_OEM_5); (VC_CLOSE_BRACKET, VK_OEM_6);
    (VC_QUOTE, VK_OEM_7); (VC_MISC, VK_OEM_8); (VC_102, VK_OEM_102);
    (VC_PROCESS, VK_PROCESSKEY); (VC_ATTN, VK_ATTN); (VC_CR_SEL, VK_CRSEL);
    (VC_EX_SEL, VK_EXSEL); (VC_ERASE_EOF, VK_EREOF); (VC_PLAY, VK_PLAY);
    (VC_ZOOM, VK_ZOOM); (VC_NO_NAME, VK_NONAME); (VC_PA1, VK_PA1) ].

(** The first-match scan of [keycode_to_vcode], before the refinement. *)
Definition scan_keycode (vk_code : Z) : Z :=
  match find (fun row => vk_code =? snd row) vcode_keycode_table with
  | Some row => fst row
  | None => VC_UNDEFINED
  end.

(** [vcode == VC_ENTER && flags & KEYEVENTF_EXTENDEDKEY] *)
Definition keycode_to_vcode (vk_code flags : Z) : Z :=
  let vcode := scan_keycode vk_code in
  if (vcode =? VC_ENTER) && negb (Z.land flags KEYEVENTF_EXTENDEDKEY =? 0)
  then VC_KP_ENTER
  else vcode.

Definition vcode_to_keycode (vcode : Z) : Z :=
  match find (fun row => vcode =? fst row) vcode_keycode_table with
  | Some row => snd row
  | None => 0x0000
  end.

(** The static [modifier_mask] is the state of these three functions. *)
Definition set_modifier_mask (mask : Z) (m : Z) : Z :=
  uint16 (Z.lor m (uint16 mask)).

Definition unset_modifier_mask (mask : Z) (m : Z) : Z :=
  uint16 (Z.land m (Z.lnot (uint16 mask))).

Definition get_modifiers (m : Z) : Z := m.


(** *** windows/input_hook.c *)

(** The dispatchers live in dispatch_event.c; the hook procedure only
    needs their verdict.  A call is logged together with the modifier
    mask the dispatcher can read at that moment. *)
Inductive dispatch_call : Set :=
| dispatch_button_press (button : Z)
| dispatch_button_release (button : Z)
| dispatch_mouse_move
| dispatch_mouse_wheel (direction : Z).

Record hook_state : Set := {
  modifier_mask : Z;
  dispatched : list (dispatch_call * Z)
}.

Section MouseHook.
(** The verdict of the dispatcher ("consumed") and the result of
    [CallNextHookEx]. *)
Variable dispatch : dispatch_call -> Z -> bool.
Variable CallNextHookEx : Z.

Definition with_mask (f : Z -> Z) (st : hook_state) : hook_state :=
  {| modifier_mask := f (modifier_mask st); dispatched := dispatched st |}.

Definition call (c : dispatch_call) (st : hook_state) : bool * hook_state :=
  (dispatch c (modifier_mask st),
   {| modifier_mask := modifier_mask st;
      dispatched := dispatched st ++ [(c, modifier_mask st)] |}).

(** The [switch (wParam)] of [mouse_hook_event_proc]. *)
Definition mouse_hook_switch (wParam mouseData : Z) (st : hook_state)
  : bool * hook_state :=
  if wParam =? WM_LBUTTONDOWN then
    call (dispatch_button_press MOUSE_BUTTON1)
         (with_mask (set_modifier_mask MASK_BUTTON1) st)
  else if wParam =? WM_RBUTTONDOWN then
    call (dispatch_button_press MOUSE_BUTTON2)
         (with_mask (set_modifier_mask MASK_BUTTON2) st)
  else if wParam =? WM_MBUTTONDOWN then
    call (dispatch_button_press MOUSE_BUTTON3)
         (with_mask (set_modifier_mask MASK_BUTTON3) st)
  else if (wParam =? WM_XBUTTONDOWN) || (wParam =? WM_NCXBUTTONDOWN) then
    if HIWORD mouseData =? XBUTTON1 then
      call (dispatch_button_press MOUSE_BUTTON4)
           (with_mask (set_modifier_mask MASK_BUTTON4) st)
    else if HIWORD mouseData =? XBUTTON2 then
      call (dispatch_button_press MOUSE_BUTTON5)
           (with_mask (set_modifier_mask MASK_BUTTON5) st)
    else
      (* Extra mouse buttons. *)
      let button := uint16 (HIWORD mouseData) in
      let st' :=
        if button =? 4 then with_mask (set_modifier_mask MOUSE_BUTTON4) st
        else if button =? 5 then with_mask (set_modifier_mask MOUSE_BUTTON5) st
        else st in
      call (dispatch_button_press button) st'
  else if wParam =? WM_LBUTTONUP then
    call (dispatch_button_release MOUSE_BUTTON1)
         (with_mask (unset_modifier_mask MASK_BUTTON1) st)
  else if wParam =? WM_RBUTTONUP then
    call (dispatch_button_release MOUSE_BUTTON2)
         (with_mask (unset_modifier_mask MASK_BUTTON2) st)
  else if wParam =? WM_MBUTTONUP then
    call (dispatch_button_release MOUSE_BUTTON3)
         (with_mask (unset_modifier_mask MASK_BUTTON3) st)
  else if (wParam =? WM_XBUTTONUP) || (wParam =? WM_NCXBUTTONUP) then
    if HIWORD mouseData =? XBUTTON1 then
      call (dispatch_button_release MOUSE_BUTTON4)
           (with_mask (unset_modifier_mask MASK_BUTTON4) st)
    else if HIWORD mouseData =? XBUTTON2 then
      call (dispatch_button_release MOUSE_BUTTON5)
           (with_mask (unset_modifier_mask MASK_BUTTON5) st)
    else
      (* Extra mouse buttons. *)
      let button := uint16 (HIWORD mouseData) in
      let st' :=
        if button =? 4 then with_mask (unset_modifier_mask MOUSE_BUTTON4) st
        else if button =? 5 then with_mask (unset_modifier_mask MOUSE_BUTTON5) st
        else st in
      call (dispatch_button_release MOUSE_BUTTON5) st'
  else if wParam =? WM_MOUSEMOVE then
    call dispatch_mouse_move st
  else if wParam =? WM_MOUSEWHEEL then
    call (dispatch_mouse_wheel WHEEL_VERTICAL_DIRECTION) st
  else if wParam =? WM_MOUSEHWHEEL then
    call (dispatch_mouse_wheel WHEEL_HORIZONTAL_DIRECTION) st
  else
    (false, st).

Definition mouse_hook_event_proc (nCode wParam mouseData : Z) (st : hook_state)
  : Z * hook_state :=
  let '(consumed, st') := mouse_hook_switch wParam mouseData st in
  let hook_result :=
    if (nCode <? 0) || negb consumed then CallNextHookEx else -1 in
  (hook_result, st').
End MouseHook.

(** *** windows/monitor_helper.c *)

Record RECT : Set := { rc_left : Z; rc_top : Z; rc_right : Z; rc_bottom : Z }.

(** The statics [monitors_enumerated], [left] and [top]. *)
Record monitor_state : Set := {
  monitors_enumerated : bool;
  left : Z;
  top : Z
}.

Definition initial_monitor_state : monitor_state :=
  {| monitors_enumerated := false; left := 0; top := 0 |}.

(** One callback of [EnumDisplayMonitors]; [None] is a monitor for which
    [GetMonitorInfo] fails. *)
Definition enum_monitor_proc (rcMonitor : option RECT) (st : monitor_state)
  : monitor_state :=
  match rcMonitor with
  | Some rc =>
      {| monitors_enumerated := monitors_enumerated st;
         left := if rc_left rc <? left st then rc_left rc else left st;
         top := if rc_top rc <? top st then rc_top rc else top st |}
  | None => st
  end.

Definition enumerate_displays (monitors : list (option RECT)) (st : monitor_state)
  : monitor_state :=
  let st0 := {| monitors_enumerated := monitors_enumerated st; left := 0; top := 0 |} in
  let st1 := fold_left (fun s m => enum_monitor_proc m s) monitors st0 in
  {| monitors_enumerated := true; left := left st1; top := top st1 |}.

Definition get_largest_negative_coordinates
  (monitors : list (option RECT)) (st : monitor_state) : (Z * Z) * monitor_state :=
  let st' := if monitors_enumerated st then st else enumerate_displays monitors st in
  ((left st', top st'), st').

(** *** windows/post_event.c *)

Definition int32 (z : Z) : Z := (z + 2 ^ 31) mod 2 ^ 32 - 2 ^ 31.

Record KEYBDINPUT : Set := { wVk : Z; wScan : Z; ki_dwFlags : Z }.
Record MOUSEINPUT : Set := { dx : Z; dy : Z; mouseData : Z; mi_dwFlags : Z }.
Inductive INPUT : Set :=
| INPUT_MOUSE (mi : MOUSEINPUT)
| INPUT_KEYBOARD (ki : KEYBDINPUT).

(** What the operating system answers. *)
Record env : Type := {
  monitors : list (option RECT);       (* EnumDisplayMonitors, GetMonitorInfo *)
  SM_CXVIRTUALSCREEN : Z;              (* GetSystemMetrics(SM_CXVIRTUALSCREEN) *)
  SM_CYVIRTUALSCREEN : Z;              (* GetSystemMetrics(SM_CYVIRTUALSCREEN) *)
  GetCursorPos : option (Z * Z);
  MapVirtualKeyW : Z -> Z -> Z;
  calloc : bool;                       (* false: the allocation fails *)
  SendInput : list INPUT -> Z          (* number of events inserted, 0 on failure *)
}.

(** [MulDiv] is the kernel32 primitive: the 64-bit product divided by the
    third argument, rounded to the nearest integer (halves away from
    zero); -1 when the divisor is 0 or the result overflows. *)
Definition MulDiv (nNumber nNumerator nDenominator : Z) : Z :=
  if nDenominator =? 0 then -1
  else
    let p := nNumber * nNumerator in
    let r := Z.sgn p * Z.sgn nDenominator *
             ((Z.abs p + Z.abs nDenominator / 2) / Z.abs nDenominator) in
    if (r <? - (2 ^ 31 - 1)) || (2 ^ 31 - 1 <? r) then -1 else r.

Definition MAX_WINDOWS_COORD_VALUE : Z := Z.shiftl 1 16 - 1.

Definition get_absolute_coordinate (coordinate screen_size : Z) : Z :=
  MulDiv (int32 coordinate) MAX_WINDOWS_COORD_VALUE screen_size.

Definition normalize_coordinates (e : env) (x y : Z) (st : monitor_state)
  : (Z * Z) * monitor_state :=
  let screen_width := uint16 (SM_CXVIRTUALSCREEN e) in
  let screen_height := uint16 (SM_CYVIRTUALSCREEN e) in
  let '(lnc, st') := get_largest_negative_coordinates (monitors e) st in
  let x := int32 (x + Z.abs (fst lnc)) in
  let y := int32 (y + Z.abs (snd lnc)) in
  ((get_absolute_coordinate x screen_width,
    get_absolute_coordinate y screen_height), st').

(** [event->mask & MASK_ALT] after macro expansion is
    [event->mask & 1 << 3 | 1 << 7]. *)
Definition mask_and_MASK_ALT (mask : Z) : Z :=
  Z.lor (Z.land mask (Z.shiftl 1 3)) (Z.shiftl 1 7).

Definition map_keyboard_event (e : env) (event : uiohook_event)
  : Z * KEYBDINPUT :=
  let zero := {| wVk := 0; wScan := 0; ki_dwFlags := 0 |} in
  let flags :=
    match type event with
    | EVENT_KEY_PRESSED => Some KEYEVENTF_KEYDOWN
    | EVENT_KEY_RELEASED => Some KEYEVENTF_KEYUP
    | _ => None
    end in
  match flags with
  | None => (UIOHOOK_FAILURE, zero)
  | Some flags =>
      let vk := uint16 (vcode_to_keycode (keycode (keyboard event))) in
      if vk =? 0x0000 then
        (UIOHOOK_FAILURE, {| wVk := vk; wScan := 0; ki_dwFlags := flags |})
      else
        let scan := uint16 (MapVirtualKeyW e vk MAPVK_VK_TO_VSC_EX) in
        let flags :=
          if mask_and_MASK_ALT (mask event) =? 0 then flags
          else Z.lor flags KF_ALTDOWN in
        let flags :=
          if HIBYTE scan =? 0 then flags
          else Z.lor flags KEYEVENTF_EXTENDEDKEY in
        (UIOHOOK_SUCCESS, {| wVk := vk; wScan := scan; ki_dwFlags := flags |})
  end.

Definition with_type (t : event_type) (event : uiohook_event) : uiohook_event :=
  {| type := t; time := time event; mask := mask event;
     reserved := reserved event; keyboard := keyboard event;
     mouse := mouse event; wheel := wheel event |}.

(** A trace of the calls to [SendInput], oldest first. *)
Definition trace : Set := list (list INPUT).

Section PostEvent.
Variable e : env.
(** The call [hook_post_event(event)] that [map_mouse_event] makes to
    move the pointer before a click. *)
Variable nested : uiohook_event -> monitor_state -> Z * monitor_state * trace.

Definition x_button_data (b : Z) : Z :=
  if b =? MOUSE_BUTTON4 then XBUTTON1
  else if b =? MOUSE_BUTTON5 then XBUTTON2
  else uint32 (b - 3).

Definition map_mouse_event (event : uiohook_event) (st : monitor_state)
  : Z * MOUSEINPUT * monitor_state * trace :=
  let '(nc, st1) :=
    match type event with
    | EVENT_MOUSE_WHEEL => ((0, 0), st)
    | t =>
        let x := mouse_x (mouse event) in
        let y := mouse_y (mouse event) in
        let '(x, y) :=
          match t, GetCursorPos e with
          | EVENT_MOUSE_MOVED_RELATIVE_TO_CURSOR, Some p =>
              (int32 (x + fst p), int32 (y + snd p))
          | _, _ => (x, y)
          end in
        normalize_coordinates e x y st
    end in
  let input (data flags : Z) :=
    {| dx := fst nc; dy := snd nc; mouseData := data; mi_dwFlags := flags |} in
  let b := button (mouse event) in
  match type event with
  | EVENT_MOUSE_PRESSED | EVENT_MOUSE_PRESSED_IGNORE_COORDS =>
      if b =? MOUSE_NOBUTTON then (UIOHOOK_FAILURE, input 0 0, st1, [])
      else
        let i :=
          if b =? MOUSE_BUTTON1 then input 0 MOUSEEVENTF_LEFTDOWN
          else if b =? MOUSE_BUTTON2 then input 0 MOUSEEVENTF_RIGHTDOWN
          else if b =? MOUSE_BUTTON3 then input 0 MOUSEEVENTF_MIDDLEDOWN
          else input (x_button_data b) MOUSEEVENTF_XDOWN in
        match type event with
        | EVENT_MOUSE_PRESSED =>
            let '(_, st2, tr) := nested (with_type EVENT_MOUSE_MOVED event) st1 in
            (UIOHOOK_SUCCESS, i, st2, tr)
        | _ => (UIOHOOK_SUCCESS, i, st1, [])
        end
  | EVENT_MOUSE_RELEASED | EVENT_MOUSE_RELEASED_IGNORE_COORDS =>
      if b =? MOUSE_NOBUTTON then (UIOHOOK_FAILURE, input 0 0, st1, [])
      else
        let i :=
          if b =? MOUSE_BUTTON1 then input 0 MOUSEEVENTF_LEFTUP
          else if b =? MOUSE_BUTTON2 then input 0 MOUSEEVENTF_RIGHTUP
          else if b =? MOUSE_BUTTON3 then input 0 MOUSEEVENTF_MIDDLEUP
          else input (x_button_data b) MOUSEEVENTF_XUP in
        match type event with
        | EVENT_MOUSE_RELEASED =>
            let '(_, st2, tr) := nested (with_type EVENT_MOUSE_MOVED event) st1 in
            (UIOHOOK_SUCCESS, i, st2, tr)
        | _ => (UIOHOOK_SUCCESS, i, st1, [])
        end
  | EVENT_MOUSE_WHEEL =>
      if direction (wheel event) =? WHEEL_HORIZONTAL_DIRECTION then
        (UIOHOOK_SUCCESS,
         input (uint32 (rotation (wheel event) * -1)) MOUSEEVENTF_HWHEEL, st1, [])
      else
        (UIOHOOK_SUCCESS,
         input (uint32 (rotation (wheel event))) MOUSEEVENTF_WHEEL, st1, [])
  | EVENT_MOUSE_DRAGGED | EVENT_MOUSE_MOVED
  | EVENT_MOUSE_MOVED_RELATIVE_TO_CURSOR =>
      (UIOHOOK_SUCCESS,
       input 0 (Z.lor (Z.lor MOUSEEVENTF_MOVE MOUSEEVENTF_ABSOLUTE)
                      MOUSEEVENTF_VIRTUALDESK), st1, [])
  | _ => (UIOHOOK_FAILURE, input 0 0, st1, [])
  end.

Definition hook_post_event_with (event : uiohook_event) (st : monitor_state)
  : Z * monitor_state * trace :=
  if negb (calloc e) then (UIOHOOK_ERROR_OUT_OF_MEMORY, st, [])
  else
    let '(status, input, st', tr) :=
      match type event with
      | EVENT_KEY_PRESSED | EVENT_KEY_RELEASED =>
          let '(status, ki) := map_keyboard_event e event in
          (status, INPUT_KEYBOARD ki, st, [])
      | EVENT_MOUSE_PRESSED | EVENT_MOUSE_RELEASED | EVENT_MOUSE_WHEEL
      | EVENT_MOUSE_MOVED | EVENT_MOUSE_MOVED_RELATIVE_TO_CURSOR
      | EVENT_MOUSE_DRAGGED | EVENT_MOUSE_PRESSED_IGNORE_COORDS
      | EVENT_MOUSE_RELEASED_IGNORE_COORDS =>
          let '(status, mi, st', tr) := map_mouse_event event st in
          (status, INPUT_MOUSE mi, st', tr)
      | _ =>
          (UIOHOOK_FAILURE,
           INPUT_MOUSE {| dx := 0; dy := 0; mouseData := 0; mi_dwFlags := 0 |},
           st, [])
      end in
    if status =? UIOHOOK_SUCCESS then
      if SendInput e [input] =? 0
      then (UIOHOOK_FAILURE, st', tr ++ [[input]])
      else (status, st', tr ++ [[input]])
    else (status, st', tr).
End PostEvent.

(** [hook_post_event] calls itself through [map_mouse_event] only with
    an [EVENT_MOUSE_MOVED] event, for which [map_mouse_event] makes no
    further call: the recursion has depth one. *)
Definition hook_post_move (e : env) : uiohook_event -> monitor_state -> Z * monitor_state * trace :=
  hook_post_event_with e (fun _ st => (UIOHOOK_FAILURE, st, [])).

Definition hook_post_event (e : env) : uiohook_event -> monitor_state -> Z * monitor_state * trace :=
  hook_post_event_with e (hook_post_move e).

(** [text] is [None] for a null pointer, and otherwise the code units
    the pointer addresses; the string ends at the first 0. *)
Fixpoint text_units (text : list Z) : list Z :=
  match text with
  | [] => []
  | c :: rest => if c =? 0 then [] else c :: text_units rest
  end.

Definition unicode_key (flags : Z) (c : Z) : INPUT :=
  INPUT_KEYBOARD {| wVk := 0; wScan := uint16 c; ki_dwFlags := flags |}.

Definition hook_post_text (e : env) (text : option (list Z)) : Z * trace :=
  match text with
  | None => (UIOHOOK_ERROR_POST_TEXT_NULL, [])
  | Some text =>
      let units := text_units text in
      if negb (calloc e) then (UIOHOOK_ERROR_OUT_OF_MEMORY, [])
      else
        let input :=
          map (unicode_key (Z.lor KEYEVENTF_UNICODE KEYEVENTF_KEYDOWN)) units ++
          map (unicode_key (Z.lor KEYEVENTF_UNICODE KEYEVENTF_KEYUP)) units in
        (* the local [status] records the failure of SendInput, but the
           function ends in [return UIOHOOK_SUCCESS;] *)
        let status :=
          if SendInput e input =? 0 then UIOHOOK_FAILURE else UIOHOOK_SUCCESS in
        (UIOHOOK_SUCCESS, [input])
  end.

(** *** windows/input_hook.c: the modifiers when the hook starts *)

Definition VK_LBUTTON := 0x01.
Definition VK_RBUTTON := 0x02.
Definition VK_MBUTTON := 0x04.
Definition VK_XBUTTON1 := 0x05.
Definition VK_XBUTTON2 := 0x06.

(** [if (GetKeyState(vk) < 0) { set_modifier_mask(mask); }]; the result
    of [GetKeyState] is a signed short. *)
Definition set_if_down (GetKeyState : Z -> Z) (vk mask : Z) (m : Z) : Z :=
  if GetKeyState vk <? 0 then set_modifier_mask mask m else m.

(** [current_modifiers] is the static of input_hook.c that the function
    resets; [m] is the static [modifier_mask] of input_helper.c, which
    [set_modifier_mask] writes and [get_modifiers] reads. *)
Definition initialize_modifiers (GetKeyState : Z -> Z) (keyboard mouse : bool)
  (current_modifiers m : Z) : Z * Z :=
  let current_modifiers := 0x0000 in
  let m :=
    if keyboard then
      let m := set_if_down GetKeyState VK_LSHIFT MASK_SHIFT_L m in
      let m := set_if_down GetKeyState VK_RSHIFT MASK_SHIFT_R m in
      let m := set_if_down GetKeyState VK_LCONTROL MASK_CTRL_L m in
      let m := set_if_down GetKeyState VK_RCONTROL MASK_CTRL_R m in
      let m := set_if_down GetKeyState VK_LMENU MASK_ALT_L m in
      let m := set_if_down GetKeyState VK_RMENU MASK_ALT_R m in
      let m := set_if_down GetKeyState VK_LWIN MASK_META_L m in
      let m := set_if_down GetKeyState VK_RWIN MASK_META_R m in
      let m := set_if_down GetKeyState VK_NUMLOCK MASK_NUM_LOCK m in
      let m := set_if_down GetKeyState VK_CAPITAL MASK_CAPS_LOCK m in
      set_if_down GetKeyState VK_SCROLL MASK_SCROLL_LOCK m
    else m in
  let m :=
    if mouse then
      let m := set_if_down GetKeyState VK_LBUTTON MASK_BUTTON1 m in
      let m := set_if_down GetKeyState VK_RBUTTON MASK_BUTTON2 m in
      let m := set_if_down GetKeyState VK_MBUTTON MASK_BUTTON3 m in
      let m := set_if_down GetKeyState VK_XBUTTON1 MASK_BUTTON4 m in
      set_if_down GetKeyState VK_XBUTTON2 MASK_BUTTON5 m
    else m in
  (current_modifiers, m).

End Windows.

(** ** The macOS back end *)
Module Darwin.
Import UIOHook.

(** *** darwin/input_helper.h *)
Definition NX_POWER_KEY := 0x06.
Definition NX_KEYTYPE_EJECT := 0x0E.
Definition NX_KEYTYPE_PLAY := 0x10.
Definition NX_KEYTYPE_NEXT := 0x11.
Definition NX_KEYTYPE_PREVIOUS := 0x12.

Definition kVK_NX_Power := Z.lor 0xE0 NX_POWER_KEY.
Definition kVK_NX_Eject := Z.lor 0xE0 NX_KEYTYPE_EJECT.
Definition kVK_MEDIA_Play := Z.lor 0xE0 NX_KEYTYPE_PLAY.
Definition kVK_MEDIA_Next := Z.lor 0xE0 NX_KEYTYPE_NEXT.
Definition kVK_MEDIA_Previous := Z.lor 0xE0 NX_KEYTYPE_PREVIOUS.
Definition kVK_RightCommand := 0x36.
Definition kVK_ContextMenu := 0x6E.
Definition kVK_ChangeInputSource := 0xB3.
Definition kVK_Undefined := 0xFF.

Definition kVK_ANSI_A := 0x00.
Definition kVK_ANSI_S := 0x01.
Definition kVK_ANSI_D := 0x02.
Definition kVK_ANSI_F := 0x03.
Definition kVK_ANSI_H := 0x04.
Definition kVK_ANSI_G := 0x05.
Definition kVK_ANSI_Z := 0x06.
Definition kVK_ANSI_X := 0x07.
Definition kVK_ANSI_C := 0x08.
Definition kVK_ANSI_V := 0x09.
Definition kVK_ANSI_B := 0x0B.
Definition kVK_ANSI_Q := 0x0C.
Definition kVK_ANSI_W := 0x0D.
Definition kVK_ANSI_E := 0x0E.
Definition kVK_ANSI_R := 0x0F.
Definition kVK_ANSI_Y := 0x10.
Definition kVK_ANSI_T := 0x11.
Definition kVK_ANSI_1 := 0x12.
Definition kVK_ANSI_2 := 0x13.
Definition kVK_ANSI_3 := 0x14.
Definition kVK_ANSI_4 := 0x15.
Definition kVK_ANSI_6 := 0x16.
Definition kVK_ANSI_5 := 0x17.
Definition kVK_ANSI_Equal := 0x18.
Definition kVK_ANSI_9 := 0x19.
Definition kVK_ANSI_7 := 0x1A.
Definition kVK_ANSI_Minus := 0x1B.
Definition kVK_ANSI_8 := 0x1C.
Definition kVK_ANSI_0 := 0x1D.
Definition kVK_ANSI_RightBracket := 0x1E.
Definition kVK_ANSI_O := 0x1F.
Definition kVK_ANSI_U := 0x20.
Definition kVK_ANSI_LeftBracket := 0x21.
Definition kVK_ANSI_I := 0x22.
Definition kVK_ANSI_P := 0x23.
Definition kVK_ANSI_L := 0x25.
Definition kVK_ANSI_J := 0x26.
Definition kVK_ANSI_Quote := 0x27.
Definition kVK_ANSI_K := 0x28.
Definition kVK_ANSI_Semicolon := 0x29.
Definition kVK_ANSI_Backslash := 0x2A.
Definition kVK_ANSI_Comma := 0x2B.
Definition kVK_ANSI_Slash := 0x2C.
Definition kVK_ANSI_N := 0x2D.
Definition kVK_ANSI_M := 0x2E.
Definition kVK_ANSI_Period := 0x2F.
Definition kVK_ANSI_Grave := 0x32.
Definition kVK_ANSI_KeypadDecimal := 0x41.
Definition kVK_ANSI_KeypadMultiply := 0x43.
Definition kVK_ANSI_KeypadPlus := 0x45.
Definition kVK_ANSI_KeypadClear := 0x47.
Definition kVK_ANSI_KeypadDivide := 0x4B.
Definition kVK_ANSI_KeypadEnter := 0x4C.
Definition kVK_ANSI_KeypadMinus := 0x4E.
Definition kVK_ANSI_KeypadEquals := 0x51.
Definition kVK_ANSI_Keypad0 := 0x52.
Definition kVK_ANSI_Keypad1 := 0x53.
Definition kVK_ANSI_Keypad2 := 0x54.
Definition kVK_ANSI_Keypad3 := 0x55.
Definition kVK_ANSI_Keypad4 := 0x56.
Definition kVK_ANSI_Keypad5 := 0x57.
Definition kVK_ANSI_Keypad6 := 0x58.
Definition kVK_ANSI_Keypad7 := 0x59.
Definition kVK_ANSI_Keypad8 := 0x5B.
Definition kVK_ANSI_Keypad9 := 0x5C.
Definition kVK_Return := 0x24.
Definition kVK_Tab := 0x30.
Definition kVK_Space := 0x31.
Definition kVK_Delete := 0x33.
Definition kVK_Escape := 0x35.
Definition kVK_Command := 0x37.
Definition kVK_Shift := 0x38.
Definition kVK_CapsLock := 0x39.
Definition kVK_Option := 0x3A.
Definition kVK_Control := 0x3B.
Definition kVK_RightShift := 0x3C.
Definition kVK_RightOption := 0x3D.
Definition kVK_RightControl := 0x3E.
Definition kVK_Function := 0x3F.
Definition kVK_F17 := 0x40.
Definition kVK_VolumeUp := 0x48.
Definition kVK_VolumeDown := 0x49.
Definition kVK_Mute := 0x4A.
Definition kVK_F18 := 0x4F.
Definition kVK_F19 := 0x50.
Definition kVK_F20 := 0x5A.
Definition kVK_F5 := 0x60.
Definition kVK_F6 := 0x61.
Definition kVK_F7 := 0x62.
Definition kVK_F3 := 0x63.
Definition kVK_F8 := 0x64.
Definition kVK_F9 := 0x65.
Definition kVK_F11 := 0x67.
Definition kVK_F13 := 0x69.
Definition kVK_F16 := 0x6A.
Definition kVK_F14 := 0x6B.
Definition kVK_F10 := 0x6D.
Definition kVK_F12 := 0x6F.
Definition kVK_F15 := 0x71.
Definition kVK_Help := 0x72.
Definition kVK_Home := 0x73.
Definition kVK_PageUp := 0x74.
Definition kVK_ForwardDelete := 0x75.
Definition kVK_F4 := 0x76.
Definition kVK_End := 0x77.
Definition kVK_F2 := 0x78.
Definition kVK_PageDown := 0x79.
Definition kVK_F1 := 0x7A.
Definition kVK_LeftArrow := 0x7B.
Definition kVK_RightArrow := 0x7C.
Definition kVK_DownArrow := 0x7D.
Definition kVK_UpArrow := 0x7E.
Definition kVK_ISO_Section := 0x0A.
Definition kVK_JIS_Yen := 0x5D.
Definition kVK_JIS_Underscore := 0x5E.
Definition kVK_JIS_KeypadComma := 0x5F.
Definition kVK_JIS_Eisu := 0x66.
Definition kVK_JIS_Kana := 0x68.

(** *** darwin/input_helper.c *)

(** Rows are [(vcode, keycode)], in the order of the source. *)
Definition vcode_keycode_table : list (Z * Z) :=
  [ (VC_A, kVK_ANSI_A); (VC_S, kVK_ANSI_S); (VC_D, kVK_ANSI_D);
    (VC_F, kVK_ANSI_F); (VC_H, kVK_ANSI_H); (VC_G, kVK_ANSI_G);
    (VC_Z, kVK_ANSI_Z); (VC_X, kVK_ANSI_X); (VC_C, kVK_ANSI_C);
    (VC_V, kVK_ANSI_V); (VC_102, kVK_ISO_Section); (VC_B, kVK_ANSI_B);
    (VC_Q, kVK_ANSI_Q); (VC_W, kVK_ANSI_W); (VC_E, kVK_ANSI_E);
    (VC_R, kVK_ANSI_R); (VC_Y, kVK_ANSI_Y); (VC_T, kVK_ANSI_T);
    (VC_1, kVK_ANSI_1); (VC_2, kVK_ANSI_2); (VC_3, kVK_ANSI_3);
    (VC_4, kVK_ANSI_4); (VC_6, kVK_ANSI_6); (VC_5, kVK_ANSI_5);
    (VC_EQUALS, kVK_ANSI_Equal); (VC_9, kVK_ANSI_9); (VC_7, kVK_ANSI_7);
    (VC_MINUS, kVK_ANSI_Minus); (VC_8, kVK_ANSI_8); (VC_0, kVK_ANSI_0);
    (VC_CLOSE_BRACKET, kVK_ANSI_RightBracket); (VC_O, kVK_ANSI_O);
    (VC_U, kVK_ANSI_U); (VC_OPEN_BRACKET, kVK_ANSI_LeftBracket);
    (VC_I, kVK_ANSI_I); (VC_P, kVK_ANSI_P); (VC_ENTER, kVK_Return);
    (VC_L, kVK_ANSI_L); (VC_J, kVK_ANSI_J); (VC_QUOTE, kVK_ANSI_Quote);
    (VC_K, kVK_ANSI_K); (VC_SEMICOLON, kVK_ANSI_Semicolon);
    (VC_BACK_SLASH, kVK_ANSI_Backslash); (VC_COMMA, kVK_ANSI_Comma);
    (VC_SLASH, kVK_ANSI_Slash); (VC_N, kVK_ANSI_N); (VC_M, kVK_ANSI_M);
    (VC_PERIOD, kVK_ANSI_Period); (VC_TAB, kVK_Tab); (VC_SPACE, kVK_Space);
    (VC_BACK_QUOTE, kVK_ANSI_Grave); (VC_BACKSPACE, kVK_Delete);
    (VC_ESCAPE, kVK_Escape); (VC_META_R, kVK_RightCommand);
    (VC_META_L, kVK_Command); (VC_SHIFT_L, kVK_Shift);
    (VC_CAPS_LOCK, kVK_CapsLock); (VC_ALT_L, kVK_Option);
    (VC_CONTROL_L, kVK_Control); (VC_SHIFT_R, kVK_RightShift);
    (VC_ALT_R, kVK_RightOption); (VC_CONTROL_R, kVK_RightControl);
    (VC_FUNCTION, kVK_Function); (VC_F17, kVK_F17);
    (VC_KP_DECIMAL, kVK_ANSI_KeypadDecimal);
    (VC_KP_MULTIPLY, kVK_ANSI_KeypadMultiply);
    (VC_KP_ADD, kVK_ANSI_KeypadPlus); (VC_KP_CLEAR, kVK_ANSI_KeypadClear);
    (VC_VOLUME_UP, kVK_VolumeUp); (VC_VOLUME_DOWN, kVK_VolumeDown);
    (VC_VOLUME_MUTE, kVK_Mute); (VC_KP_DIVIDE, kVK_ANSI_KeypadDivide);
    (VC_KP_ENTER, kVK_ANSI_KeypadEnter);
    (VC_KP_SUBTRACT, kVK_ANSI_KeypadMinus);
    (VC_F18, kVK_F18); (VC_F19, kVK_F19);
    (VC_KP_EQUALS, kVK_ANSI_KeypadEquals);
    (VC_KP_0, kVK_ANSI_Keypad0); (VC_KP_1, kVK_ANSI_Keypad1);
    (VC_KP_2, kVK_ANSI_Keypad2); (VC_KP_3, kVK_ANSI_Keypad3);
    (VC_KP_4, kVK_ANSI_Keypad4); (VC_KP_5, kVK_ANSI_Keypad5);
    (VC_KP_6, kVK_ANSI_Keypad6); (VC_KP_7, kVK_ANSI_Keypad7);
    (VC_F20, kVK_F20); (VC_KP_8, kVK_ANSI_Keypad8);
    (VC_KP_9, kVK_ANSI_Keypad9); (VC_YEN, kVK_JIS_Yen);
    (VC_UNDERSCORE, kVK_JIS_Underscore); (VC_JP_COMMA, kVK_JIS_KeypadComma);
    (VC_F5, kVK_F5); (VC_F6, kVK_F6); (VC_F7, kVK_F7); (VC_F3, kVK_F3);
    (VC_F8, kVK_F8); (VC_F9, kVK_F9); (VC_ALPHANUMERIC, kVK_JIS_Eisu);
    (VC_F11, kVK_F11); (VC_KANA, kVK_JIS_Kana); (VC_F13, kVK_F13);
    (VC_F16, kVK_F16); (VC_F14, kVK_F14); (VC_F10, kVK_F10);
    (VC_CONTEXT_MENU, kVK_ContextMenu); (VC_F12, kVK_F12);
    (VC_F15, kVK_F15); (VC_HELP, kVK_Help); (VC_HOME, kVK_Home);
    (VC_PAGE_UP, kVK_PageUp); (VC_DELETE, kVK_ForwardDelete);
    (VC_F4, kVK_F4); (VC_END, kVK_End); (VC_F2, kVK_F2);
    (VC_PAGE_DOWN, kVK_PageDown); (VC_F1, kVK_F1);
    (VC_LEFT, kVK_LeftArrow); (VC_RIGHT, kVK_RightArrow);
    (VC_DOWN, kVK_DownArrow); (VC_UP, kVK_UpArrow);
    (VC_POWER, kVK_NX_Power); (VC_MEDIA_EJECT, kVK_NX_Eject);
    (VC_MEDIA_PLAY, kVK_MEDIA_Play); (VC_MEDIA_NEXT, kVK_MEDIA_Next);
    (VC_MEDIA_PREVIOUS, kVK_MEDIA_Previous);
    (VC_CHANGE_INPUT_SOURCE, kVK_ChangeInputSource) ].

Definition keycode_to_vcode (keycode : Z) : Z :=
  match find (fun row => keycode =? snd row) vcode_keycode_table with
  | Some row => fst row
  | None => VC_UNDEFINED
  end.

Definition vcode_to_keycode (vcode : Z) : Z :=
  match find (fun row => vcode =? fst row) vcode_keycode_table with
  | Some row => snd row
  | None => kVK_Undefined
  end.

(** The message passed to the main run loop.  [event] is [None] for a
    null [CGEventRef]. *)
Record TISKeycodeMessage : Set := {
  event : option nat;
  buffer : list Z;    (* UniChar *buffer *)
  size : Z;
  length : Z
}.

Definition with_length (n : Z) (tis : TISKeycodeMessage) : TISKeycodeMessage :=
  {| event := event tis; buffer := buffer tis; size := size tis; length := n |}.

Section Unicode.
(** The native translation: the [UCKeyTranslate] block with its
    Caps Lock handling when built with USE_APPLICATION_SERVICES, and
    [CGEventKeyboardGetUnicodeString] otherwise.  It is entered with
    [length = 0] and leaves a length and the buffer contents. *)
Variable translate : TISKeycodeMessage -> Z * list Z.

(** [info] is [None] for a null pointer. *)
Definition tis_message_to_unicode (info : option TISKeycodeMessage)
  : option TISKeycodeMessage :=
  match info with
  | None => None
  | Some tis =>
      match event tis with
      | None => Some tis
      | Some _ =>
          let '(len, buf) := translate (with_length 0 tis) in
          let tis := {| event := event tis; buffer := buf;
                        size := size tis; length := len |} in
          (* The following codes should not be processed because they
             are invalid. *)
          if length tis =? 1 then
            let c := nth 0 (buffer tis) 0 in
            if (c =? 0x01) || (c =? 0x04) || (c =? 0x05) || (c =? 0x10)
               || (c =? 0x0B) || (c =? 0x0C) || (c =? 0x1F)
            then Some (with_length 0 tis)
            else Some tis
          else Some tis
      end
  end.

(** [runs] tells whether the message procedure gets to run: on the
    main run loop itself, through [dispatch_sync_f], or through the
    run-loop source. *)
Definition event_to_unicode (runs : bool) (event_ref : option nat)
  (buffer : list Z) (size : Z) : Z * list Z :=
  let tis_keycode_message :=
    {| event := event_ref; buffer := buffer; size := size; length := 0 |} in
  let tis :=
    if runs then
      match tis_message_to_unicode (Some tis_keycode_message) with
      | Some tis => tis
      | None => tis_keycode_message
      end
    else tis_keycode_message in
  (length tis, Darwin.buffer tis).
End Unicode.

(** Modelled from the spec: the part of dispatch_event.c that turns the
    resolved characters of a key press into KEY_TYPED events is not
    among the sources.  The specification says that no KEY_TYPED is
    emitted when the resolved character is empty, and that a result of
    several units emits one KEY_TYPED per code unit, in order.  The
    result is the list of the [keychar]s of the emitted events. *)
Definition key_typed_events (resolved : Z * list Z) : list Z :=
  firstn (Z.to_nat (fst resolved)) (snd resolved).

(** *** darwin/post_event.c *)

(** Constants of CoreGraphics (CGEventTypes.h). *)
Inductive CGEventType : Set :=
| kCGEventNull
| kCGEventLeftMouseDown | kCGEventLeftMouseUp
| kCGEventRightMouseDown | kCGEventRightMouseUp
| kCGEventMouseMoved
| kCGEventLeftMouseDragged | kCGEventRightMouseDragged
| kCGEventOtherMouseDown | kCGEventOtherMouseUp | kCGEventOtherMouseDragged.

Definition CGEventType_eqb (a b : CGEventType) : bool :=
  match a, b with
  | kCGEventNull, kCGEventNull
  | kCGEventLeftMouseDown, kCGEventLeftMouseDown
  | kCGEventLeftMouseUp, kCGEventLeftMouseUp
  | kCGEventRightMouseDown, kCGEventRightMouseDown
  | kCGEventRightMouseUp, kCGEventRightMouseUp
  | kCGEventMouseMoved, kCGEventMouseMoved
  | kCGEventLeftMouseDragged, kCGEventLeftMouseDragged
  | kCGEventRightMouseDragged, kCGEventRightMouseDragged
  | kCGEventOtherMouseDown, kCGEventOtherMouseDown
  | kCGEventOtherMouseUp, kCGEventOtherMouseUp
  | kCGEventOtherMouseDragged, kCGEventOtherMouseDragged => true
  | _, _ => false
  end.

Definition kCGMouseButtonLeft := 0.
Definition kCGMouseButtonRight := 1.
Definition kCGEventFlagMaskShift := 0x00020000.
Definition kCGEventFlagMaskControl := 0x00040000.
Definition kCGEventFlagMaskAlternate := 0x00080000.
Definition kCGEventFlagMaskCommand := 0x00100000.
Definition kCGEventFlagMaskNumericPad := 0x00200000.
Inductive CGScrollEventUnit : Set :=
| kCGScrollEventUnitPixel | kCGScrollEventUnitLine.

(** A [CGPoint]: the coordinates are integers converted to [CGFloat],
    possibly added to the cursor location that [CGEventGetLocation]
    reports. *)
Inductive CGPoint : Set :=
| at_cursor (dx dy : Z)
| CGPointMake (x y : Z).

(** The events handed to [CGEventPost]. *)
Inductive CGEvent : Set :=
| keyboard_event (keycode : Z) (is_pressed : bool) (flags : Z)
| mouse_event (type : CGEventType) (point : CGPoint) (button : Z)
              (click_state : option Z)
| scroll_wheel_event (unit : CGScrollEventUnit) (wheel1 wheel2 : Z)
| unicode_event (is_pressed : bool) (text : list Z).

(** The statics of post_event.c. *)
Record post_state : Set := {
  current_modifier_mask : Z;
  current_motion_event : CGEventType;
  current_motion_button : Z
}.

Definition initial_post_state : post_state :=
  {| current_modifier_mask := 0x00;
     current_motion_event := kCGEventMouseMoved;
     current_motion_button := 0 |}.

(** Whether the CoreGraphics constructors return an object. *)
Record env : Set := {
  CGEventSourceCreate : bool;
  CGEventCreateKeyboardEvent : bool;
  CGEventCreateMouseEvent : bool;
  CGEventCreateScrollWheelEvent : bool
}.

Definition uint64 (z : Z) : Z := z mod 2 ^ 64.

Definition with_modifier_mask (m : Z) (st : post_state) : post_state :=
  {| current_modifier_mask := m;
     current_motion_event := current_motion_event st;
     current_motion_button := current_motion_button st |}.

Definition modifier_flag (vc : Z) : option Z :=
  if (vc =? VC_SHIFT_L) || (vc =? VC_SHIFT_R) then Some kCGEventFlagMaskShift
  else if (vc =? VC_CONTROL_L) || (vc =? VC_CONTROL_R) then Some kCGEventFlagMaskControl
  else if (vc =? VC_META_L) || (vc =? VC_META_R) then Some kCGEventFlagMaskCommand
  else if (vc =? VC_ALT_L) || (vc =? VC_ALT_R) then Some kCGEventFlagMaskAlternate
  else None.

Definition is_numeric_pad (vc : Z) : bool :=
  (vc =? VC_KP_0) || (vc =? VC_KP_1) || (vc =? VC_KP_2) || (vc =? VC_KP_3)
  || (vc =? VC_KP_4) || (vc =? VC_KP_5) || (vc =? VC_KP_6) || (vc =? VC_KP_7)
  || (vc =? VC_KP_8) || (vc =? VC_KP_9) || (vc =? VC_NUM_LOCK)
  || (vc =? VC_KP_ENTER) || (vc =? VC_KP_MULTIPLY) || (vc =? VC_KP_ADD)
  || (vc =? VC_KP_SEPARATOR) || (vc =? VC_KP_SUBTRACT) || (vc =? VC_KP_DIVIDE).

Definition post_key_event (e : env) (ev : uiohook_event) (st : post_state)
  : Z * post_state * list CGEvent :=
  let vc := keycode (keyboard ev) in
  let pressed :=
    match type ev with
    | EVENT_KEY_PRESSED => Some true
    | EVENT_KEY_RELEASED => Some false
    | _ => None
    end in
  match pressed with
  | None => (UIOHOOK_FAILURE, st, [])
  | Some is_pressed =>
      let st1 :=
        match modifier_flag vc with
        | Some f =>
            if is_pressed
            then with_modifier_mask (Z.lor (current_modifier_mask st) f) st
            else with_modifier_mask
                   (uint64 (Z.land (current_modifier_mask st) (Z.lnot f))) st
        | None => st
        end in
      let event_mask :=
        if is_numeric_pad vc
        then Z.lor (current_modifier_mask st1) kCGEventFlagMaskNumericPad
        else current_modifier_mask st1 in
      let keycode := uint16 (vcode_to_keycode vc) in
      if keycode =? kVK_Undefined then (UIOHOOK_FAILURE, st1, [])
      else if negb (CGEventCreateKeyboardEvent e)
      then (UIOHOOK_ERROR_OUT_OF_MEMORY, st1, [])
      else (UIOHOOK_SUCCESS, st1, [keyboard_event keycode is_pressed event_mask])
  end.

Definition with_motion (t : CGEventType) (b : Z) (st : post_state) : post_state :=
  {| current_modifier_mask := current_modifier_mask st;
     current_motion_event := t;
     current_motion_button := b |}.

(** The [switch (event->type)] of [post_mouse_event]: the native type
    and button, and the statics after it; [None] where it returns
    [UIOHOOK_FAILURE]. *)
Definition mouse_event_switch (ev : uiohook_event) (st : post_state)
  : option (CGEventType * Z * post_state) :=
  let b := button (mouse ev) in
  match type ev with
  | EVENT_MOUSE_PRESSED | EVENT_MOUSE_PRESSED_IGNORE_COORDS =>
      if b =? MOUSE_NOBUTTON then None
      else if b =? MOUSE_BUTTON1 then
        Some (kCGEventLeftMouseDown, kCGMouseButtonLeft,
              with_motion kCGEventLeftMouseDragged kCGMouseButtonLeft st)
      else if b =? MOUSE_BUTTON2 then
        Some (kCGEventRightMouseDown, kCGMouseButtonRight,
              with_motion kCGEventRightMouseDragged kCGMouseButtonRight st)
      else
        Some (kCGEventOtherMouseDown, uint32 (b - 1),
              with_motion kCGEventOtherMouseDragged (uint32 (b - 1)) st)
  | EVENT_MOUSE_RELEASED | EVENT_MOUSE_RELEASED_IGNORE_COORDS =>
      let revert (dragged : CGEventType) :=
        if CGEventType_eqb (current_motion_event st) dragged
        then kCGEventMouseMoved else current_motion_event st in
      if b =? MOUSE_NOBUTTON then None
      else if b =? MOUSE_BUTTON1 then
        Some (kCGEventLeftMouseUp, kCGMouseButtonLeft,
              with_motion (revert kCGEventLeftMouseDragged) kCGMouseButtonLeft st)
      else if b =? MOUSE_BUTTON2 then
        Some (kCGEventRightMouseUp, kCGMouseButtonRight,
              with_motion (revert kCGEventRightMouseDragged) kCGMouseButtonRight st)
      else
        Some (kCGEventOtherMouseUp, uint32 (b - 1),
              with_motion (revert kCGEventOtherMouseDragged) (uint32 (b - 1)) st)
  | EVENT_MOUSE_MOVED | EVENT_MOUSE_DRAGGED
  | EVENT_MOUSE_MOVED_RELATIVE_TO_CURSOR =>
      Some (current_motion_event st, current_motion_button st, st)
  | _ => None
  end.

(** Where the event is created: at the cursor for the IGNORE_COORDS
    types, relative to it for MOVED_RELATIVE_TO_CURSOR, and at the
    coordinates of the event otherwise. *)
Definition mouse_point (ev : uiohook_event) : CGPoint :=
  match type ev with
  | EVENT_MOUSE_PRESSED_IGNORE_COORDS
  | EVENT_MOUSE_RELEASED_IGNORE_COORDS => at_cursor 0 0
  | EVENT_MOUSE_MOVED_RELATIVE_TO_CURSOR =>
      at_cursor (mouse_x (mouse ev)) (mouse_y (mouse ev))
  | _ => CGPointMake (mouse_x (mouse ev)) (mouse_y (mouse ev))
  end.

(** [kCGMouseEventClickState] is set only for a non-zero click count. *)
Definition click_state (ev : uiohook_event) : option Z :=
  if clicks (mouse ev) =? 0 then None else Some (clicks (mouse ev)).

Definition post_mouse_event (e : env) (ev : uiohook_event) (st : post_state)
  : Z * post_state * list CGEvent :=
  match mouse_event_switch ev st with
  | None => (UIOHOOK_FAILURE, st, [])
  | Some (type, button, st1) =>
      let point := mouse_point ev in
      if negb (CGEventCreateMouseEvent e)
      then (UIOHOOK_ERROR_OUT_OF_MEMORY, st1, [])
      else
        (UIOHOOK_SUCCESS, st1, [mouse_event type point button (click_state ev)])
  end.

Definition post_mouse_wheel_event (e : env) (ev : uiohook_event) (st : post_state)
  : Z * post_state * list CGEvent :=
  let scroll_unit :=
    if wheel_type (wheel ev) =? WHEEL_BLOCK_SCROLL
    then kCGScrollEventUnitLine else kCGScrollEventUnitPixel in
  let '(wheel1, wheel2) :=
    if direction (wheel ev) =? WHEEL_HORIZONTAL_DIRECTION
    then (0, rotation (wheel ev)) else (rotation (wheel ev), 0) in
  if negb (CGEventCreateScrollWheelEvent e)
  then (UIOHOOK_ERROR_OUT_OF_MEMORY, st, [])
  else (UIOHOOK_SUCCESS, st, [scroll_wheel_event scroll_unit wheel1 wheel2]).

Definition hook_post_event (e : env) (ev : uiohook_event) (st : post_state)
  : Z * post_state * list CGEvent :=
  if negb (CGEventSourceCreate e) then (UIOHOOK_ERROR_OUT_OF_MEMORY, st, [])
  else
    match type ev with
    | EVENT_KEY_PRESSED | EVENT_KEY_RELEASED => post_key_event e ev st
    | EVENT_MOUSE_PRESSED | EVENT_MOUSE_RELEASED
    | EVENT_MOUSE_PRESSED_IGNORE_COORDS | EVENT_MOUSE_RELEASED_IGNORE_COORDS
    | EVENT_MOUSE_MOVED | EVENT_MOUSE_DRAGGED
    | EVENT_MOUSE_MOVED_RELATIVE_TO_CURSOR => post_mouse_event e ev st
    | EVENT_MOUSE_WHEEL => post_mouse_wheel_event e ev st
    | _ => (UIOHOOK_FAILURE, st, [])
    end.

(** Posting a list of events one after the other, the statics carried
    from call to call; the result lists the status and the injections
    of every call. *)
Fixpoint post_events (e : env) (evs : list uiohook_event) (st : post_state)
  : list (Z * list CGEvent) * post_state :=
  match evs with
  | [] => ([], st)
  | ev :: rest =>
      let '(status, st1, posted) := hook_post_event e ev st in
      let '(results, st2) := post_events e rest st1 in
      ((status, posted) :: results, st2)
  end.

(** *** darwin/input_helper.c: the modifier mask *)

Definition set_modifier_mask (mask : Z) (m : Z) : Z :=
  uint16 (Z.lor m (uint16 mask)).

Definition unset_modifier_mask (mask : Z) (m : Z) : Z :=
  uint16 (Z.land m (Z.lnot (uint16 mask))).

Definition get_modifiers (m : Z) : Z := m.

Definition kCGMouseButtonCenter := 2.
Definition kVK_LBUTTON := kCGMouseButtonLeft.
Definition kVK_RBUTTON := kCGMouseButtonRight.
Definition kVK_MBUTTON := kCGMouseButtonCenter.
Definition kVK_XBUTTON1 := 3.
Definition kVK_XBUTTON2 := 4.
Definition kCGEventFlagMaskAlphaShift := 0x00010000.

(** What Core Graphics answers about the combined session state. *)
Record source_state : Type := {
  CGEventSourceKeyState : Z -> bool;
  CGEventSourceButtonState : Z -> bool;
  CGEventSourceFlagsState : Z
}.

Definition set_if (b : bool) (mask : Z) (m : Z) : Z :=
  if b then set_modifier_mask mask m else m.

Definition initialize_modifiers (s : source_state) (m : Z) : Z :=
  let m := set_if (CGEventSourceKeyState s kVK_Shift) MASK_SHIFT_L m in
  let m := set_if (CGEventSourceKeyState s kVK_RightShift) MASK_SHIFT_R m in
  let m := set_if (CGEventSourceKeyState s kVK_Control) MASK_CTRL_L m in
  let m := set_if (CGEventSourceKeyState s kVK_RightControl) MASK_CTRL_R m in
  let m := set_if (CGEventSourceKeyState s kVK_Option) MASK_ALT_L m in
  let m := set_if (CGEventSourceKeyState s kVK_RightOption) MASK_ALT_R m in
  let m := set_if (CGEventSourceKeyState s kVK_Command) MASK_META_L m in
  let m := set_if (CGEventSourceKeyState s kVK_RightCommand) MASK_META_R m in
  let m := set_if (CGEventSourceButtonState s kVK_LBUTTON) MASK_BUTTON1 m in
  let m := set_if (CGEventSourceButtonState s kVK_RBUTTON) MASK_BUTTON2 m in
  let m := set_if (CGEventSourceButtonState s kVK_MBUTTON) MASK_BUTTON3 m in
  let m := set_if (CGEventSourceButtonState s kVK_XBUTTON1) MASK_BUTTON4 m in
  let m := set_if (CGEventSourceButtonState s kVK_XBUTTON2) MASK_BUTTON5 m in
  let m := set_if (negb (Z.land (CGEventSourceFlagsState s) kCGEventFlagMaskAlphaShift =? 0))
             MASK_CAPS_LOCK m in
  let m := unset_modifier_mask MASK_NUM_LOCK m in
  unset_modifier_mask MASK_SCROLL_LOCK m.

End Darwin.

(** ** The X11 back end *)
Module X11.
Import UIOHook.

(** *** x11/input_helper.c *)

Record key_mapping : Set := {
  vcode : Z;               (* uint16_t *)
  x11_key_name : string;   (* char * *)
  x11_key_code : Z         (* unsigned int *)
}.

(** A row as the static initialiser leaves it: the key code is zero
    until [load_key_mappings] fills it in. *)
Definition row (v : Z) (name : string) : key_mapping :=
  {| vcode := v; x11_key_name := name; x11_key_code := 0 |}.

Definition initial_vcode_keycode_table : list key_mapping :=
  [ row VC_ESCAPE "ESC"; row VC_F1 "FK01"; row VC_F2 "FK02";
    row VC_F3 "FK03"; row VC_F4 "FK04"; row VC_F5 "FK05";
    row VC_F6 "FK06"; row VC_F7 "FK07"; row VC_F8 "FK08";
    row VC_F9 "FK09"; row VC_F10 "FK10"; row VC_F11 "FK11";
    row VC_F12 "FK12"; row VC_F13 "FK13"; row VC_F14 "FK14";
    row VC_F15 "FK15"; row VC_F16 "FK16"; row VC_F17 "FK17";
    row VC_F18 "FK18"; row VC_F19 "FK19"; row VC_F20 "FK20";
    row VC_F21 "FK21"; row VC_F22 "FK22"; row VC_F23 "FK23";
    row VC_F24 "FK24"; row VC_BACK_QUOTE "TLDE"; row VC_1 "AE01";
    row VC_2 "AE02"; row VC_3 "AE03"; row VC_4 "AE04"; row VC_5 "AE05";
    row VC_6 "AE06"; row VC_7 "AE07"; row VC_8 "AE08"; row VC_9 "AE09";
    row VC_0 "AE10"; row VC_MINUS "AE11"; row VC_EQUALS "AE12";
    row VC_BACKSPACE "BKSP"; row VC_TAB "TAB"; row VC_Q "AD01";
    row VC_W "AD02"; row VC_E "AD03"; row VC_R "AD04"; row VC_T "AD05";
    row VC_Y "AD06"; row VC_U "AD07"; row VC_I "AD08"; row VC_O "AD09";
    row VC_P "AD10"; row VC_OPEN_BRACKET "AD11";
    row VC_CLOSE_BRACKET "AD12"; row VC_ENTER "RTRN";
    row VC_CAPS_LOCK "CAPS"; row VC_A "AC01"; row VC_S "AC02";
    row VC_D "AC03"; row VC_F "AC04"; row VC_G "AC05"; row VC_H "AC06";
    row VC_J "AC07"; row VC_K "AC08"; row VC_L "AC09";
    row VC_SEMICOLON "AC10"; row VC_QUOTE "AC11";
    row VC_BACK_SLASH "AC12"; row VC_BACK_SLASH "BKSL";
    row VC_SHIFT_L "LFSH"; row VC_Z "AB01"; row VC_X "AB02";
    row VC_C "AB03"; row VC_V "AB04"; row VC_B "AB05"; row VC_N "AB06";
    row VC_M "AB07"; row VC_COMMA "AB08"; row VC_PERIOD "AB09";
    row VC_SLASH "AB10"; row VC_SHIFT_R "RTSH"; row VC_102 "LSGT";
    row VC_ALT_L "LALT"; row VC_CONTROL_L "LCTL"; row VC_META_L "LWIN";
    row VC_META_L "LMTA"; row VC_SPACE "SPCE"; row VC_META_R "RWIN";
    row VC_META_R "RMTA"; row VC_CONTROL_R "RCTL"; row VC_ALT_R "RALT";
    row VC_CONTEXT_MENU "COMP"; row VC_CONTEXT_MENU "MENU";
    row VC_PRINT_SCREEN "PRSC"; row VC_SCROLL_LOCK "SCLK";
    row VC_PAUSE "PAUS"; row VC_INSERT "INS"; row VC_HOME "HOME";
    row VC_PAGE_UP "PGUP"; row VC_DELETE "DELE"; row VC_END "END";
    row VC_PAGE_DOWN "PGDN"; row VC_UP "UP"; row VC_LEFT "LEFT";
    row VC_DOWN "DOWN"; row VC_RIGHT "RGHT"; row VC_NUM_LOCK "NMLK";
    row VC_KP_DIVIDE "KPDV"; row VC_KP_MULTIPLY "KPMU";
    row VC_KP_SUBTRACT "KPSU"; row VC_KP_7 "KP7"; row VC_KP_8 "KP8";
    row VC_KP_9 "KP9"; row VC_KP_ADD "KPAD"; row VC_KP_4 "KP4";
    row VC_KP_5 "KP5"; row VC_KP_6 "KP6"; row VC_KP_1 "KP1";
    row VC_KP_2 "KP2"; row VC_KP_3 "KP3"; row VC_KP_ENTER "KPEN";
    row VC_KP_0 "KP0"; row VC_KP_DECIMAL "KPDL"; row VC_KP_EQUALS "KPEQ";
    row VC_KATAKANA_HIRAGANA "HKTG"; row VC_UNDERSCORE "AB11";
    row VC_CONVERT "HENK"; row VC_NONCONVERT "MUHE"; row VC_YEN "AE13";
    row VC_KATAKANA "KATA"; row VC_HIRAGANA "HIRA";
    row VC_JP_COMMA "JPCM"; row VC_HANGUL "HNGL"; row VC_HANJA "HJCV";
    row VC_VOLUME_MUTE "MUTE"; row VC_VOLUME_DOWN "VOL-";
    row VC_VOLUME_UP "VOL+"; row VC_POWER "POWR"; row VC_STOP "STOP";
    row VC_AGAIN "AGAI"; row VC_PROPS "PROP"; row VC_UNDO "UNDO";
    row VC_FRONT "FRNT"; row VC_COPY "COPY"; row VC_OPEN "OPEN";
    row VC_PASTE "PAST"; row VC_FIND "FIND"; row VC_CUT "CUT";
    row VC_HELP "HELP"; row VC_SWITCH_VIDEO_MODE "OUTP";
    row VC_KEYBOARD_LIGHT_TOGGLE "KITG";
    row VC_KEYBOARD_LIGHT_DOWN "KIDN"; row VC_KEYBOARD_LIGHT_UP "KIUP";
    row VC_LINE_FEED "LNFD"; row VC_MACRO "I120";
    row VC_VOLUME_MUTE "I121"; row VC_VOLUME_DOWN "I122";
    row VC_VOLUME_UP "I123"; row VC_POWER "I124";
    row VC_KP_EQUALS "I125"; row VC_KP_PLUS_MINUS "I126";
    row VC_PAUSE "I127"; row VC_SCALE "I128"; row VC_KP_SEPARATOR "I129";
    row VC_HANGUL "I130"; row VC_HANJA "I131"; row VC_YEN "I132";
    row VC_META_L "I133"; row VC_META_R "I134";
    row VC_CONTEXT_MENU "I135"; row VC_STOP "I136"; row VC_AGAIN "I137";
    row VC_PROPS "I138"; row VC_UNDO "I139"; row VC_FRONT "I140";
    row VC_COPY "I141"; row VC_OPEN "I142"; row VC_PASTE "I143";
    row VC_FIND "I144"; row VC_CUT "I145"; row VC_HELP "I146";
    row VC_CONTEXT_MENU "I147"; row VC_APP_CALCULATOR "I148";
    row VC_SETUP "I149"; row VC_SLEEP "I150"; row VC_WAKE "I151";
    row VC_FILE "I152"; row VC_SEND_FILE "I153";
    row VC_DELETE_FILE "I154"; row VC_MODE_CHANGE "I155";
    row VC_APP_1 "I156"; row VC_APP_2 "I157"; row VC_APP_BROWSER "I158";
    row VC_MS_DOS "I159"; row VC_LOCK "I160";
    row VC_ROTATE_DISPLAY "I161"; row VC_CYCLE_WINDOWS "I162";
    row VC_APP_MAIL "I163"; row VC_BROWSER_FAVORITES "I164";
    row VC_COMPUTER "I165"; row VC_BROWSER_BACK "I166";
    row VC_BROWSER_FORWARD "I167"; row VC_MEDIA_CLOSE "I168";
    row VC_MEDIA_EJECT "I169"; row VC_MEDIA_EJECT_CLOSE "I170";
    row VC_MEDIA_NEXT "I171"; row VC_MEDIA_PLAY "I172";
    row VC_MEDIA_PREVIOUS "I173"; row VC_MEDIA_STOP "I174";
    row VC_MEDIA_RECORD "I175"; row VC_MEDIA_REWIND "I176";
    row VC_PHONE "I177"; row VC_ISO "I178"; row VC_CONFIG "I179";
    row VC_BROWSER_HOME "I180"; row VC_BROWSER_REFRESH "I181";
    row VC_EXIT "I182"; row VC_MOVE "I183"; row VC_EDIT "I184";
    row VC_SCROLL_UP "I185"; row VC_SCROLL_DOWN "I186";
    row VC_KP_OPEN_PARENTHESIS "I187";
    row VC_KP_CLOSE_PARENTHESIS "I188"; row VC_NEW "I189";
    row VC_REDO "I190"; row VC_F13 "I191"; row VC_F14 "I192";
    row VC_F15 "I193"; row VC_F16 "I194"; row VC_F17 "I195";
    row VC_F18 "I196"; row VC_F19 "I197"; row VC_F20 "I198";
    row VC_F21 "I199"; row VC_F22 "I200"; row VC_F23 "I201";
    row VC_F24 "I202"; row VC_PLAY_CD "I208"; row VC_PAUSE_CD "I209";
    row VC_APP_3 "I210"; row VC_APP_4 "I211"; row VC_DASHBOARD "I212";
    row VC_SUSPEND "I213"; row VC_CLOSE "I214"; row VC_PLAY "I215";
    row VC_FAST_FORWARD "I216"; row VC_BASS_BOOST "I217";
    row VC_PRINT "I218"; row VC_HP "I219"; row VC_CAMERA "I220";
    row VC_SOUND "I221"; row VC_QUESTION "I222"; row VC_EMAIL "I223";
    row VC_CHAT "I224"; row VC_BROWSER_SEARCH "I225";
    row VC_CONNECT "I226"; row VC_FINANCE "I227"; row VC_SPORT "I228";
    row VC_SHOP "I229"; row VC_ALT_ERASE "I230"; row VC_CANCEL "I231";
    row VC_BRIGTNESS_DOWN "I232"; row VC_BRIGTNESS_UP "I233";
    row VC_MEDIA "I234"; row VC_SWITCH_VIDEO_MODE "I235";
    row VC_KEYBOARD_LIGHT_TOGGLE "I236";
    row VC_KEYBOARD_LIGHT_DOWN "I237"; row VC_KEYBOARD_LIGHT_UP "I238";
    row VC_SEND "I239"; row VC_REPLY "I240"; row VC_FORWARD_MAIL "I241";
    row VC_SAVE "I242"; row VC_DOCUMENTS "I243"; row VC_BATTERY "I244";
    row VC_BLUETOOTH "I245"; row VC_WLAN "I246"; row VC_UWB "I247";
    row VC_X11_UNKNOWN "I248"; row VC_VIDEO_NEXT "I249";
    row VC_VIDEO_PREVIOUS "I250"; row VC_BRIGTNESS_CYCLE "I251";
    row VC_BRIGTNESS_AUTO "I252"; row VC_DISPLAY_OFF "I253";
    row VC_WWAN "I254"; row VC_RFKILL "I255" ].

(** The statics [vcode_keycode_table] and [key_mappings_loaded]. *)
Record state : Set := {
  vcode_keycode_table : list key_mapping;
  key_mappings_loaded : bool
}.

Definition initial_state : state :=
  {| vcode_keycode_table := initial_vcode_keycode_table;
     key_mappings_loaded := false |}.

Definition keycode_to_vcode (t : list key_mapping) (keycode : Z) : Z :=
  match find (fun r => keycode =? x11_key_code r) t with
  | Some r => vcode r
  | None => VC_UNDEFINED
  end.

(** The result is a [KeyCode], an unsigned char. *)
Definition vcode_to_keycode (t : list key_mapping) (vc : Z) : Z :=
  match find (fun r => vc =? vcode r) t with
  | Some r => uint8 (x11_key_code r)
  | None => 0x0
  end.

(** [strncmp (s1, s2, n) == 0]; the end of a Rocq string stands for the
    terminating NUL. *)
Fixpoint strncmp_eq (s1 s2 : string) (n : nat) : bool :=
  match n with
  | O => true
  | S n' =>
      match s1, s2 with
      | EmptyString, EmptyString => true
      | String c1 r1, String c2 r2 =>
          if Ascii.eqb c1 c2 then strncmp_eq r1 r2 n' else false
      | _, _ => false
      end
  end.

Definition XkbKeyNameLength : nat := 4.

(** The part of the [XkbDescRec] that the loader reads;
    [names k] is [xkb->names->keys[k].name]. *)
Record XkbDesc : Set := {
  min_key_code : Z;
  max_key_code : Z;
  names : Z -> string
}.

(** The body of the inner loop, for one row. *)
Definition load_row (xkb : XkbDesc) (key_code : Z) (r : key_mapping) : key_mapping :=
  if strncmp_eq (x11_key_name r) (names xkb key_code) XkbKeyNameLength
  then {| vcode := vcode r; x11_key_name := x11_key_name r;
          x11_key_code := key_code |}
  else r.

(** [for (key_code = min_key_code; key_code < max_key_code; key_code++)] *)
Definition load_table (xkb : XkbDesc) (t : list key_mapping) : list key_mapping :=
  for_loop (Z.to_nat (max_key_code xkb - min_key_code xkb)) (min_key_code xkb)
           (fun key_code t => map (load_row xkb key_code) t) t.

(** [xkb] is [None] when [XkbOpenDisplay], [XkbGetMap] or [XkbGetNames]
    fails; the function then returns without touching the statics. *)
Definition load_key_mappings (xkb : option XkbDesc) (st : state) : state :=
  if key_mappings_loaded st then st
  else
    match xkb with
    | None => st
    | Some xkb =>
        {| vcode_keycode_table := load_table xkb (vcode_keycode_table st);
           key_mappings_loaded := true |}
    end.

(** **** x_key_event_lookup *)

Definition utf8_bitmask_table : list Z := [0x3F; 0x7F; 0x1F; 0x0F; 0x07].

Definition wchar_t (z : Z) : Z := (z + 2 ^ 31) mod 2 ^ 32 - 2 ^ 31.

(** [l[i] = v]; the callers keep [i] below the size of the array. *)
Fixpoint store (i : nat) (v : Z) (l : list Z) : list Z :=
  match l, i with
  | [], _ => []
  | _ :: rest, O => v :: rest
  | a :: rest, S i' => a :: store i' v rest
  end.

(** The code point decoded from the [count] bytes of [buffer].  The
    table has five entries: [count] is at most 4 for every UTF-8
    sequence. *)
Definition utf8_codepoint (count : Z) (buffer : list Z) : Z :=
  let first :=
    uint32 (Z.land (nth (Z.to_nat count) utf8_bitmask_table 0) (nth 0 buffer 0)) in
  for_loop (Z.to_nat (count - 1)) 1
    (fun i codepoint =>
       uint32 (Z.lor (Z.shiftl codepoint 6)
                     (Z.land (nth 0 utf8_bitmask_table 0)
                             (nth (Z.to_nat i) buffer 0))))
    first.

(** [lookup] is what [Xutf8LookupString] or [XLookupString] returns:
    the byte count and the bytes left in [buffer].  [surrogate] is
    [None] for a null pointer.  The result is the returned count and
    the contents of [surrogate]. *)
Definition x_key_event_lookup (lookup : Z * list Z)
  (surrogate : option (list Z)) (length : Z) : Z * option (list Z) :=
  let '(count, buffer) := lookup in
  if 0 <? count then
    match surrogate with
    | None => (0, None)
    | Some s =>
        if length =? 0 then (0, Some s)
        else
          let codepoint := utf8_codepoint count buffer in
          if codepoint <=? 0xFFFF then
            (1, Some (store 0 (wchar_t codepoint) s))
          else if 1 <? length then
            let lead_offset := uint32 (0xD800 - Z.shiftr 0x10000 10) in
            (2, Some (store 1 (wchar_t (uint32 (0xDC00 + Z.land codepoint 0x3FF)))
                       (store 0 (wchar_t (uint32 (lead_offset + Z.shiftr codepoint 10))) s)))
          else (0, Some s)
    end
  else (count, surrogate).

(** *** x11/post_event.c *)

(** The calls into the XTest extension. *)
Inductive xtest_call : Set :=
| fake_key_event (keycode : Z) (is_press : bool)
| fake_button_event (button : Z) (is_press : bool)
| fake_motion_event (x y : Z).

Definition Button2 := 2.
Definition Button3 := 3.

(** What the X server and the rest of the process answer.  The wheel
    button numbers are macros of x11/input_helper.h, which is not among
    the sources: they are taken as parameters. *)
Record env : Type := {
  helper_disp : bool;                   (* false: the display is NULL *)
  xkb : option XkbDesc;
  mouse_button_table : bool;            (* false: the table is NULL *)
  XGetPointerMapping : list Z;
  XQueryPointer : option (Z * Z);
  XTestFakeKeyEvent : Z -> bool -> Z;
  XTestFakeButtonEvent : Z -> bool -> Z;
  XTestFakeMotionEvent : Z -> Z -> Z;
  WheelUp : Z;
  WheelDown : Z;
  WheelLeft : Z;
  WheelRight : Z
}.

Definition button_map_lookup (e : env) (button : Z) : Z :=
  let map_button := button in
  let map_button :=
    if helper_disp e && mouse_button_table e then
      let map_size := Z.of_nat (List.length (XGetPointerMapping e)) in
      if (0 <? map_button) && (map_button <=? map_size)
      then nth (Z.to_nat (map_button - 1)) (XGetPointerMapping e) 0
      else map_button
    else map_button in
  let map_button :=
    if map_button =? Button2 then Button3
    else if map_button =? Button3 then Button2
    else map_button in
  uint8 map_button.

Definition post_key_event (e : env) (ev : uiohook_event) (st : state)
  : Z * state * list xtest_call :=
  let st := load_key_mappings (xkb e) st in
  let keycode := vcode_to_keycode (vcode_keycode_table st) (keycode (keyboard ev)) in
  if keycode =? 0x0000 then (UIOHOOK_FAILURE, st, [])
  else
    let pressed :=
      match type ev with
      | EVENT_KEY_PRESSED => Some true
      | EVENT_KEY_RELEASED => Some false
      | _ => None
      end in
    match pressed with
    | None => (UIOHOOK_FAILURE, st, [])
    | Some is_pressed =>
        if XTestFakeKeyEvent e keycode is_pressed =? 0
        then (UIOHOOK_FAILURE, st, [fake_key_event keycode is_pressed])
        else (UIOHOOK_SUCCESS, st, [fake_key_event keycode is_pressed])
    end.

Definition post_mouse_button_event (e : env) (ev : uiohook_event)
  : Z * list xtest_call :=
  let b := button (mouse ev) in
  let moved :=
    match type ev with
    | EVENT_MOUSE_PRESSED_IGNORE_COORDS | EVENT_MOUSE_RELEASED_IGNORE_COORDS => []
    | _ => [fake_motion_event (mouse_x (mouse ev)) (mouse_y (mouse ev))]
    end in
  let fake (is_press : bool) :=
    if (b <? MOUSE_BUTTON1) || (MOUSE_BUTTON5 <? b) then (UIOHOOK_FAILURE, moved)
    else if negb (XTestFakeButtonEvent e b is_press =? 0)
    then (UIOHOOK_SUCCESS, moved ++ [fake_button_event b is_press])
    else (UIOHOOK_FAILURE, moved ++ [fake_button_event b is_press]) in
  match type ev with
  | EVENT_MOUSE_PRESSED | EVENT_MOUSE_PRESSED_IGNORE_COORDS => fake true
  | EVENT_MOUSE_RELEASED | EVENT_MOUSE_RELEASED_IGNORE_COORDS => fake false
  | _ => (UIOHOOK_FAILURE, moved)
  end.

Definition post_mouse_wheel_event (e : env) (ev : uiohook_event)
  : Z * list xtest_call :=
  let wheel_button :=
    uint8 (if direction (wheel ev) =? WHEEL_HORIZONTAL_DIRECTION
           then if 0 <? rotation (wheel ev) then WheelRight e else WheelLeft e
           else if 0 <? rotation (wheel ev) then WheelUp e else WheelDown e) in
  let button := button_map_lookup e wheel_button in
  let status :=
    if negb (XTestFakeButtonEvent e button true =? 0)
    then UIOHOOK_SUCCESS else UIOHOOK_FAILURE in
  let released := status =? UIOHOOK_SUCCESS in
  (* the local [status] records both failures, but the function ends
     in [return UIOHOOK_SUCCESS;] *)
  (UIOHOOK_SUCCESS,
   fake_button_event button true ::
   (if released then [fake_button_event button false] else [])).

Definition post_mouse_motion_event (e : env) (ev : uiohook_event)
  : Z * list xtest_call :=
  match type ev with
  | EVENT_MOUSE_MOVED_RELATIVE_TO_CURSOR =>
      match XQueryPointer e with
      | Some (x, y) =>
          let x' := x + mouse_x (mouse ev) in
          let y' := y + mouse_y (mouse ev) in
          if negb (XTestFakeMotionEvent e x' y' =? 0)
          then (UIOHOOK_SUCCESS, [fake_motion_event x' y'])
          else (UIOHOOK_FAILURE, [fake_motion_event x' y'])
      | None => (UIOHOOK_FAILURE, [])
      end
  | _ =>
      let x := mouse_x (mouse ev) in
      let y := mouse_y (mouse ev) in
      if negb (XTestFakeMotionEvent e x y =? 0)
      then (UIOHOOK_SUCCESS, [fake_motion_event x y])
      else (UIOHOOK_FAILURE, [fake_motion_event x y])
  end.

Definition hook_post_event (e : env) (ev : uiohook_event) (st : state)
  : Z * state * list xtest_call :=
  if negb (helper_disp e) then (UIOHOOK_ERROR_X_OPEN_DISPLAY, st, [])
  else
    match type ev with
    | EVENT_KEY_PRESSED | EVENT_KEY_RELEASED => post_key_event e ev st
    | EVENT_MOUSE_PRESSED | EVENT_MOUSE_RELEASED
    | EVENT_MOUSE_PRESSED_IGNORE_COORDS | EVENT_MOUSE_RELEASED_IGNORE_COORDS =>
        let '(status, calls) := post_mouse_button_event e ev in
        (status, st, calls)
    | EVENT_MOUSE_WHEEL =>
        let '(status, calls) := post_mouse_wheel_event e ev in
        (status, st, calls)
    | EVENT_MOUSE_MOVED | EVENT_MOUSE_DRAGGED
    | EVENT_MOUSE_MOVED_RELATIVE_TO_CURSOR =>
        let '(status, calls) := post_mouse_motion_event e ev in
        (status, st, calls)
    | _ => (UIOHOOK_FAILURE, st, [])
    end.


(** *** x11/input_helper.c: the modifier mask *)

Definition set_modifier_mask (mask : Z) (m : Z) : Z :=
uint16 (Z.lor m (uint16 mask)).

Definition unset_modifier_mask (mask : Z) (m : Z) : Z :=
uint16 (Z.land m (Z.lnot (uint16 mask))).

Definition get_modifiers (m : Z) : Z := m.

(** [led_mask] is [None] when [XkbGetIndicatorState] does not return
    [Success]. *)
Definition initialize_locks (led_mask : option Z) (m : Z) : Z :=
match led_mask with
| Some led_mask =>
    let m := if negb (Z.land led_mask 0x01 =? 0)
             then set_modifier_mask MASK_CAPS_LOCK m
             else unset_modifier_mask MASK_CAPS_LOCK m in
    let m := if negb (Z.land led_mask 0x02 =? 0)
             then set_modifier_mask MASK_NUM_LOCK m
             else unset_modifier_mask MASK_NUM_LOCK m in
    if negb (Z.land led_mask 0x04 =? 0)
    then set_modifier_mask MASK_SCROLL_LOCK m
    else unset_modifier_mask MASK_SCROLL_LOCK m
| None => m
end.

(** Constants of X.h and keysymdef.h. *)
Definition ShiftMask := Z.shiftl 1 0.
Definition ControlMask := Z.shiftl 1 2.
Definition Mod1Mask := Z.shiftl 1 3.
Definition Mod4Mask := Z.shiftl 1 6.
Definition Button1Mask := Z.shiftl 1 8.
Definition Button2Mask := Z.shiftl 1 9.
Definition Button3Mask := Z.shiftl 1 10.
Definition Button4Mask := Z.shiftl 1 11.
Definition Button5Mask := Z.shiftl 1 12.
Definition XK_Shift_L := 0xffe1.
Definition XK_Shift_R := 0xffe2.
Definition XK_Control_L := 0xffe3.
Definition XK_Control_R := 0xffe4.
Definition XK_Alt_L := 0xffe9.
Definition XK_Alt_R := 0xffea.
Definition XK_Super_L := 0xffeb.
Definition XK_Super_R := 0xffec.

(** What the server answers to [initialize_modifiers]: the bytes of the
    key map, the key code of a keysym, and the pointer mask ([None] when
    [XQueryPointer] fails). *)
Record keyboard_query : Type := {
  XQueryKeymap : Z -> Z;
  XKeysymToKeycode : Z -> Z;
  XQueryPointer_mask : option Z
}.

(** [keymap[keycode / 8] & (1 << (keycode % 8))] *)
Definition key_is_down (q : keyboard_query) (keysym : Z) : bool :=
let keycode := uint8 (XKeysymToKeycode q keysym) in
negb (Z.land (XQueryKeymap q (keycode / 8)) (Z.shiftl 1 (keycode mod 8)) =? 0).

Definition set_if (b : bool) (mask : Z) (m : Z) : Z :=
if b then set_modifier_mask mask m else m.

Definition initialize_modifiers (q : keyboard_query) (m : Z) : Z :=
let m := 0x0000 in
match XQueryPointer_mask q with
| Some mask =>
    let has (bit : Z) := negb (Z.land mask bit =? 0) in
    let m := if has ShiftMask then
               let m := set_if (key_is_down q XK_Shift_L) MASK_SHIFT_L m in
               set_if (key_is_down q XK_Shift_R) MASK_SHIFT_R m
             else m in
    let m := if has ControlMask then
               let m := set_if (key_is_down q XK_Control_L) MASK_CTRL_L m in
               set_if (key_is_down q XK_Control_R) MASK_CTRL_R m
             else m in
    let m := if has Mod1Mask then
               let m := set_if (key_is_down q XK_Alt_L) MASK_ALT_L m in
               set_if (key_is_down q XK_Alt_R) MASK_ALT_R m
             else m in
    let m := if has Mod4Mask then
               let m := set_if (key_is_down q XK_Super_L) MASK_META_L m in
               set_if (key_is_down q XK_Super_R) MASK_META_R m
             else m in
    let m := set_if (has Button1Mask) MASK_BUTTON1 m in
    let m := set_if (has Button2Mask) MASK_BUTTON2 m in
    let m := set_if (has Button3Mask) MASK_BUTTON3 m in
    let m := set_if (has Button4Mask) MASK_BUTTON4 m in
    set_if (has Button5Mask) MASK_BUTTON5 m
| None =>
    let m := set_if (key_is_down q XK_Shift_L) MASK_SHIFT_L m in
    let m := set_if (key_is_down q XK_Shift_R) MASK_SHIFT_R m in
    let m := set_if (key_is_down q XK_Control_L) MASK_CTRL_L m in
    let m := set_if (key_is_down q XK_Control_R) MASK_CTRL_R m in
    let m := set_if (key_is_down q XK_Alt_L) MASK_ALT_L m in
    let m := set_if (key_is_down q XK_Alt_R) MASK_ALT_R m in
    let m := set_if (key_is_down q XK_Super_L) MASK_META_L m in
    set_if (key_is_down q XK_Super_R) MASK_META_R m
end.

(** *** x11/post_event.c: posting text *)

(** [(uc - 0xD800U) < 2048U], in unsigned arithmetic. *)
Definition is_surrogate (uc : Z) : bool := uint32 (uc - 0xD800) <? 2048.

Definition is_high_surrogate (uc : Z) : bool :=
Z.land uc 0xFFFFFC00 =? 0xD800.

Definition is_low_surrogate (uc : Z) : bool :=
Z.land uc 0xFFFFFC00 =? 0xDC00.

Definition surrogate_to_utf32 (high low : Z) : Z :=
uint32 (Z.shiftl high 10 + low - 0x35FDC00).

(** The loop of [convert_utf16_to_utf32] over the units before [end]. *)
Fixpoint utf16_to_utf32 (input : list Z) : list Z :=
match input with
| [] => []
| uc :: rest =>
    if negb (is_surrogate uc) then uc :: utf16_to_utf32 rest
    else
      match rest with
      | low :: rest' =>
          if is_high_surrogate uc && is_low_surrogate low
          then surrogate_to_utf32 uc low :: utf16_to_utf32 rest'
          else 0xFFFD :: utf16_to_utf32 rest
      | [] => [0xFFFD]
      end
end.

(** The result is an array of [count + 1] code points, zero where the
    loop wrote nothing. *)
Definition convert_utf16_to_utf32 (input : list Z) (count : nat) : list Z :=
let output := utf16_to_utf32 (firstn count input) in
output ++ repeat 0 (count + 1 - List.length output).

(** [sprintf (str, "U%04X", cp)]: upper-case hexadecimal digits, padded
    with zeros to four. *)
Definition hex_digit (d : Z) : ascii :=
nth (Z.to_nat d) (list_ascii_of_string "0123456789ABCDEF") "0"%char.

Fixpoint hex_digits (fuel : nat) (n : Z) (acc : string) : string :=
match fuel with
| O => acc
| S fuel' =>
    let acc' := String (hex_digit (n mod 16)) acc in
    if n / 16 =? 0 then acc' else hex_digits fuel' (n / 16) acc'
end.

Definition pad4 (s : string) : string :=
(string_of_list_ascii (repeat "0"%char (4 - String.length s)) ++ s)%string.

Definition keysym_name (cp : Z) : string :=
String "U"%char (pad4 (hex_digits 8 (uint32 cp) EmptyString)).

(** The code points up to the first zero of the array. *)
Fixpoint until_zero (l : list Z) : list Z :=
match l with
| [] => []
| c :: rest => if c =? 0 then [] else c :: until_zero rest
end.

(** The keysyms that [map_to_keysyms] fills in; their number is
    [*keysym_count]. *)
Definition map_to_keysyms (XStringToKeysym : string -> Z)
  (text : list Z) (count : nat) : list Z :=
map (fun cp => XStringToKeysym (keysym_name cp))
    (until_zero (convert_utf16_to_utf32 text count)).

Definition NoSymbol := 0.
Definition Success := 0.

(** What the server answers while text is posted. *)
Record text_env : Type := {
  server : env;
  XDisplayKeycodes : option (Z * Z);     (* None: the call fails *)
  XGetKeyboardMapping : Z -> list Z;     (* the keysyms of a key code *)
  XFree : bool;
  XStringToKeysym : string -> Z;
  XChangeKeyboardMapping : Z -> list Z -> Z
}.

(** One round of the loop of [find_unused_keycode] and the rounds after
    it.  The loop variable is a [KeyCode], an unsigned char. *)
Fixpoint find_unused_keycode_from (e : text_env) (rounds : nat)
  (min_keycode keycode : Z) : option Z :=
match rounds with
| O => None
| S rounds' =>
    if min_keycode <=? keycode then
      let used := existsb (fun k => negb (k =? NoSymbol)) (XGetKeyboardMapping e keycode) in
      if negb (XFree e) then Some 0
      else if negb used then Some keycode
      else find_unused_keycode_from e rounds' min_keycode (uint8 (keycode - 1))
    else Some 0
end.

(** The answers of the server depend on the key code only and there are
    256 key codes: a loop that has not returned after 256 rounds is back
    at its first key code and never returns.  [None] stands for that. *)
Definition find_unused_keycode (e : text_env) : option Z :=
match XDisplayKeycodes e with
| None => Some 0
| Some (min_keycode, max_keycode) =>
    find_unused_keycode_from e 256 min_keycode (uint8 max_keycode)
end.

(** The calls of [hook_post_text] and [post_keysym] that lock the
    display, change the keyboard mapping, inject a key or wait, in the
    order in which they are made; the queries of [find_unused_keycode]
    are not listed. *)
Inductive x_request : Set :=
| lock_display
| unlock_display
| sync
| change_keyboard_mapping (keycode : Z) (keysyms : list Z)
| sleep (tv_sec tv_nsec : Z)
| fake_key (keycode : Z) (is_press : bool).

Definition post_keysym (e : text_env) (post_text_delay : Z) (keysym keycode : Z)
  : Z * list x_request :=
let keysyms := [keysym; keysym; keysym; keysym] in
if negb (XChangeKeyboardMapping e keycode keysyms =? Success) then
  (UIOHOOK_FAILURE, [change_keyboard_mapping keycode keysyms])
else
  let ts := sleep (post_text_delay / 1000000000) (post_text_delay mod 1000000000) in
  let before := [change_keyboard_mapping keycode keysyms; sync; ts] in
  if XTestFakeKeyEvent (server e) keycode true =? 0 then
    (UIOHOOK_FAILURE, before ++ [fake_key keycode true])
  else if XTestFakeKeyEvent (server e) keycode false =? 0 then
    (UIOHOOK_FAILURE, before ++ [fake_key keycode true; sync; fake_key keycode false])
  else
    (UIOHOOK_SUCCESS,
     before ++ [fake_key keycode true; sync; fake_key keycode false; sync; ts]).

(** The loop over the keysyms, left at the first failure. *)
Fixpoint post_keysyms (e : text_env) (post_text_delay : Z) (keysyms : list Z)
  (keycode : Z) : Z * list x_request :=
match keysyms with
| [] => (UIOHOOK_SUCCESS, [])
| keysym :: rest =>
    let '(status, requests) := post_keysym e post_text_delay keysym keycode in
    if status =? UIOHOOK_SUCCESS then
      let '(status', requests') := post_keysyms e post_text_delay rest keycode in
      (status', requests ++ requests')
    else (UIOHOOK_FAILURE, requests)
end.

(** [text] is [None] for a null pointer.  The result is [None] when
    [find_unused_keycode] does not return. *)
Definition hook_post_text (e : text_env) (post_text_delay : Z)
  (text : option (list Z)) : option (Z * list x_request) :=
match text with
| None => Some (UIOHOOK_ERROR_POST_TEXT_NULL, [])
| Some text =>
    if negb (helper_disp (server e)) then Some (UIOHOOK_ERROR_X_OPEN_DISPLAY, [])
    else
      let count := List.length (until_zero text) in
      match find_unused_keycode e with
      | None => None
      | Some unused_keycode =>
          if unused_keycode =? 0 then
            Some (UIOHOOK_FAILURE, [lock_display; unlock_display])
          else
            let keysyms := map_to_keysyms (XStringToKeysym e) text count in
            let '(status, requests) :=
              post_keysyms e post_text_delay keysyms unused_keycode in
            let restore := change_keyboard_mapping unused_keycode [NoSymbol] in
            if negb (XChangeKeyboardMapping e unused_keycode [NoSymbol] =? Success)
            then Some (UIOHOOK_FAILURE, lock_display :: requests ++ [restore])
            else Some (status,
                       lock_display :: requests ++ [restore; sync; unlock_display])
      end
end.

(** The static [post_text_delay] and its accessors. *)
Definition initial_post_text_delay : Z := 50 * 1000000.
Definition hook_get_post_text_delay_x11 (post_text_delay : Z) : Z := post_text_delay.
Definition hook_set_post_text_delay_x11 (delay : Z) (post_text_delay : Z) : Z := delay.

End X11.

(** ** Auxiliary definitions used to state the properties *)

(** The alias key codes of the Windows table, with the key code that the
    reverse lookup returns for their virtual code. *)
Definition windows_aliases : list (Z * Z) :=
  [ (Windows.VK_OEM_CLEAR, Windows.VK_CLEAR);
    (Windows.VK_SHIFT, Windows.VK_LSHIFT);
    (Windows.VK_CONTROL, Windows.VK_LCONTROL);
    (Windows.VK_MENU, Windows.VK_LMENU) ].

Definition pair_eqb (p q : Z * Z) : bool :=
  (fst p =? fst q) && (snd p =? snd q).

(** The round trip of one key code under one setting of the flags. *)
Definition windows_roundtrip_ok (flags n : Z) : bool :=
  let v := Windows.keycode_to_vcode n flags in
  let n' := Windows.vcode_to_keycode v in
  (Windows.keycode_to_vcode n' flags =? v) &&
  ((n' =? n) || existsb (pair_eqb (n, n')) windows_aliases).


(** The round trip of one key code under one setting of the flags, with
    the key code that the reverse lookup must answer: the partner of an
    alias, the key code itself otherwise; the virtual code has a row. *)
Definition windows_first_code_ok (flags n : Z) : bool :=
  let v := Windows.keycode_to_vcode n flags in
  let n' := Windows.vcode_to_keycode v in
  (Windows.keycode_to_vcode n' flags =? v)
  && match find (fun p => n =? fst p) windows_aliases with
     | Some p => n' =? snd p
     | None => n' =? n
     end
  && match find (fun row => v =? fst row) Windows.vcode_keycode_table with
     | Some _ => true
     | None => false
     end.

(** A table is single-valued for a virtual code when all its rows for
    that code carry the same key code. *)
Definition x11_single_valued (t : list X11.key_mapping) (v : Z) : Prop :=
  forall r1 r2, In r1 t -> In r2 t ->
    X11.vcode r1 = v -> X11.vcode r2 = v ->
    X11.x11_key_code r1 = X11.x11_key_code r2.

(** The [dx] of the mouse inputs handed to [SendInput], oldest first. *)
Definition injected_dx (r : Z * Windows.monitor_state * Windows.trace) : list Z :=
  flat_map (fun i => match i with
                     | Windows.INPUT_MOUSE mi => [Windows.dx mi]
                     | Windows.INPUT_KEYBOARD _ => []
                     end)
           (List.concat (snd r)).

(** A desktop of two monitors of 1920 by 1080, the left one at negative
    coordinates: the virtual screen starts at -1920 and is 3840 wide. *)
Definition two_monitor_desktop : Windows.env :=
  {| Windows.monitors :=
       [ Some {| Windows.rc_left := -1920; Windows.rc_top := 0;
                 Windows.rc_right := 0; Windows.rc_bottom := 1080 |};
         Some {| Windows.rc_left := 0; Windows.rc_top := 0;
                 Windows.rc_right := 1920; Windows.rc_bottom := 1080 |} ];
     Windows.SM_CXVIRTUALSCREEN := 3840;
     Windows.SM_CYVIRTUALSCREEN := 1080;
     Windows.GetCursorPos := Some (0, 0);
     Windows.MapVirtualKeyW := fun _ _ => 0;
     Windows.calloc := true;
     Windows.SendInput := fun inputs => Z.of_nat (List.length inputs) |}.

(** The same desktop when [SendInput] inserts nothing. *)
Definition blocked_desktop : Windows.env :=
  {| Windows.monitors := Windows.monitors two_monitor_desktop;
     Windows.SM_CXVIRTUALSCREEN := 3840;
     Windows.SM_CYVIRTUALSCREEN := 1080;
     Windows.GetCursorPos := Some (0, 0);
     Windows.MapVirtualKeyW := fun _ _ => 0;
     Windows.calloc := true;
     Windows.SendInput := fun _ => 0 |}.

Definition no_keyboard : UIOHook.keyboard_event_data :=
  {| UIOHook.keycode := 0; UIOHook.rawcode := 0; UIOHook.keychar := 0 |}.
Definition no_mouse : UIOHook.mouse_event_data :=
  {| UIOHook.button := 0; UIOHook.clicks := 0;
     UIOHook.mouse_x := 0; UIOHook.mouse_y := 0 |}.
Definition no_wheel : UIOHook.mouse_wheel_event_data :=
  {| UIOHook.wheel_x := 0; UIOHook.wheel_y := 0; UIOHook.wheel_type := 0;
     UIOHook.rotation := 0; UIOHook.delta := 0; UIOHook.direction := 0 |}.

Definition key_event (t : UIOHook.event_type) (vc : Z) : UIOHook.uiohook_event :=
  {| UIOHook.type := t; UIOHook.time := 0; UIOHook.mask := 0;
     UIOHook.reserved := 0;
     UIOHook.keyboard :=
       {| UIOHook.keycode := vc; UIOHook.rawcode := 0; UIOHook.keychar := 0 |};
     UIOHook.mouse := no_mouse; UIOHook.wheel := no_wheel |}.

Definition pointer_event (t : UIOHook.event_type) (b x y : Z)
  : UIOHook.uiohook_event :=
  {| UIOHook.type := t; UIOHook.time := 0; UIOHook.mask := 0;
     UIOHook.reserved := 0; UIOHook.keyboard := no_keyboard;
     UIOHook.mouse :=
       {| UIOHook.button := b; UIOHook.clicks := 0;
          UIOHook.mouse_x := x; UIOHook.mouse_y := y |};
     UIOHook.wheel := no_wheel |}.

Definition wheel_event (rot dir : Z) : UIOHook.uiohook_event :=
  {| UIOHook.type := UIOHook.EVENT_MOUSE_WHEEL; UIOHook.time := 0;
     UIOHook.mask := 0; UIOHook.reserved := 0;
     UIOHook.keyboard := no_keyboard; UIOHook.mouse := no_mouse;
     UIOHook.wheel :=
       {| UIOHook.wheel_x := 0; UIOHook.wheel_y := 0;
          UIOHook.wheel_type := UIOHook.WHEEL_UNIT_SCROLL;
          UIOHook.rotation := rot; UIOHook.delta := 0;
          UIOHook.direction := dir |} |}.

Definition is_key_event (ev : UIOHook.uiohook_event) : Prop :=
  UIOHook.type ev = UIOHook.EVENT_KEY_PRESSED \/
  UIOHook.type ev = UIOHook.EVENT_KEY_RELEASED.

(** The character codes that the macOS resolver does not report. *)
Definition non_character_codes : list Z :=
  [0x01; 0x04; 0x05; 0x0B; 0x0C; 0x10; 0x1F].

Definition is_motion (ev : UIOHook.uiohook_event) : Prop :=
  UIOHook.type ev = UIOHook.EVENT_MOUSE_MOVED \/
  UIOHook.type ev = UIOHook.EVENT_MOUSE_DRAGGED \/
  UIOHook.type ev = UIOHook.EVENT_MOUSE_MOVED_RELATIVE_TO_CURSOR.

Definition is_press (ev : UIOHook.uiohook_event) : Prop :=
  UIOHook.type ev = UIOHook.EVENT_MOUSE_PRESSED \/
  UIOHook.type ev = UIOHook.EVENT_MOUSE_PRESSED_IGNORE_COORDS.

Definition is_release (ev : UIOHook.uiohook_event) : Prop :=
  UIOHook.type ev = UIOHook.EVENT_MOUSE_RELEASED \/
  UIOHook.type ev = UIOHook.EVENT_MOUSE_RELEASED_IGNORE_COORDS.


(** The native button and the native event types of a virtual button. *)
Definition native_button (b : Z) : Z :=
  if b =? UIOHook.MOUSE_BUTTON1 then Darwin.kCGMouseButtonLeft
  else if b =? UIOHook.MOUSE_BUTTON2 then Darwin.kCGMouseButtonRight
  else uint32 (b - 1).

Definition down_type (b : Z) : Darwin.CGEventType :=
  if b =? UIOHook.MOUSE_BUTTON1 then Darwin.kCGEventLeftMouseDown
  else if b =? UIOHook.MOUSE_BUTTON2 then Darwin.kCGEventRightMouseDown
  else Darwin.kCGEventOtherMouseDown.

Definition up_type (b : Z) : Darwin.CGEventType :=
  if b =? UIOHook.MOUSE_BUTTON1 then Darwin.kCGEventLeftMouseUp
  else if b =? UIOHook.MOUSE_BUTTON2 then Darwin.kCGEventRightMouseUp
  else Darwin.kCGEventOtherMouseUp.

Definition dragged_type (b : Z) : Darwin.CGEventType :=
  if b =? UIOHook.MOUSE_BUTTON1 then Darwin.kCGEventLeftMouseDragged
  else if b =? UIOHook.MOUSE_BUTTON2 then Darwin.kCGEventRightMouseDragged
  else Darwin.kCGEventOtherMouseDragged.

(** A successful call that posts one mouse event of native type [t] for
    the native button [nb]. *)
Definition posted_as (t : Darwin.CGEventType) (nb : Z) (ev : UIOHook.uiohook_event)
  : Z * list Darwin.CGEvent :=
  (UIOHook.UIOHOOK_SUCCESS,
   [Darwin.mouse_event t (Darwin.mouse_point ev) nb (Darwin.click_state ev)]).


(** CoreGraphics with every constructor succeeding. *)
Definition core_graphics : Darwin.env :=
  {| Darwin.CGEventSourceCreate := true;
     Darwin.CGEventCreateKeyboardEvent := true;
     Darwin.CGEventCreateMouseEvent := true;
     Darwin.CGEventCreateScrollWheelEvent := true |}.

(** A keyboard description in the style of evdev: key codes 8 to 255,
    with [ESC] at 9, [AC01] at 38 and [I255] at the last key code. *)
Definition evdev_keyboard : X11.XkbDesc :=
  {| X11.min_key_code := 8;
     X11.max_key_code := 255;
     X11.names := fun k =>
       if k =? 9 then "ESC"%string
       else if k =? 38 then "AC01"%string
       else if k =? 255 then "I255"%string
       else ""%string |}.

(** The states that the statics of x11/input_helper.c can be in. *)
Inductive x11_reachable : X11.state -> Prop :=
| reachable_initial : x11_reachable X11.initial_state
| reachable_load (xkb : option X11.XkbDesc) (st : X11.state) :
    x11_reachable st -> x11_reachable (X11.load_key_mappings xkb st).

(** What [load_table] may do to a row: keep the codes, and either keep
    the key code or replace it by a visited key code of the same name. *)
Definition loaded_from (xkb : X11.XkbDesc) (r r' : X11.key_mapping) : Prop :=
  X11.vcode r' = X11.vcode r /\
  X11.x11_key_name r' = X11.x11_key_name r /\
  (X11.x11_key_code r' = X11.x11_key_code r \/
   (X11.min_key_code xkb <= X11.x11_key_code r' < X11.max_key_code xkb /\
    X11.strncmp_eq (X11.x11_key_name r)
      (X11.names xkb (X11.x11_key_code r')) X11.XkbKeyNameLength = true)).

(** An X server on which every XTest call fails, with the evdev keyboard
    and the usual wheel buttons. *)
Definition failing_x_server : X11.env :=
  {| X11.helper_disp := true;
     X11.xkb := Some evdev_keyboard;
     X11.mouse_button_table := true;
     X11.XGetPointerMapping := [1; 2; 3; 4; 5; 6; 7];
     X11.XQueryPointer := Some (0, 0);
     X11.XTestFakeKeyEvent := fun _ _ => 0;
     X11.XTestFakeButtonEvent := fun _ _ => 0;
     X11.XTestFakeMotionEvent := fun _ _ => 0;
     X11.WheelUp := 4; X11.WheelDown := 5;
     X11.WheelLeft := 6; X11.WheelRight := 7 |}.

(** A keyboard on which two names of the table that share a virtual code
    are both present, as on evdev: [COMP] at 135 and [I147] at 147 are
    both rows of [VC_CONTEXT_MENU]. *)
Definition menu_keyboard : X11.XkbDesc :=
  {| X11.min_key_code := 8;
     X11.max_key_code := 255;
     X11.names := fun k =>
       if k =? 135 then "COMP"%string
       else if k =? 147 then "I147"%string
       else ""%string |}.

(** The name at position [k] of the keyboard matches the name of the
    row, as the loader tests it. *)
Definition matches (xkb : X11.XkbDesc) (r : X11.key_mapping) (k : Z) : bool :=
  X11.strncmp_eq (X11.x11_key_name r) (X11.names xkb k) X11.XkbKeyNameLength.

(** The UTF-8 encoding of a code point (RFC 3629): one byte below
    U+0080, two below U+0800, three below U+10000 and four from there
    on.  This is the form in which [Xutf8LookupString] returns a
    character. *)
Definition utf8_bytes (cp : Z) : list Z :=
  if cp <? 0x80 then [cp]
  else if cp <? 0x800 then
    [ Z.lor 0xC0 (Z.shiftr cp 6);
      Z.lor 0x80 (Z.land cp 0x3F) ]
  else if cp <? 0x10000 then
    [ Z.lor 0xE0 (Z.shiftr cp 12);
      Z.lor 0x80 (Z.land (Z.shiftr cp 6) 0x3F);
      Z.lor 0x80 (Z.land cp 0x3F) ]
  else
    [ Z.lor 0xF0 (Z.shiftr cp 18);
      Z.lor 0x80 (Z.land (Z.shiftr cp 12) 0x3F);
      Z.lor 0x80 (Z.land (Z.shiftr cp 6) 0x3F);
      Z.lor 0x80 (Z.land cp 0x3F) ].

(** The bytes of a [char] array as unsigned values: a [char] may be
    signed, and then holds a byte above 0x7F as a negative number. *)
Definition unsigned_chars (chars : list Z) : list Z :=
  map (fun c => c mod 2 ^ 8) chars.

(** ** Auxiliary definitions for the further properties *)

(** A UTF-16 code unit. *)
Definition is_unit (u : Z) : Prop := 0 <= u < 2 ^ 16.

(** A Unicode scalar value: a code point that is not a surrogate. *)
Definition is_scalar (cp : Z) : Prop :=
  0 <= cp <= 0x10FFFF /\ ~ (0xD800 <= cp <= 0xDFFF).

(** The UTF-16 encoding of a code point: the code point itself up to
    U+FFFF, a lead and a trail surrogate above. *)
Definition utf16_units (cp : Z) : list Z :=
  if cp <=? 0xFFFF then [cp]
  else [0xD800 + (cp - 0x10000) / 0x400; 0xDC00 + (cp - 0x10000) mod 0x400].

(** A surrogate [u] followed by [rest] that is not the lead of a pair: a
    trail surrogate, or a lead surrogate at the end of the text or
    before a unit that is not a trail surrogate. *)
Definition lone_surrogate (u : Z) (rest : list Z) : Prop :=
  0xDC00 <= u <= 0xDFFF \/
  (0xD800 <= u <= 0xDBFF /\
   match rest with
   | [] => True
   | next :: _ => ~ (0xDC00 <= next <= 0xDFFF)
   end).

(** A key code is in use when one of its keysyms is not [NoSymbol]. *)
Definition keycode_in_use (e : X11.text_env) (keycode : Z) : bool :=
  existsb (fun k => negb (k =? X11.NoSymbol)) (X11.XGetKeyboardMapping e keycode).

(** The key code that a request remaps or presses, if any. *)
Definition request_keycode (r : X11.x_request) : option Z :=
  match r with
  | X11.change_keyboard_mapping keycode _ => Some keycode
  | X11.fake_key keycode _ => Some keycode
  | _ => None
  end.

Definition is_lock (r : X11.x_request) : bool :=
  match r with X11.lock_display => true | _ => false end.

Definition is_unlock (r : X11.x_request) : bool :=
  match r with X11.unlock_display => true | _ => false end.

(** The requests of one successful [post_keysym]. *)
Definition keysym_requests (delay keycode keysym : Z) : list X11.x_request :=
  [ X11.change_keyboard_mapping keycode [keysym; keysym; keysym; keysym];
    X11.sync;
    X11.sleep (delay / 1000000000) (delay mod 1000000000);
    X11.fake_key keycode true;
    X11.sync;
    X11.fake_key keycode false;
    X11.sync;
    X11.sleep (delay / 1000000000) (delay mod 1000000000) ].

(** An X server on which every request succeeds. *)
Definition x_server : X11.env :=
  {| X11.helper_disp := true;
     X11.xkb := Some evdev_keyboard;
     X11.mouse_button_table := true;
     X11.XGetPointerMapping := [1; 2; 3; 4; 5; 6; 7];
     X11.XQueryPointer := Some (0, 0);
     X11.XTestFakeKeyEvent := fun _ _ => 1;
     X11.XTestFakeButtonEvent := fun _ _ => 1;
     X11.XTestFakeMotionEvent := fun _ _ => 1;
     X11.WheelUp := 4; X11.WheelDown := 5;
     X11.WheelLeft := 6; X11.WheelRight := 7 |}.

(** A server with the key codes 8 to 255, of which 250 to 255 have a
    keysym; [restore] is the answer to the request that gives a key code
    the one keysym [NoSymbol]. *)
Definition text_server (restore : Z) : X11.text_env :=
  {| X11.server := x_server;
     X11.XDisplayKeycodes := Some (8, 255);
     X11.XGetKeyboardMapping := fun k =>
       if 250 <=? k then [X11.NoSymbol; 0x61] else [X11.NoSymbol; X11.NoSymbol];
     X11.XFree := true;
     X11.XStringToKeysym := fun s => 0x1000000 + Z.of_nat (String.length s);
     X11.XChangeKeyboardMapping := fun _ keysyms =>
       match keysyms with
       | [_] => restore
       | _ => X11.Success
       end |}.

(** The request that undoes the mapping of the borrowed key code. *)
Definition restore_request (keycode : Z) : X11.x_request :=
  X11.change_keyboard_mapping keycode [X11.NoSymbol].

(** The keysyms of a text, one for each code point. *)
Definition text_keysyms (e : X11.text_env) (text : list Z) : list Z :=
  map (fun cp => X11.XStringToKeysym e (X11.keysym_name cp))
      (X11.utf16_to_utf32 (X11.until_zero text)).

(** A request that is neither a lock nor an unlock of the display and
    that remaps or presses no key code but [keycode]. *)
Definition touches_only (keycode : Z) (r : X11.x_request) : Prop :=
  (request_keycode r = None \/ request_keycode r = Some keycode) /\
  is_lock r = false /\ is_unlock r = false.

(** A keyboard that has the name [MENU], at key code 135, and none of
    the other names of [VC_CONTEXT_MENU]. *)
Definition menu_only_keyboard : X11.XkbDesc :=
  {| X11.min_key_code := 8;
     X11.max_key_code := 255;
     X11.names := fun k => if k =? 135 then "MENU"%string else ""%string |}.

(** The state in which [load_key_mappings] leaves the statics when it
    loads the keyboard [kb]. *)
Definition loaded (kb : X11.XkbDesc) (st : X11.state) : X11.state :=
  {| X11.vcode_keycode_table := X11.load_table kb (X11.vcode_keycode_table st);
     X11.key_mappings_loaded := true |}.

(** The type of a key event. *)
Definition key_type (pressed : bool) : UIOHook.event_type :=
  if pressed then UIOHook.EVENT_KEY_PRESSED else UIOHook.EVENT_KEY_RELEASED.

(** The first row of a table for a virtual code. *)
Definition first_row (t : list X11.key_mapping) (vc : Z) : option X11.key_mapping :=
  find (fun r => vc =? X11.vcode r) t.

(** Whether the server reports the modifier bit [bit] of X as active.
    When [XQueryPointer] fails, [initialize_modifiers] does not ask. *)
Definition modifier_reported (q : X11.keyboard_query) (bit : Z) : bool :=
  match X11.XQueryPointer_mask q with
  | Some mask => Z.testbit mask bit
  | None => true
  end.

(** Whether the server reports the button bit [bit] of X as active. *)
Definition button_reported (q : X11.keyboard_query) (bit : Z) : bool :=
  match X11.XQueryPointer_mask q with
  | Some mask => Z.testbit mask bit
  | None => false
  end.

(** The bit of the modifier mask, the bit of the X mask and the keysym
    of each modifier key that [initialize_modifiers] looks at. *)
Definition x11_modifier_keys : list (Z * Z * Z) :=
  [ (0, 0, X11.XK_Shift_L); (4, 0, X11.XK_Shift_R);
    (1, 2, X11.XK_Control_L); (5, 2, X11.XK_Control_R);
    (3, 3, X11.XK_Alt_L); (7, 3, X11.XK_Alt_R);
    (2, 6, X11.XK_Super_L); (6, 6, X11.XK_Super_R) ].

(** The virtual codes that the Windows hook reports differently from
    how they were posted; [ext] is the extended-key flag of the captured
    event. *)
Definition windows_capture_exceptions (ext : bool) : list Z :=
  [ UIOHook.VC_HANGUL; UIOHook.VC_KANJI;
    if ext then UIOHook.VC_ENTER else UIOHook.VC_KP_ENTER ].

(** Posting one virtual code and capturing its key code again. *)
Definition windows_post_capture_ok (ext : bool) (v : Z) : bool :=
  (Windows.keycode_to_vcode (Windows.vcode_to_keycode v) (Z.b2z ext) =? v)
  || existsb (Z.eqb v) (windows_capture_exceptions ext).

(** The monitors for which [GetMonitorInfo] succeeds. *)
Definition monitor_rects (monitors : list (option Windows.RECT)) : list Windows.RECT :=
  flat_map (fun m => match m with Some rc => [rc] | None => [] end) monitors.

(** The messages of the X buttons. *)
Definition is_x_button_message (wParam : Z) : bool :=
  (wParam =? Windows.WM_XBUTTONDOWN) || (wParam =? Windows.WM_NCXBUTTONDOWN)
  || (wParam =? Windows.WM_XBUTTONUP) || (wParam =? Windows.WM_NCXBUTTONUP).

(** Both lookups of the macOS table undo each other on a row. *)
Definition darwin_row_ok (row : Z * Z) : bool :=
  (Darwin.keycode_to_vcode (Darwin.vcode_to_keycode (fst row)) =? fst row)
  && (Darwin.vcode_to_keycode (Darwin.keycode_to_vcode (snd row)) =? snd row).


(** The type that macOS motion events take after the release of a
    button whose dragged type is [released], when the dragged type
    [armed] was in force. *)
Definition after_release (armed released : Darwin.CGEventType) : Darwin.CGEventType :=
  if Darwin.CGEventType_eqb armed released then Darwin.kCGEventMouseMoved else armed.

(** The event types that the hook reports and that cannot be posted. *)
Definition is_notification (t : UIOHook.event_type) : bool :=
  match t with
  | UIOHook.EVENT_HOOK_ENABLED | UIOHook.EVENT_HOOK_DISABLED
  | UIOHook.EVENT_KEY_TYPED | UIOHook.EVENT_MOUSE_CLICKED => true
  | _ => false
  end.

(** [button_map_lookup] without a pointer mapping: buttons 2 and 3
    change places. *)
Definition swap_2_3 (button : Z) : Z :=
  if button =? 2 then 3 else if button =? 3 then 2 else button.

(** The pointer mapping that maps every button to itself. *)
Definition identity_mapping (mapping : list Z) : Prop :=
  forall i, (i < List.length mapping)%nat -> nth i mapping 0 = Z.of_nat i + 1.

(** The event [ev] turned into a move to the position [(x, y)]. *)
Definition moved_to (x y : Z) (ev : UIOHook.uiohook_event) : UIOHook.uiohook_event :=
  {| UIOHook.type := UIOHook.EVENT_MOUSE_MOVED;
     UIOHook.time := UIOHook.time ev; UIOHook.mask := UIOHook.mask ev;
     UIOHook.reserved := UIOHook.reserved ev;
     UIOHook.keyboard := UIOHook.keyboard ev;
     UIOHook.mouse :=
       {| UIOHook.button := UIOHook.button (UIOHook.mouse ev);
          UIOHook.clicks := UIOHook.clicks (UIOHook.mouse ev);
          UIOHook.mouse_x := x; UIOHook.mouse_y := y |};
     UIOHook.wheel := UIOHook.wheel ev |}.

(** * Properties *)

(** ** Table lookups *)

Section FirstMatch.
Context {A : Type}.

(** A successful first-match scan returns a row of the table. *)
Lemma find_row (f : A -> bool) (l : list A) (x : A) :
  find f l = Some x -> In x l /\ f x = true.
Proof.
  induction l as [|a l IH]; simpl; [discriminate|].
  destruct (f a) eqn:Fa.
  - intros [= <-]. auto.
  - intros H. destruct (IH H). auto.
Qed.

(** A scan fails only when no row matches. *)
Lemma find_no_row (f : A -> bool) (l : list A) :
  find f l = None -> forall x, In x l -> f x = false.
Proof.
  induction l as [|a l IH]; simpl; intros H x Hx; [contradiction|].
  destruct (f a) eqn:Fa; [discriminate|].
  destruct Hx as [<-|Hx]; auto.
Qed.

(** A successful scan stops at the first row that matches: no row
    before it does. *)
Lemma find_first (f : A -> bool) (l : list A) (x : A) :
  find f l = Some x ->
  exists before after,
    l = before ++ x :: after /\ f x = true /\
    forall y, In y before -> f y = false.
Proof.
  induction l as [|a l IH]; simpl; [discriminate|].
  destruct (f a) eqn:Fa.
  - intros [= <-]. exists [], l. repeat split; [exact Fa|intros y []].
  - intros H. destruct (IH H) as (before & after & -> & Fx & Hb).
    exists (a :: before), after. repeat split; [exact Fx|].
    intros y [<-|Hy]; auto.
Qed.
End FirstMatch.

(** The extended-key test only looks at bit 0 of the flags. *)
Lemma extended_key_bit (flags : Z) :
  (Z.land flags Windows.KEYEVENTF_EXTENDEDKEY =? 0) = negb (Z.testbit flags 0).
Proof.
  change Windows.KEYEVENTF_EXTENDEDKEY with (Z.ones 1).
  rewrite Z.land_ones by lia. change (2 ^ 1) with 2.
  rewrite <- Z.bit0_mod.
  destruct (Z.testbit flags 0); reflexivity.
Qed.

Lemma keycode_to_vcode_bit0 (vk_code flags : Z) :
  Windows.keycode_to_vcode vk_code flags =
  Windows.keycode_to_vcode vk_code (Z.b2z (Z.testbit flags 0)).
Proof.
  unfold Windows.keycode_to_vcode.
  rewrite !extended_key_bit.
  destruct (Z.testbit flags 0); reflexivity.
Qed.

(** C6: on Windows the scan of the table finds the [VC_ENTER] row for
    [VK_RETURN] first, and the refinement applied after the scan turns it
    into [VC_KP_ENTER] exactly when the extended-key flag (bit 0,
    [KEYEVENTF_EXTENDEDKEY]) is set in the event flags. *)
Theorem keycode_to_vcode_return (flags : Z) :
  Windows.scan_keycode Windows.VK_RETURN = UIOHook.VC_ENTER /\
  Windows.keycode_to_vcode Windows.VK_RETURN flags =
  if Z.testbit flags 0 then UIOHook.VC_KP_ENTER else UIOHook.VC_ENTER.
Proof.
  split; [reflexivity|].
  unfold Windows.keycode_to_vcode.
  rewrite extended_key_bit.
  change (Windows.scan_keycode Windows.VK_RETURN) with UIOHook.VC_ENTER.
  destruct (Z.testbit flags 0); reflexivity.
Qed.

(** Every key code that the scan knows is a key code of the table. *)
Lemma scan_keycode_defined (n : Z) :
  Windows.scan_keycode n <> UIOHook.VC_UNDEFINED ->
  In n (map snd Windows.vcode_keycode_table).
Proof.
  unfold Windows.scan_keycode.
  destruct (find _ _) as [r|] eqn:F; [|intros H; now elim H].
  intros _. apply find_row in F as [Hin Heq].
  apply Z.eqb_eq in Heq. subst n. now apply in_map.
Qed.

Lemma windows_roundtrip_table (b : bool) :
  forallb (windows_roundtrip_ok (Z.b2z b)) (map snd Windows.vcode_keycode_table) = true.
Proof. destruct b; vm_compute; reflexivity. Qed.

Lemma keycode_to_vcode_defined (n flags : Z) :
  Windows.keycode_to_vcode n flags <> UIOHook.VC_UNDEFINED ->
  Windows.scan_keycode n <> UIOHook.VC_UNDEFINED.
Proof.
  unfold Windows.keycode_to_vcode. intros H E. rewrite E in H.
  change (UIOHook.VC_UNDEFINED =? UIOHook.VC_ENTER) with false in H.
  cbn [andb] in H. now apply H.
Qed.

Lemma pair_eqb_eq (p q : Z * Z) : pair_eqb p q = true -> p = q.
Proof.
  destruct p as [a b], q as [c d]. unfold pair_eqb. cbn [fst snd].
  intros H. apply andb_prop in H as [H1 H2].
  apply Z.eqb_eq in H1, H2. now subst.
Qed.

Lemma windows_roundtrip_ok_spec (flags n : Z) :
  windows_roundtrip_ok flags n = true ->
  Windows.keycode_to_vcode
    (Windows.vcode_to_keycode (Windows.keycode_to_vcode n flags)) flags
  = Windows.keycode_to_vcode n flags /\
  (Windows.vcode_to_keycode (Windows.keycode_to_vcode n flags) = n \/
   In (n, Windows.vcode_to_keycode (Windows.keycode_to_vcode n flags))
      windows_aliases).
Proof.
  unfold windows_roundtrip_ok.
  generalize (Windows.vcode_to_keycode (Windows.keycode_to_vcode n flags)).
  intros n' T.
  apply andb_prop in T as [T1 T2]. apply Z.eqb_eq in T1.
  split; [exact T1|].
  apply orb_prop in T2 as [T2|T2]; [left; now apply Z.eqb_eq|right].
  apply existsb_exists in T2 as [q [Hq E]].
  apply pair_eqb_eq in E. now rewrite E.
Qed.

Lemma windows_roundtrip (n flags : Z) :
  let v := Windows.keycode_to_vcode n flags in
  v <> UIOHook.VC_UNDEFINED ->
  Windows.keycode_to_vcode (Windows.vcode_to_keycode v) flags = v /\
  (Windows.vcode_to_keycode v = n \/
   In (n, Windows.vcode_to_keycode v) windows_aliases).
Proof.
  intros v Hv. subst v.
  pose proof (scan_keycode_defined n (keycode_to_vcode_defined n flags Hv)) as Hin.
  pose proof (windows_roundtrip_table (Z.testbit flags 0)) as T.
  rewrite forallb_forall in T. specialize (T n Hin).
  apply windows_roundtrip_ok_spec in T.
  rewrite <- !keycode_to_vcode_bit0 in T. exact T.
Qed.

Lemma x11_reverse_lookup_first_row (t : list X11.key_mapping) (n : Z) :
  let v := X11.keycode_to_vcode t n in
  v <> UIOHook.VC_UNDEFINED ->
  exists r, In r t /\ X11.vcode r = v /\
            X11.vcode_to_keycode t v = uint8 (X11.x11_key_code r).
Proof.
  intros v Hv. unfold v, X11.keycode_to_vcode in *.
  destruct (find (fun r => n =? X11.x11_key_code r) t) as [r|] eqn:F;
    [|now elim Hv].
  apply find_row in F as [Hin _].
  unfold X11.vcode_to_keycode.
  destruct (find (fun r0 => X11.vcode r =? X11.vcode r0) t) as [r'|] eqn:G.
  - apply find_row in G as [Hin' E]. apply Z.eqb_eq in E.
    exists r'. auto.
  - apply (find_no_row _ _ G) in Hin. rewrite Z.eqb_refl in Hin. discriminate.
Qed.

Lemma x11_roundtrip_single_valued (t : list X11.key_mapping) (n : Z) :
  let v := X11.keycode_to_vcode t n in
  v <> UIOHook.VC_UNDEFINED ->
  x11_single_valued t v -> 0 <= n < 256 ->
  X11.vcode_to_keycode t v = n.
Proof.
  intros v Hv Hs Hn.
  destruct (x11_reverse_lookup_first_row t n Hv) as (r' & Hin' & Hv' & Hk).
  subst v. cbv zeta in Hv', Hk. rewrite Hk.
  unfold X11.keycode_to_vcode in Hv, Hs, Hv'.
  destruct (find (fun r => n =? X11.x11_key_code r) t) as [r|] eqn:F;
    [|now elim Hv].
  apply find_row in F as [Hin E]. apply Z.eqb_eq in E.
  rewrite (Hs r' r Hin' Hin Hv' eq_refl), <- E.
  unfold uint8. apply Z.mod_small. exact Hn.
Qed.

Lemma windows_first_code_table (b : bool) :
  forallb (windows_first_code_ok (Z.b2z b)) (map snd Windows.vcode_keycode_table) = true.
Proof. destruct b; vm_compute; reflexivity. Qed.

(** On Windows the reverse lookup answers with the key code of the first
    row of the virtual code; that key code is the partner of an alias
    and the key code itself otherwise. *)
Lemma windows_roundtrip_first_row (n flags : Z) :
  let v := Windows.keycode_to_vcode n flags in
  v <> UIOHook.VC_UNDEFINED ->
  (exists before row after,
     Windows.vcode_keycode_table = before ++ row :: after /\
     fst row = v /\ (forall row', In row' before -> fst row' <> v) /\
     Windows.vcode_to_keycode v = snd row) /\
  Windows.keycode_to_vcode (Windows.vcode_to_keycode v) flags = v /\
  (forall a, In (n, a) windows_aliases -> Windows.vcode_to_keycode v = a) /\
  ((forall a, ~ In (n, a) windows_aliases) -> Windows.vcode_to_keycode v = n).
Proof.
  intros v Hv. subst v.
  pose proof (scan_keycode_defined n (keycode_to_vcode_defined n flags Hv)) as Hin.
  pose proof (windows_first_code_table (Z.testbit flags 0)) as T.
  rewrite forallb_forall in T. specialize (T n Hin).
  unfold windows_first_code_ok in T.
  rewrite <- !keycode_to_vcode_bit0 in T.
  revert T. generalize (Windows.keycode_to_vcode n flags). intros v T.
  apply andb_prop in T as [T T3]. apply andb_prop in T as [T1 T2].
  apply Z.eqb_eq in T1.
  split; [|split; [exact T1|split]].
  - unfold Windows.vcode_to_keycode.
    destruct (find (fun row => v =? fst row) Windows.vcode_keycode_table)
      as [row|] eqn:F; [|discriminate T3].
    apply find_first in F as (before & after & E & Fx & Hb).
    exists before, row, after. apply Z.eqb_eq in Fx.
    repeat split; [exact E|now symmetry|].
    intros row' Hr' Heq. apply Hb in Hr'. apply Z.eqb_neq in Hr'. congruence.
  - intros a Ha.
    destruct (find (fun p => n =? fst p) windows_aliases) as [p|] eqn:F.
    + apply Z.eqb_eq in T2. rewrite T2. clear T2 T3.
      unfold windows_aliases in Ha, F. cbn [In] in Ha.
      decompose [or] Ha; clear Ha;
        match goal with
        | H : False |- _ => destruct H
        | H : (_, _) = (_, _) |- _ => injection H as <- <-
        end;
        vm_compute in F; injection F as <-; reflexivity.
    + exfalso. apply (find_no_row _ _ F) in Ha. cbn [fst] in Ha.
      rewrite Z.eqb_refl in Ha. discriminate.
  - intros Hna.
    destruct (find (fun p => n =? fst p) windows_aliases) as [p|] eqn:F.
    + exfalso. apply find_row in F as [Hp E]. apply Z.eqb_eq in E.
      apply (Hna (snd p)). rewrite E. now destruct p.
    + now apply Z.eqb_eq.
Qed.

(** On X11 the reverse lookup answers with the key code of the first
    row of the virtual code, in whatever state the table is. *)
Lemma x11_roundtrip_first_row (t : list X11.key_mapping) (n : Z) :
  let v := X11.keycode_to_vcode t n in
  v <> UIOHook.VC_UNDEFINED ->
  exists before r after,
    t = before ++ r :: after /\
    X11.vcode r = v /\ (forall r', In r' before -> X11.vcode r' <> v) /\
    X11.vcode_to_keycode t v = uint8 (X11.x11_key_code r) /\
    (X11.vcode_to_keycode t v = n <-> uint8 (X11.x11_key_code r) = n).
Proof.
  intros v Hv. subst v. unfold X11.keycode_to_vcode in *.
  destruct (find (fun r => n =? X11.x11_key_code r) t) as [r0|] eqn:F;
    [|now elim Hv].
  apply find_row in F as [Hin _].
  unfold X11.vcode_to_keycode.
  destruct (find (fun r => X11.vcode r0 =? X11.vcode r) t) as [r|] eqn:G.
  - apply find_first in G as (before & after & E & Fx & Hb).
    apply Z.eqb_eq in Fx.
    exists before, r, after. repeat split; auto.
    intros r' Hr' Heq. apply Hb in Hr'. apply Z.eqb_neq in Hr'. congruence.
  - apply (find_no_row _ _ G) in Hin. rewrite Z.eqb_refl in Hin. discriminate.
Qed.

(** C2, as amended: when the native-to-VC lookup maps a native code [n]
    to a virtual code [v] other than [VC_UNDEFINED], the VC-to-native
    lookup of [v] returns the native code of the first table row whose
    virtual code is [v]: the table is that row between the rows before
    it, none of which has [v], and the rows after it.  On Windows that
    code is mapped back to [v] under the same flags; it is the partner
    of [n] when [n] is one of the alias codes [VK_OEM_CLEAR],
    [VK_SHIFT], [VK_CONTROL], [VK_MENU] (the partners are [VK_CLEAR],
    [VK_LSHIFT], [VK_LCONTROL], [VK_LMENU]) and [n] itself for every
    other [n].  On X11, whatever key codes were loaded into the table,
    it is [n] itself exactly when that first row carries [n]. *)
Theorem lookup_roundtrip_first_row :
  (forall n flags,
     let v := Windows.keycode_to_vcode n flags in
     v <> UIOHook.VC_UNDEFINED ->
     (exists before row after,
        Windows.vcode_keycode_table = before ++ row :: after /\
        fst row = v /\ (forall row', In row' before -> fst row' <> v) /\
        Windows.vcode_to_keycode v = snd row) /\
     Windows.keycode_to_vcode (Windows.vcode_to_keycode v) flags = v /\
     (forall a, In (n, a) windows_aliases -> Windows.vcode_to_keycode v = a) /\
     ((forall a, ~ In (n, a) windows_aliases) -> Windows.vcode_to_keycode v = n)) /\
  (forall t n,
     let v := X11.keycode_to_vcode t n in
     v <> UIOHook.VC_UNDEFINED ->
     exists before r after,
       t = before ++ r :: after /\
       X11.vcode r = v /\ (forall r', In r' before -> X11.vcode r' <> v) /\
       X11.vcode_to_keycode t v = uint8 (X11.x11_key_code r) /\
       (X11.vcode_to_keycode t v = n <-> uint8 (X11.x11_key_code r) = n)).
Proof.
  split.
  - exact windows_roundtrip_first_row.
  - exact x11_roundtrip_first_row.
Qed.

(** The round trip at [VK_SHIFT] on Windows, and on an X11 table with
    two rows of [VC_CONTEXT_MENU] at the key code 147 of the second. *)
Lemma lookup_roundtrip_first_row_witness :
  Windows.vcode_to_keycode (Windows.keycode_to_vcode Windows.VK_SHIFT 0)
  = Windows.VK_LSHIFT /\
  exists before r after,
    [ {| X11.vcode := UIOHook.VC_CONTEXT_MENU; X11.x11_key_name := "COMP";
         X11.x11_key_code := 135 |};
      {| X11.vcode := UIOHook.VC_CONTEXT_MENU; X11.x11_key_name := "I147";
         X11.x11_key_code := 147 |} ] = before ++ r :: after /\
    X11.vcode r = UIOHook.VC_CONTEXT_MENU /\
    (forall r', In r' before -> X11.vcode r' <> UIOHook.VC_CONTEXT_MENU) /\
    X11.vcode_to_keycode
      [ {| X11.vcode := UIOHook.VC_CONTEXT_MENU; X11.x11_key_name := "COMP";
           X11.x11_key_code := 135 |};
        {| X11.vcode := UIOHook.VC_CONTEXT_MENU; X11.x11_key_name := "I147";
           X11.x11_key_code := 147 |} ] UIOHook.VC_CONTEXT_MENU
    = uint8 (X11.x11_key_code r) /\
    (X11.vcode_to_keycode
       [ {| X11.vcode := UIOHook.VC_CONTEXT_MENU; X11.x11_key_name := "COMP";
            X11.x11_key_code := 135 |};
         {| X11.vcode := UIOHook.VC_CONTEXT_MENU; X11.x11_key_name := "I147";
            X11.x11_key_code := 147 |} ] UIOHook.VC_CONTEXT_MENU = 147
     <-> uint8 (X11.x11_key_code r) = 147).
Proof.
  destruct lookup_roundtrip_first_row as [W X]. split.
  - destruct (W Windows.VK_SHIFT 0) as (_ & _ & H & _); [vm_compute; discriminate|].
    apply H. vm_compute. tauto.
  - apply (X [ {| X11.vcode := UIOHook.VC_CONTEXT_MENU; X11.x11_key_name := "COMP";
                  X11.x11_key_code := 135 |};
               {| X11.vcode := UIOHook.VC_CONTEXT_MENU; X11.x11_key_name := "I147";
                  X11.x11_key_code := 147 |} ] 147).
    vm_compute. discriminate.
Defined.

(** C2, as stated, fails on both platforms.  On Windows [VK_SHIFT] is
    mapped to [VC_SHIFT_L], whose native code is [VK_LSHIFT].  On X11,
    after loading a keyboard that has both [COMP], at key code 135, and
    [I147], at key code 147, the key code 147 is mapped to
    [VC_CONTEXT_MENU], whose key code is 135. *)
Lemma lookup_roundtrip_counterexample :
  ~ (forall n flags,
       Windows.keycode_to_vcode n flags <> UIOHook.VC_UNDEFINED ->
       Windows.vcode_to_keycode (Windows.keycode_to_vcode n flags) = n) /\
  ~ (forall xkb n,
       let t := X11.vcode_keycode_table
                  (X11.load_key_mappings (Some xkb) X11.initial_state) in
       X11.keycode_to_vcode t n <> UIOHook.VC_UNDEFINED ->
       X11.vcode_to_keycode t (X11.keycode_to_vcode t n) = n).
Proof.
  split.
  - intros H. specialize (H Windows.VK_SHIFT 0).
    vm_compute in H. specialize (H ltac:(discriminate)). discriminate.
  - intros H. specialize (H menu_keyboard 147). cbv zeta in H.
    remember (X11.vcode_keycode_table
                (X11.load_key_mappings (Some menu_keyboard) X11.initial_state))
      as t eqn:Et.
    vm_compute in Et. subst t.
    vm_compute in H. specialize (H ltac:(discriminate)). discriminate.
Qed.

(** ** The Windows mouse hook and the modifier mask *)

Section MaskBits.
Local Ltac bits := apply Z.bits_inj'; intros k Hk.

Lemma uint16_testbit (z k : Z) :
  Z.testbit (uint16 z) k = (k <? 16) && Z.testbit z k.
Proof.
  unfold uint16.
  destruct (Z.ltb_spec k 16) as [L|L]; cbn [andb].
  - destruct (Z.ltb_spec k 0) as [N|N].
    + now rewrite !Z.testbit_neg_r.
    + apply Z.mod_pow2_bits_low. lia.
  - apply Z.mod_pow2_bits_high. lia.
Qed.

(** Setting the mask of a button turns its bit on. *)
Lemma set_modifier_mask_bit (n m : Z) :
  0 <= n < 16 ->
  Z.testbit (Windows.set_modifier_mask (Z.shiftl 1 n) m) n = true.
Proof.
  intros Hn. unfold Windows.set_modifier_mask.
  rewrite uint16_testbit, Z.lor_spec, uint16_testbit.
  rewrite Z.shiftl_spec by lia. rewrite Z.sub_diag.
  replace (n <? 16) with true by (symmetry; apply Z.ltb_lt; lia).
  cbn [andb]. apply orb_true_r.
Qed.

(** Clearing the mask of a button turns its bit off. *)
Lemma unset_modifier_mask_bit (n m : Z) :
  0 <= n < 16 ->
  Z.testbit (Windows.unset_modifier_mask (Z.shiftl 1 n) m) n = false.
Proof.
  intros Hn. unfold Windows.unset_modifier_mask.
  rewrite uint16_testbit, Z.land_spec, Z.lnot_spec by lia.
  rewrite uint16_testbit, Z.shiftl_spec by lia. rewrite Z.sub_diag.
  replace (n <? 16) with true by (symmetry; apply Z.ltb_lt; lia).
  cbn [andb negb]. apply andb_false_r.
Qed.
End MaskBits.

(** X21: the hook keeps the mask right for the three plain buttons and
    for the X buttons that Windows reports as [XBUTTON1] and [XBUTTON2]:
    after the press the bit of the button is set in the mask that
    [get_modifiers] returns, after the release it is clear. *)
Lemma mouse_hook_known_buttons
  (dispatch : Windows.dispatch_call -> Z -> bool) (next nCode : Z)
  (st : Windows.hook_state) (down up data b : Z) :
  In (down, up, data, b)
     [ (Windows.WM_LBUTTONDOWN, Windows.WM_LBUTTONUP, 0, 1);
       (Windows.WM_RBUTTONDOWN, Windows.WM_RBUTTONUP, 0, 2);
       (Windows.WM_MBUTTONDOWN, Windows.WM_MBUTTONUP, 0, 3);
       (Windows.WM_XBUTTONDOWN, Windows.WM_XBUTTONUP, 0x00010000, 4);
       (Windows.WM_XBUTTONDOWN, Windows.WM_XBUTTONUP, 0x00020000, 5) ] ->
  let pressed := snd (Windows.mouse_hook_event_proc dispatch next nCode down data st) in
  let released := snd (Windows.mouse_hook_event_proc dispatch next nCode up data pressed) in
  Z.testbit (Windows.get_modifiers (Windows.modifier_mask pressed)) (7 + b) = true /\
  Z.testbit (Windows.get_modifiers (Windows.modifier_mask released)) (7 + b) = false.
Proof.
  intros H pressed released.
  assert (E : Windows.modifier_mask pressed
              = Windows.set_modifier_mask (Z.shiftl 1 (7 + b)) (Windows.modifier_mask st)
              /\ Windows.modifier_mask released
              = Windows.unset_modifier_mask (Z.shiftl 1 (7 + b))
                  (Windows.modifier_mask pressed)).
  { subst pressed released. simpl in H.
    repeat (destruct H as [H|H]; [injection H as <- <- <- <-; split; reflexivity|]).
    contradiction. }
  assert (Hb : 0 <= 7 + b < 16).
  { simpl in H.
    repeat (destruct H as [H|H]; [injection H as <- <- <- <-; lia|]).
    contradiction. }
  destruct E as [Ep Er]. unfold Windows.get_modifiers. rewrite Er, Ep. split.
  - now apply set_modifier_mask_bit.
  - now apply unset_modifier_mask_bit.
Qed.

(** C1, at the input where the hook departs from it: the extra-button
    branch.  A press whose high word of [mouseData] is 4 is dispatched
    as a press of button 4, but the hook passes the button number 4 to
    [set_modifier_mask] instead of [MASK_BUTTON4]: from an empty mask the
    result is [MASK_META_L], and the bit of button 4 stays clear.  The
    release with the same data, from a mask that has [MASK_BUTTON4] set,
    leaves that bit set (and is dispatched as a release of button 5). *)
Theorem mouse_hook_extra_button_mask
  (dispatch : Windows.dispatch_call -> Z -> bool) (next nCode : Z) :
  let pressed :=
    snd (Windows.mouse_hook_event_proc dispatch next nCode
           Windows.WM_XBUTTONDOWN 0x00040000
           {| Windows.modifier_mask := 0; Windows.dispatched := [] |}) in
  let released :=
    snd (Windows.mouse_hook_event_proc dispatch next nCode
           Windows.WM_XBUTTONUP 0x00040000
           {| Windows.modifier_mask := UIOHook.MASK_BUTTON4;
              Windows.dispatched := [] |}) in
  Windows.dispatched pressed
    = [(Windows.dispatch_button_press UIOHook.MOUSE_BUTTON4, UIOHook.MASK_META_L)] /\
  Windows.get_modifiers (Windows.modifier_mask pressed) = UIOHook.MASK_META_L /\
  Z.land (Windows.get_modifiers (Windows.modifier_mask pressed))
         UIOHook.MASK_BUTTON4 = 0 /\
  Windows.dispatched released
    = [(Windows.dispatch_button_release UIOHook.MOUSE_BUTTON5, UIOHook.MASK_BUTTON4)] /\
  Z.land (Windows.get_modifiers (Windows.modifier_mask released))
         UIOHook.MASK_BUTTON4 = UIOHook.MASK_BUTTON4.
Proof.
  cbv zeta. repeat split.
Qed.

(** ** Coordinate normalisation on Windows *)

Lemma MulDiv_zero (b c : Z) : c <> 0 -> Windows.MulDiv 0 b c = 0.
Proof.
  intros Hc. unfold Windows.MulDiv.
  destruct (Z.eqb_spec c 0) as [E|_]; [contradiction|].
  reflexivity.
Qed.

(** C4, as amended: with the virtual screen starting at -1920 and 3840
    wide, a mouse move posted to x = -1920 is injected with dx = 0, and a
    mouse move posted to x = 1919 is injected with
    dx = MulDiv(3839, 65535, 3840) = 65518. *)
Theorem normalized_dx_two_monitors
  (e : Windows.env) (st : Windows.monitor_state) (ev : UIOHook.uiohook_event) :
  uint16 (Windows.SM_CXVIRTUALSCREEN e) = 3840 ->
  fst (fst (Windows.get_largest_negative_coordinates (Windows.monitors e) st)) = -1920 ->
  Windows.calloc e = true ->
  UIOHook.type ev = UIOHook.EVENT_MOUSE_MOVED ->
  (UIOHook.mouse_x (UIOHook.mouse ev) = -1920 ->
   injected_dx (Windows.hook_post_event e ev st) = [0]) /\
  (UIOHook.mouse_x (UIOHook.mouse ev) = 1919 ->
   injected_dx (Windows.hook_post_event e ev st) = [65518]).
Proof.
  intros Hw Hl Hc Ht.
  unfold Windows.hook_post_event, Windows.hook_post_event_with.
  rewrite Hc, Ht. cbn [negb].
  unfold Windows.map_mouse_event. rewrite Ht.
  unfold Windows.normalize_coordinates. rewrite Hw.
  destruct (Windows.get_largest_negative_coordinates _ _) as [[l t] st'].
  cbn [fst snd] in *. subst l.
  split; intros Hx; rewrite Hx; cbn [fst snd];
    change (UIOHook.UIOHOOK_SUCCESS =? UIOHook.UIOHOOK_SUCCESS) with true;
    cbv iota; destruct (Windows.SendInput e _ =? 0); reflexivity.
Qed.

(** The two moves on a desktop of two monitors, from the initial
    statics. *)
Lemma normalized_dx_two_monitors_witness :
  injected_dx (Windows.hook_post_event two_monitor_desktop
                 (pointer_event UIOHook.EVENT_MOUSE_MOVED 0 (-1920) 0)
                 Windows.initial_monitor_state) = [0] /\
  injected_dx (Windows.hook_post_event two_monitor_desktop
                 (pointer_event UIOHook.EVENT_MOUSE_MOVED 0 1919 0)
                 Windows.initial_monitor_state) = [65518].
Proof.
  split.
  - apply (normalized_dx_two_monitors two_monitor_desktop
             Windows.initial_monitor_state
             (pointer_event UIOHook.EVENT_MOUSE_MOVED 0 (-1920) 0));
      reflexivity.
  - apply (normalized_dx_two_monitors two_monitor_desktop
             Windows.initial_monitor_state
             (pointer_event UIOHook.EVENT_MOUSE_MOVED 0 1919 0));
      reflexivity.
Defined.

(** C4, as stated, fails: the move to x = 1919 is not injected with
    dx = 65535. *)
Lemma normalized_dx_counterexample :
  injected_dx (Windows.hook_post_event two_monitor_desktop
                 (pointer_event UIOHook.EVENT_MOUSE_MOVED 0 1919 0)
                 Windows.initial_monitor_state) <> [65535].
Proof. vm_compute. discriminate. Qed.

(** ** The macOS Unicode resolver *)

Lemma non_character_test (c : Z) :
  (c =? 0x01) || (c =? 0x04) || (c =? 0x05) || (c =? 0x10)
  || (c =? 0x0B) || (c =? 0x0C) || (c =? 0x1F) = true
  <-> In c non_character_codes.
Proof.
  unfold non_character_codes. simpl. rewrite !orb_true_iff, !Z.eqb_eq.
  intuition congruence.
Qed.

(** C8: when the native translation produces exactly one code unit [c],
    the resolver reports length zero (so the key press gives no
    KEY_TYPED event) if [c] is one of 0x01, 0x04, 0x05, 0x0B, 0x0C, 0x10,
    0x1F, and it reports that one unit unchanged for every other [c]. *)
Theorem resolver_single_unit
  (translate : Darwin.TISKeycodeMessage -> Z * list Z)
  (event_ref : nat) (buffer : list Z) (size c : Z) (rest : list Z) :
  translate {| Darwin.event := Some event_ref; Darwin.buffer := buffer;
               Darwin.size := size; Darwin.length := 0 |} = (1, c :: rest) ->
  let resolved :=
    Darwin.event_to_unicode translate true (Some event_ref) buffer size in
  (In c non_character_codes ->
   fst resolved = 0 /\ Darwin.key_typed_events resolved = []) /\
  (~ In c non_character_codes ->
   resolved = (1, c :: rest) /\ Darwin.key_typed_events resolved = [c]).
Proof.
  intros Ht resolved. subst resolved.
  unfold Darwin.event_to_unicode, Darwin.tis_message_to_unicode,
    Darwin.with_length.
  cbn [Darwin.event Darwin.buffer Darwin.size].
  rewrite Ht. cbn [Darwin.length Darwin.buffer nth Z.eqb Pos.eqb].
  destruct ((c =? 1) || (c =? 4) || (c =? 5) || (c =? 16)
            || (c =? 11) || (c =? 12) || (c =? 31)) eqn:T.
  - apply non_character_test in T. split; [|intros N; now elim N].
    intros _. split; reflexivity.
  - split; intros N.
    + apply non_character_test in N. rewrite N in T. discriminate.
    + split; reflexivity.
Qed.

(** The function-key code 0x10 is dropped and the letter 0x61 is kept. *)
Lemma resolver_single_unit_witness :
  (fst (Darwin.event_to_unicode (fun _ => (1, [0x10])) true (Some O) [0] 1) = 0 /\
   Darwin.key_typed_events
     (Darwin.event_to_unicode (fun _ => (1, [0x10])) true (Some O) [0] 1) = []) /\
  (Darwin.event_to_unicode (fun _ => (1, [0x61])) true (Some O) [0] 1 = (1, [0x61]) /\
   Darwin.key_typed_events
     (Darwin.event_to_unicode (fun _ => (1, [0x61])) true (Some O) [0] 1) = [0x61]).
Proof.
  split.
  - apply (resolver_single_unit (fun _ => (1, [0x10])) O [0] 1 0x10 []);
      [reflexivity|]. simpl. tauto.
  - apply (resolver_single_unit (fun _ => (1, [0x61])) O [0] 1 0x61 []);
      [reflexivity|]. simpl. intros H. decompose [or] H; discriminate || assumption.
Defined.

(** ** Motion classification of the macOS synthesis engine *)

Section MotionState.
Variable e : Darwin.env.
Hypothesis source_created : Darwin.CGEventSourceCreate e = true.
Hypothesis mouse_event_created : Darwin.CGEventCreateMouseEvent e = true.

Local Ltac post_mouse :=
  unfold Darwin.hook_post_event, Darwin.post_mouse_event, Darwin.mouse_event_switch;
  rewrite source_created.

(** A motion event is posted with the type and button that the statics
    hold, and leaves the statics alone. *)
Lemma post_motion (ev : UIOHook.uiohook_event) (st : Darwin.post_state) :
  is_motion ev ->
  Darwin.hook_post_event e ev st =
  (fst (posted_as (Darwin.current_motion_event st)
                  (Darwin.current_motion_button st) ev),
   st,
   snd (posted_as (Darwin.current_motion_event st)
                  (Darwin.current_motion_button st) ev)).
Proof.
  intros [H|[H|H]]; post_mouse; rewrite H; cbn [negb];
    rewrite mouse_event_created; reflexivity.
Qed.

Lemma post_motions (evs : list UIOHook.uiohook_event) (st : Darwin.post_state) :
  Forall is_motion evs ->
  Darwin.post_events e evs st =
  (map (posted_as (Darwin.current_motion_event st)
                  (Darwin.current_motion_button st)) evs, st).
Proof.
  induction 1 as [|ev evs Hev _ IH]; [reflexivity|].
  cbn [Darwin.post_events map].
  rewrite (post_motion ev st Hev), IH. reflexivity.
Qed.

(** A press arms the dragged type of its button. *)
Lemma post_press (ev : UIOHook.uiohook_event) (st : Darwin.post_state) :
  is_press ev -> UIOHook.button (UIOHook.mouse ev) <> UIOHook.MOUSE_NOBUTTON ->
  let b := UIOHook.button (UIOHook.mouse ev) in
  Darwin.hook_post_event e ev st =
  (UIOHook.UIOHOOK_SUCCESS,
   Darwin.with_motion (dragged_type b) (native_button b) st,
   snd (posted_as (down_type b) (native_button b) ev)).
Proof.
  intros H Hb b. subst b.
  unfold dragged_type, native_button, down_type, posted_as.
  destruct H as [H|H]; post_mouse; rewrite H; cbn [negb];
    (destruct (Z.eqb_spec (UIOHook.button (UIOHook.mouse ev)) UIOHook.MOUSE_NOBUTTON);
     [contradiction|]);
    destruct (UIOHook.button (UIOHook.mouse ev) =? UIOHook.MOUSE_BUTTON1);
    [|destruct (UIOHook.button (UIOHook.mouse ev) =? UIOHook.MOUSE_BUTTON2)| |
      destruct (UIOHook.button (UIOHook.mouse ev) =? UIOHook.MOUSE_BUTTON2)];
    rewrite mouse_event_created; reflexivity.
Qed.



End MotionState.




(** ** Loading the X11 key codes *)

Lemma for_loop_ind {S : Type} (P : S -> Prop) (body : Z -> S -> S) :
  forall (n : nat) (lo : Z) (s : S),
    P s ->
    (forall k s', lo <= k < lo + Z.of_nat n -> P s' -> P (body k s')) ->
    P (for_loop n lo body s).
Proof.
  induction n as [|n IH]; intros lo s Hs Hbody; cbn [for_loop]; [exact Hs|].
  apply IH.
  - apply Hbody; [lia|exact Hs].
  - intros k s' Hk. apply Hbody. lia.
Qed.

Lemma loaded_from_refl (xkb : X11.XkbDesc) (t : list X11.key_mapping) :
  Forall2 (loaded_from xkb) t t.
Proof.
  induction t; constructor; auto. unfold loaded_from. auto.
Qed.

Lemma loaded_from_step (xkb : X11.XkbDesc) (k : Z) (t s : list X11.key_mapping) :
  X11.min_key_code xkb <= k < X11.max_key_code xkb ->
  Forall2 (loaded_from xkb) t s ->
  Forall2 (loaded_from xkb) t (map (X11.load_row xkb k) s).
Proof.
  intros Hk. induction 1 as [|r r' t s (Hv & Hn & Hc) _ IH]; cbn [map];
    constructor; [|exact IH].
  unfold X11.load_row. rewrite Hn.
  destruct (X11.strncmp_eq (X11.x11_key_name r) (X11.names xkb k)
              X11.XkbKeyNameLength) eqn:E.
  - unfold loaded_from. cbn [X11.vcode X11.x11_key_name X11.x11_key_code].
    split; [exact Hv|]. split; [reflexivity|]. right. split; [lia|exact E].
  - unfold loaded_from. auto.
Qed.

(** The loader changes nothing but key codes, and the key codes it
    stores are positions below [max_key_code] whose name matches. *)
Lemma load_table_rows (xkb : X11.XkbDesc) (t : list X11.key_mapping) :
  Forall2 (loaded_from xkb) t (X11.load_table xkb t).
Proof.
  unfold X11.load_table.
  apply for_loop_ind with (P := Forall2 (loaded_from xkb) t).
  - apply loaded_from_refl.
  - intros k s Hk. apply loaded_from_step. lia.
Qed.

(** C5: the loader never stores [max_key_code]: the loop over the key
    codes stops one position before it, so the name at [max_key_code] is
    not compared with the table.  If no row held that key code before
    the call, none holds it afterwards. *)
Theorem load_key_mappings_skips_max_key_code (xkb : X11.XkbDesc) (st : X11.state) :
  Forall (fun r => X11.x11_key_code r <> X11.max_key_code xkb)
         (X11.vcode_keycode_table st) ->
  Forall (fun r => X11.x11_key_code r <> X11.max_key_code xkb)
         (X11.vcode_keycode_table (X11.load_key_mappings (Some xkb) st)).
Proof.
  intros H. unfold X11.load_key_mappings.
  destruct (X11.key_mappings_loaded st); [exact H|].
  cbn [X11.vcode_keycode_table].
  pose proof (load_table_rows xkb (X11.vcode_keycode_table st)) as L.
  induction L as [|r r' t s (_ & _ & Hc) _ IH]; [constructor|].
  inversion H as [|? ? Hr Ht]; subst.
  constructor; [|now apply IH].
  destruct Hc as [Hc|[Hc _]]; [congruence|lia].
Qed.

Lemma initial_table_unloaded :
  Forall (fun r => X11.x11_key_code r <> 255) X11.initial_vcode_keycode_table.
Proof.
  apply Forall_forall. intros r Hr.
  assert (E : forallb (fun r => X11.x11_key_code r =? 0)
                      X11.initial_vcode_keycode_table = true)
    by (vm_compute; reflexivity).
  rewrite forallb_forall in E. apply E, Z.eqb_eq in Hr. lia.
Qed.

(** The first load on the evdev keyboard. *)
Lemma load_key_mappings_skips_max_key_code_witness :
  Forall (fun r => X11.x11_key_code r <> 255)
         (X11.vcode_keycode_table
            (X11.load_key_mappings (Some evdev_keyboard) X11.initial_state)).
Proof.
  apply (load_key_mappings_skips_max_key_code evdev_keyboard X11.initial_state).
  exact initial_table_unloaded.
Defined.

(** On the evdev keyboard the positions below the last one are loaded,
    and [I255], the name of the last key code, is not. *)
Example load_evdev_keyboard :
  let t := X11.vcode_keycode_table
             (X11.load_key_mappings (Some evdev_keyboard) X11.initial_state) in
  X11.names evdev_keyboard (X11.max_key_code evdev_keyboard) = "I255"%string /\
  In (X11.row UIOHook.VC_RFKILL "I255") X11.initial_vcode_keycode_table /\
  X11.vcode_to_keycode t UIOHook.VC_ESCAPE = 9 /\
  X11.vcode_to_keycode t UIOHook.VC_A = 38 /\
  X11.vcode_to_keycode t UIOHook.VC_RFKILL = 0 /\
  X11.keycode_to_vcode t 38 = UIOHook.VC_A /\
  X11.keycode_to_vcode t 255 = UIOHook.VC_UNDEFINED.
Proof.
  cbv zeta.
  remember (X11.vcode_keycode_table
              (X11.load_key_mappings (Some evdev_keyboard) X11.initial_state))
    as t eqn:Et.
  vm_compute in Et. subst t.
  repeat split; try (vm_compute; reflexivity).
  apply in_or_app with (l := removelast X11.initial_vcode_keycode_table)
                       (m := [X11.row UIOHook.VC_RFKILL "I255"]).
  right. left. reflexivity.
Qed.

(** *** What the loader stores below [max_key_code] *)

Lemma for_loop_map {A : Type} (f : Z -> A -> A) :
  forall (n : nat) (lo : Z) (l : list A),
    for_loop n lo (fun k t => map (f k) t) l = map (for_loop n lo f) l.
Proof.
  induction n as [|n IH]; intros lo l; cbn [for_loop].
  - symmetry. apply map_id.
  - rewrite IH, map_map. reflexivity.
Qed.

Section LoadRow.
Variable xkb : X11.XkbDesc.

Lemma load_row_matches (r : X11.key_mapping) (j k : Z) :
  matches xkb (X11.load_row xkb j r) k = matches xkb r k.
Proof.
  unfold matches, X11.load_row.
  destruct (X11.strncmp_eq (X11.x11_key_name r) (X11.names xkb j) _); reflexivity.
Qed.

Lemma load_rows_no_match :
  forall (n : nat) (lo : Z) (r : X11.key_mapping),
    (forall j, lo <= j < lo + Z.of_nat n -> matches xkb r j = false) ->
    for_loop n lo (X11.load_row xkb) r = r.
Proof.
  induction n as [|n IH]; intros lo r H; cbn [for_loop]; [reflexivity|].
  assert (E : X11.load_row xkb lo r = r).
  { unfold X11.load_row. fold (matches xkb r lo). rewrite H by lia. reflexivity. }
  rewrite E. apply IH. intros j Hj. apply H. lia.
Qed.

(** A row ends with the last position of the range whose name matches
    its name. *)
Lemma load_rows_last_match :
  forall (n : nat) (lo : Z) (r : X11.key_mapping) (k : Z),
    lo <= k < lo + Z.of_nat n ->
    matches xkb r k = true ->
    (forall j, k < j < lo + Z.of_nat n -> matches xkb r j = false) ->
    for_loop n lo (X11.load_row xkb) r =
    {| X11.vcode := X11.vcode r; X11.x11_key_name := X11.x11_key_name r;
       X11.x11_key_code := k |}.
Proof.
  induction n as [|n IH]; intros lo r k Hk Hm Hlast; [lia|].
  cbn [for_loop].
  destruct (Z.eq_dec k lo) as [->|Hne].
  - assert (E : X11.load_row xkb lo r =
                {| X11.vcode := X11.vcode r; X11.x11_key_name := X11.x11_key_name r;
                   X11.x11_key_code := lo |}).
    { unfold X11.load_row. fold (matches xkb r lo). rewrite Hm. reflexivity. }
    rewrite E. apply load_rows_no_match.
    intros j Hj. rewrite <- E, load_row_matches. apply Hlast. lia.
  - rewrite (IH (lo + 1) (X11.load_row xkb lo r) k).
    + unfold X11.load_row.
      destruct (X11.strncmp_eq (X11.x11_key_name r) (X11.names xkb lo) _);
        reflexivity.
    + lia.
    + now rewrite load_row_matches.
    + intros j Hj. rewrite load_row_matches. apply Hlast. lia.
Qed.
End LoadRow.

(** Below [max_key_code] the loader does what is expected of it: a row
    whose name is found at a position [k] of [min_key_code ..
    max_key_code - 1], and at no later position of that range, ends with
    the key code [k]. *)
Lemma load_table_position
  (xkb : X11.XkbDesc) (t : list X11.key_mapping) (r : X11.key_mapping) (k : Z) :
  In r t ->
  X11.min_key_code xkb <= k < X11.max_key_code xkb ->
  matches xkb r k = true ->
  (forall j, k < j < X11.max_key_code xkb -> matches xkb r j = false) ->
  In {| X11.vcode := X11.vcode r; X11.x11_key_name := X11.x11_key_name r;
        X11.x11_key_code := k |}
     (X11.load_table xkb t).
Proof.
  intros Hin Hk Hm Hlast. unfold X11.load_table.
  rewrite for_loop_map.
  rewrite <- (load_rows_last_match xkb
                (Z.to_nat (X11.max_key_code xkb - X11.min_key_code xkb))
                (X11.min_key_code xkb) r k); [now apply in_map|lia|exact Hm|].
  intros j Hj. apply Hlast. lia.
Qed.

(** On X11 too the composed lookup can answer another key code: with
    [COMP] and [I147] both present, key code 147 is mapped to
    [VC_CONTEXT_MENU], whose key code is 135. *)
Example x11_alias_roundtrip :
  let t := X11.vcode_keycode_table
             (X11.load_key_mappings (Some menu_keyboard) X11.initial_state) in
  X11.keycode_to_vcode t 147 = UIOHook.VC_CONTEXT_MENU /\
  X11.vcode_to_keycode t UIOHook.VC_CONTEXT_MENU = 135.
Proof.
  cbv zeta.
  remember (X11.vcode_keycode_table
              (X11.load_key_mappings (Some menu_keyboard) X11.initial_state))
    as t eqn:Et.
  vm_compute in Et. subst t. split; vm_compute; reflexivity.
Qed.

(** ** UTF-8 to UTF-16 in [x_key_event_lookup] *)

Section Utf8.
(** Evaluates the conversions of constants to [nat]. *)
Local Ltac to_nat_values :=
  repeat match goal with
         | |- context [Z.to_nat ?z] =>
             let n := eval vm_compute in (Z.to_nat z) in
             progress change (Z.to_nat z) with n
         end.

(** Masking with [2^n - 1] keeps the [n] low bits, also of a negative
    [char]. *)
Lemma land_mask_bound (n m x : Z) :
  0 <= n -> m = Z.ones n -> 0 <= Z.land m x < 2 ^ n.
Proof.
  intros Hn ->. rewrite Z.land_comm, Z.land_ones by exact Hn.
  apply Z.mod_pos_bound. now apply Z.pow_pos_nonneg.
Qed.

Lemma log2_below (n a : Z) : 0 < n -> 0 <= a < 2 ^ n -> Z.log2 a < n.
Proof.
  intros Hn Ha. destruct (Z.eq_dec a 0) as [E|E].
  - rewrite E. cbn [Z.log2]. exact Hn.
  - apply Z.log2_lt_pow2; lia.
Qed.

Lemma lor_bound (n a b : Z) :
  0 < n -> 0 <= a < 2 ^ n -> 0 <= b < 2 ^ n -> 0 <= Z.lor a b < 2 ^ n.
Proof.
  intros Hn Ha Hb.
  assert (N : 0 <= Z.lor a b) by (apply Z.lor_nonneg; lia).
  split; [exact N|].
  destruct (Z.eq_dec (Z.lor a b) 0) as [E|E].
  - rewrite E. apply Z.pow_pos_nonneg; lia.
  - apply Z.log2_lt_pow2; [lia|].
    rewrite Z.log2_lor by lia.
    pose proof (log2_below n a Hn Ha). pose proof (log2_below n b Hn Hb). lia.
Qed.

(** One round of the loop adds six bits. *)
Lemma utf8_step_bound (n cp byte : Z) :
  0 <= n <= 26 -> 0 <= cp < 2 ^ n ->
  0 <= uint32 (Z.lor (Z.shiftl cp 6) (Z.land 0x3F byte)) < 2 ^ (n + 6).
Proof.
  intros Hn Hcp.
  assert (B : 0 <= Z.lor (Z.shiftl cp 6) (Z.land 0x3F byte) < 2 ^ (n + 6)).
  { apply lor_bound; [lia| |].
    - rewrite Z.shiftl_mul_pow2 by lia. rewrite Z.pow_add_r by lia. nia.
    - pose proof (land_mask_bound 6 0x3F byte ltac:(lia) eq_refl) as L.
      assert (2 ^ 6 <= 2 ^ (n + 6)) by (apply Z.pow_le_mono_r; lia). lia. }
  unfold uint32. rewrite Z.mod_small; [exact B|].
  assert (2 ^ (n + 6) <= 2 ^ 32) by (apply Z.pow_le_mono_r; lia). lia.
Qed.

(** A sequence of at most four bytes decodes to less than [2^21]. *)
Lemma utf8_codepoint_bound (count : Z) (buffer : list Z) :
  0 < count <= 4 -> 0 <= X11.utf8_codepoint count buffer < 2 ^ 21.
Proof.
  intros Hc.
  assert (C : count = 1 \/ count = 2 \/ count = 3 \/ count = 4) by lia.
  unfold X11.utf8_codepoint, X11.utf8_bitmask_table.
  destruct C as [-> | [-> | [-> | ->]]];
    to_nat_values; cbn [for_loop]; to_nat_values; cbn [nth].
  - pose proof (land_mask_bound 7 0x7F (nth 0 buffer 0) ltac:(lia) eq_refl).
    unfold uint32. rewrite Z.mod_small; lia.
  - pose proof (land_mask_bound 5 0x1F (nth 0 buffer 0) ltac:(lia) eq_refl) as F.
    assert (F' : 0 <= uint32 (Z.land 0x1F (nth 0 buffer 0)) < 2 ^ 5)
      by (unfold uint32; rewrite Z.mod_small; lia).
    pose proof (utf8_step_bound 5 _ (nth 1 buffer 0) ltac:(lia) F'). lia.
  - pose proof (land_mask_bound 4 0x0F (nth 0 buffer 0) ltac:(lia) eq_refl) as F.
    assert (F' : 0 <= uint32 (Z.land 0x0F (nth 0 buffer 0)) < 2 ^ 4)
      by (unfold uint32; rewrite Z.mod_small; lia).
    pose proof (utf8_step_bound 4 _ (nth 1 buffer 0) ltac:(lia) F') as S1.
    pose proof (utf8_step_bound 10 _ (nth 2 buffer 0) ltac:(lia) S1). lia.
  - pose proof (land_mask_bound 3 0x07 (nth 0 buffer 0) ltac:(lia) eq_refl) as F.
    assert (F' : 0 <= uint32 (Z.land 0x07 (nth 0 buffer 0)) < 2 ^ 3)
      by (unfold uint32; rewrite Z.mod_small; lia).
    pose proof (utf8_step_bound 3 _ (nth 1 buffer 0) ltac:(lia) F') as S1.
    pose proof (utf8_step_bound 9 _ (nth 2 buffer 0) ltac:(lia) S1) as S2.
    pose proof (utf8_step_bound 15 _ (nth 3 buffer 0) ltac:(lia) S2). lia.
Qed.

Lemma wchar_t_small (z : Z) : 0 <= z < 2 ^ 31 -> X11.wchar_t z = z.
Proof.
  intros Hz. unfold X11.wchar_t. rewrite Z.mod_small; lia.
Qed.

(** A mask of [n] low bits applied to a [char], signed or not, gives
    the [n] low bits of its byte. *)
Lemma mask_char (n m c : Z) :
  0 <= n <= 8 -> m = Z.ones n -> Z.land m c = (c mod 2 ^ 8) mod 2 ^ n.
Proof.
  intros Hn ->. rewrite Z.land_comm, Z.land_ones by lia.
  replace (2 ^ 8) with (2 ^ n * 2 ^ (8 - n))
    by (rewrite <- Z.pow_add_r by lia; f_equal; lia).
  assert (0 < 2 ^ n) by (apply Z.pow_pos_nonneg; lia).
  assert (0 < 2 ^ (8 - n)) by (apply Z.pow_pos_nonneg; lia).
  rewrite Z.rem_mul_r by lia.
  rewrite (Z.mul_comm (2 ^ n) ((c / 2 ^ n) mod 2 ^ (8 - n))), Z.mod_add by lia.
  now rewrite Z.mod_mod by lia.
Qed.

(** Bits shifted above [n] and a value below [2^n] are added by the
    bitwise or. *)
Lemma lor_shiftl_add (c d n : Z) :
  0 <= n -> 0 <= d < 2 ^ n -> Z.lor (Z.shiftl c n) d = c * 2 ^ n + d.
Proof.
  intros Hn Hd.
  rewrite <- Z.shiftl_mul_pow2 by lia.
  rewrite <- Z.lxor_lor, Z.add_nocarry_lxor; try reflexivity.
  all: apply Z.bits_inj'; intros k Hk; rewrite Z.land_spec, Z.bits_0;
    destruct (Z.ltb_spec k n) as [L|L].
  all: try (rewrite Z.shiftl_spec_low by lia; reflexivity).
  all: rewrite andb_comm; replace (Z.testbit d k) with false; [reflexivity|];
    symmetry; destruct (Z.eq_dec d 0) as [->|N]; [apply Z.bits_0|];
    apply Z.bits_above_log2; [lia|];
    apply Z.lt_le_trans with n; [apply Z.log2_lt_pow2; lia|lia].
Qed.

(** The bytes of the UTF-8 encoding, in arithmetic. *)
Lemma utf8_bytes_values (cp : Z) :
  0 <= cp <= 0x10FFFF ->
  utf8_bytes cp =
  if cp <? 0x80 then [cp]
  else if cp <? 0x800 then [192 + cp / 64; 128 + cp mod 64]
  else if cp <? 0x10000 then
    [224 + cp / 4096; 128 + (cp / 64) mod 64; 128 + cp mod 64]
  else
    [240 + cp / 262144; 128 + (cp / 4096) mod 64; 128 + (cp / 64) mod 64;
     128 + cp mod 64].
Proof.
  intros Hcp. unfold utf8_bytes.
  rewrite !Z.shiftr_div_pow2 by lia.
  change 0x3F with (Z.ones 6). rewrite !Z.land_ones by lia.
  change (2 ^ 6) with 64. change (2 ^ 12) with 4096. change (2 ^ 18) with 262144.
  assert (T : forall x, Z.lor 0x80 (x mod 64) = 128 + x mod 64).
  { intros x. change 0x80 with (Z.shiftl 2 6).
    rewrite lor_shiftl_add; [reflexivity|lia|].
    apply Z.mod_pos_bound. lia. }
  rewrite !T.
  destruct (Z.ltb_spec cp 0x80); [reflexivity|].
  destruct (Z.ltb_spec cp 0x800); [|destruct (Z.ltb_spec cp 0x10000)].
  - change 0xC0 with (Z.shiftl 6 5).
    rewrite lor_shiftl_add; [reflexivity|lia|].
    split; [apply Z.div_pos; lia|apply Z.div_lt_upper_bound; lia].
  - change 0xE0 with (Z.shiftl 14 4).
    rewrite lor_shiftl_add; [reflexivity|lia|].
    split; [apply Z.div_pos; lia|apply Z.div_lt_upper_bound; lia].
  - change 0xF0 with (Z.shiftl 30 3).
    rewrite lor_shiftl_add; [reflexivity|lia|].
    split; [apply Z.div_pos; lia|apply Z.div_lt_upper_bound; lia].
Qed.

(** One round of the loop on a continuation byte. *)
Lemma utf8_step_value (acc c x : Z) :
  0 <= acc < 2 ^ 26 -> 0 <= x < 64 -> c mod 2 ^ 8 = 128 + x ->
  uint32 (Z.lor (Z.shiftl acc 6) (Z.land 0x3F c)) = acc * 64 + x.
Proof.
  intros Ha Hx Hc.
  rewrite (mask_char 6 0x3F c) by (lia || reflexivity).
  rewrite Hc. change (2 ^ 6) with 64.
  replace ((128 + x) mod 64) with x
    by (symmetry; rewrite <- (Z.mod_small x 64) at 2 by lia;
        replace (128 + x) with (x + 2 * 64) by lia; apply Z.mod_add; lia).
  rewrite lor_shiftl_add by lia. change (2 ^ 6) with 64.
  unfold uint32. apply Z.mod_small. lia.
Qed.

(** The first byte, under the mask of its length. *)
Lemma utf8_first_value (n m c lead x : Z) :
  0 <= n <= 8 -> m = Z.ones n -> 0 <= x < 2 ^ n ->
  (2 ^ n | lead) -> c mod 2 ^ 8 = lead + x ->
  uint32 (Z.land m c) = x.
Proof.
  intros Hn Hm Hx [q Hq] Hc.
  rewrite (mask_char n m c Hn Hm), Hc, Hq.
  rewrite Z.add_comm, Z.mod_add by lia.
  rewrite Z.mod_small by lia.
  unfold uint32. apply Z.mod_small.
  assert (2 ^ n <= 2 ^ 8) by (apply Z.pow_le_mono_r; lia). lia.
Qed.

(** The loop of [x_key_event_lookup] decodes UTF-8: from the bytes of
    the encoding of a code point, held in a [char] array that may be
    signed, it computes that code point. *)
Lemma utf8_codepoint_decodes (cp : Z) (buffer : list Z) :
  0 <= cp <= 0x10FFFF ->
  unsigned_chars (firstn (List.length (utf8_bytes cp)) buffer) = utf8_bytes cp ->
  X11.utf8_codepoint (Z.of_nat (List.length (utf8_bytes cp))) buffer = cp.
Proof.
  intros Hcp. rewrite (utf8_bytes_values cp Hcp).
  unfold unsigned_chars, X11.utf8_codepoint, X11.utf8_bitmask_table.
  destruct (Z.ltb_spec cp 0x80); [|destruct (Z.ltb_spec cp 0x800);
    [|destruct (Z.ltb_spec cp 0x10000)]];
    cbn [List.length Z.of_nat Pos.of_succ_nat Pos.succ];
    to_nat_values; cbn [for_loop]; to_nat_values; cbn [nth].
  - destruct buffer as [|b0 buffer]; [discriminate|].
    cbn [firstn map nth]. intros [= E0].
    apply (utf8_first_value 7 0x7F b0 0 cp); try (lia || reflexivity).
    exists 0. reflexivity.
  - destruct buffer as [|b0 [|b1 buffer]]; try discriminate.
    cbn [firstn map nth]. intros [= E0 E1].
    rewrite (utf8_first_value 5 0x1F b0 192 (cp / 64)); try (lia || reflexivity);
      [| split; [apply Z.div_pos; lia|apply Z.div_lt_upper_bound; lia]
       | exists 6; reflexivity | exact E0].
    rewrite (utf8_step_value _ b1 (cp mod 64));
      [| split; [apply Z.div_pos; lia|apply Z.div_lt_upper_bound; lia]
       | apply Z.mod_pos_bound; lia | exact E1].
    pose proof (Z.div_mod cp 64 ltac:(lia)). lia.
  - destruct buffer as [|b0 [|b1 [|b2 buffer]]]; try discriminate.
    cbn [firstn map nth]. intros [= E0 E1 E2].
    rewrite (utf8_first_value 4 0x0F b0 224 (cp / 4096)); try (lia || reflexivity);
      [| split; [apply Z.div_pos; lia|apply Z.div_lt_upper_bound; lia]
       | exists 14; reflexivity | exact E0].
    assert (Q : 0 <= cp / 4096 < 16)
      by (split; [apply Z.div_pos; lia|apply Z.div_lt_upper_bound; lia]).
    pose proof (Z.mod_pos_bound (cp / 64) 64 ltac:(lia)) as M1.
    pose proof (Z.mod_pos_bound cp 64 ltac:(lia)) as M0.
    rewrite (utf8_step_value _ b1 ((cp / 64) mod 64)); [|lia|lia|exact E1].
    rewrite (utf8_step_value _ b2 (cp mod 64)); [|lia|lia|exact E2].
    pose proof (Z.div_mod cp 64 ltac:(lia)).
    pose proof (Z.div_mod (cp / 64) 64 ltac:(lia)).
    assert (D : cp / 64 / 64 = cp / 4096) by (rewrite Z.div_div by lia; reflexivity).
    lia.
  - destruct buffer as [|b0 [|b1 [|b2 [|b3 buffer]]]]; try discriminate.
    cbn [firstn map nth]. intros [= E0 E1 E2 E3].
    rewrite (utf8_first_value 3 0x07 b0 240 (cp / 262144)); try (lia || reflexivity);
      [| split; [apply Z.div_pos; lia|apply Z.div_lt_upper_bound; lia]
       | exists 30; reflexivity | exact E0].
    assert (Q : 0 <= cp / 262144 < 8)
      by (split; [apply Z.div_pos; lia|apply Z.div_lt_upper_bound; lia]).
    pose proof (Z.mod_pos_bound (cp / 4096) 64 ltac:(lia)) as M2.
    pose proof (Z.mod_pos_bound (cp / 64) 64 ltac:(lia)) as M1.
    pose proof (Z.mod_pos_bound cp 64 ltac:(lia)) as M0.
    rewrite (utf8_step_value _ b1 ((cp / 4096) mod 64)); [|lia|lia|exact E1].
    rewrite (utf8_step_value _ b2 ((cp / 64) mod 64)); [|lia|lia|exact E2].
    rewrite (utf8_step_value _ b3 (cp mod 64)); [|lia|lia|exact E3].
    pose proof (Z.div_mod cp 64 ltac:(lia)).
    pose proof (Z.div_mod (cp / 64) 64 ltac:(lia)).
    pose proof (Z.div_mod (cp / 4096) 64 ltac:(lia)).
    assert (D1 : cp / 64 / 64 = cp / 4096) by (rewrite Z.div_div by lia; reflexivity).
    assert (D2 : cp / 4096 / 64 = cp / 262144) by (rewrite Z.div_div by lia; reflexivity).
    lia.
Qed.
End Utf8.

(** C9: for a lookup of one to four bytes and an output buffer of at
    least two units, a decoded code point of at most 0xFFFF gives one
    unit, the code point itself; a larger one gives two units, the lead
    surrogate 0xD7C0 + (codepoint >> 10) and the trail surrogate
    0xDC00 + (codepoint & 0x3FF).  The decoded code point is the one
    whose UTF-8 encoding the lookup returned: when the bytes are the
    encoding of [cp], in a [char] array that may be signed, the units
    are those of [cp], and for [cp] above 0xFFFF they are the surrogate
    pair that encodes [cp] in UTF-16. *)
Theorem x_key_event_lookup_utf16
  (count : Z) (buffer : list Z) (s0 s1 : Z) (rest : list Z) (length : Z) :
  0 < count <= 4 -> 2 <= length ->
  let codepoint := X11.utf8_codepoint count buffer in
  X11.x_key_event_lookup (count, buffer) (Some (s0 :: s1 :: rest)) length =
  (if codepoint <=? 0xFFFF
   then (1, Some (codepoint :: s1 :: rest))
   else (2, Some (0xD7C0 + Z.shiftr codepoint 10
                  :: 0xDC00 + Z.land codepoint 0x3FF :: rest))) /\
  (forall cp,
     0 <= cp <= 0x10FFFF ->
     count = Z.of_nat (List.length (utf8_bytes cp)) ->
     unsigned_chars (firstn (Z.to_nat count) buffer) = utf8_bytes cp ->
     codepoint = cp /\
     X11.x_key_event_lookup (count, buffer) (Some (s0 :: s1 :: rest)) length =
     (if cp <=? 0xFFFF
      then (1, Some (cp :: s1 :: rest))
      else (2, Some (0xD7C0 + Z.shiftr cp 10
                     :: 0xDC00 + Z.land cp 0x3FF :: rest))) /\
     (0xFFFF < cp ->
      0xD800 <= 0xD7C0 + Z.shiftr cp 10 < 0xDC00 /\
      0xDC00 <= 0xDC00 + Z.land cp 0x3FF < 0xE000 /\
      (0xD7C0 + Z.shiftr cp 10 - 0xD800) * 0x400
      + (0xDC00 + Z.land cp 0x3FF - 0xDC00) + 0x10000 = cp)).
Proof.
  intros Hc Hl codepoint.
  assert (R : X11.x_key_event_lookup (count, buffer) (Some (s0 :: s1 :: rest))
                length =
              (if codepoint <=? 0xFFFF
               then (1, Some (codepoint :: s1 :: rest))
               else (2, Some (0xD7C0 + Z.shiftr codepoint 10
                              :: 0xDC00 + Z.land codepoint 0x3FF :: rest)))).
  { pose proof (utf8_codepoint_bound count buffer Hc) as B. fold codepoint in B.
    unfold X11.x_key_event_lookup. fold codepoint.
    replace (0 <? count) with true by (symmetry; apply Z.ltb_lt; lia).
    replace (length =? 0) with false by (symmetry; apply Z.eqb_neq; lia).
    replace (1 <? length) with true by (symmetry; apply Z.ltb_lt; lia).
    cbn [X11.store].
    destruct (codepoint <=? 0xFFFF).
    - rewrite wchar_t_small by lia. reflexivity.
    - assert (S : 0 <= Z.shiftr codepoint 10 < 2 ^ 11).
      { rewrite Z.shiftr_div_pow2 by lia. split.
        - apply Z.div_pos; lia.
        - apply Z.div_lt_upper_bound; lia. }
      pose proof (land_mask_bound 10 0x3FF codepoint ltac:(lia) eq_refl) as L.
      rewrite (Z.land_comm 0x3FF) in L.
      change (uint32 (0xD800 - Z.shiftr 0x10000 10)) with 0xD7C0.
      unfold uint32. rewrite !Z.mod_small by lia.
      rewrite !wchar_t_small by lia. reflexivity. }
  split; [exact R|].
  intros cp Hcp Hn Hb.
  assert (E : codepoint = cp).
  { subst codepoint. rewrite Hn in Hb |- *. rewrite Nat2Z.id in Hb.
    apply utf8_codepoint_decodes; assumption. }
  split; [exact E|]. split; [rewrite <- E; exact R|].
  intros Hs.
  rewrite Z.shiftr_div_pow2 by lia.
  change 0x3FF with (Z.ones 10). rewrite Z.land_ones by lia.
  change (2 ^ 10) with 1024.
  pose proof (Z.div_mod cp 1024 ltac:(lia)) as D.
  pose proof (Z.mod_pos_bound cp 1024 ltac:(lia)) as M.
  lia.
Qed.

(** U+1F600, the bytes F0 9F 98 80, becomes D83D DE00; U+00E9, the
    bytes C3 A9 held in signed [char]s, becomes 00E9. *)
Lemma x_key_event_lookup_utf16_witness :
  (X11.utf8_codepoint 4 [0xF0; 0x9F; 0x98; 0x80; 0] = 0x1F600 /\
   X11.x_key_event_lookup (4, [0xF0; 0x9F; 0x98; 0x80; 0]) (Some [0; 0]) 2 =
   (2, Some [0xD83D; 0xDE00])) /\
  (X11.utf8_codepoint 2 [-61; -87; 0; 0; 0] = 0xE9 /\
   X11.x_key_event_lookup (2, [-61; -87; 0; 0; 0]) (Some [0; 0]) 2 =
   (1, Some [0xE9; 0])).
Proof.
  split.
  - destruct (x_key_event_lookup_utf16 4 [0xF0; 0x9F; 0x98; 0x80; 0] 0 0 [] 2)
      as [_ H]; [lia|lia|].
    destruct (H 0x1F600) as (E & R & _); [lia|reflexivity|reflexivity|].
    split; [exact E|exact R].
  - destruct (x_key_event_lookup_utf16 2 [-61; -87; 0; 0; 0] 0 0 [] 2)
      as [_ H]; [lia|lia|].
    destruct (H 0xE9) as (E & R & _); [lia|reflexivity|reflexivity|].
    split; [exact E|exact R].
Defined.

(** For the code points of the supplementary planes the two units are a
    surrogate pair that encodes the code point. *)
Lemma surrogate_pair_encodes (codepoint : Z) :
  0x10000 <= codepoint <= 0x10FFFF ->
  let lead := 0xD7C0 + Z.shiftr codepoint 10 in
  let trail := 0xDC00 + Z.land codepoint 0x3FF in
  0xD800 <= lead < 0xDC00 /\ 0xDC00 <= trail < 0xE000 /\
  (lead - 0xD800) * 0x400 + (trail - 0xDC00) + 0x10000 = codepoint.
Proof.
  intros H lead trail. subst lead trail.
  rewrite Z.shiftr_div_pow2 by lia.
  change 0x3FF with (Z.ones 10). rewrite Z.land_ones by lia.
  change (2 ^ 10) with 1024.
  pose proof (Z.div_mod codepoint 1024 ltac:(lia)) as D.
  pose proof (Z.mod_pos_bound codepoint 1024 ltac:(lia)) as M.
  lia.
Qed.

(** ** Posting key events without a native code *)

Lemma x11_vcodes_loaded (xkb : X11.XkbDesc) (t : list X11.key_mapping) :
  map X11.vcode (X11.load_table xkb t) = map X11.vcode t.
Proof.
  pose proof (load_table_rows xkb t) as L.
  induction L as [|r r' t s (Hv & _) _ IH]; [reflexivity|].
  cbn [map]. now rewrite Hv, IH.
Qed.

(** Loading never changes the virtual codes of the table. *)
Lemma x11_reachable_vcodes (st : X11.state) :
  x11_reachable st ->
  map X11.vcode (X11.vcode_keycode_table st)
  = map X11.vcode X11.initial_vcode_keycode_table.
Proof.
  induction 1 as [|xkb st _ IH]; [reflexivity|].
  unfold X11.load_key_mappings.
  destruct (X11.key_mappings_loaded st); [exact IH|].
  destruct xkb as [xkb|]; [|exact IH].
  cbn [X11.vcode_keycode_table]. now rewrite x11_vcodes_loaded.
Qed.

Lemma x11_vcode_absent (t : list X11.key_mapping) (v : Z) :
  ~ In v (map X11.vcode t) -> X11.vcode_to_keycode t v = 0.
Proof.
  intros H. unfold X11.vcode_to_keycode.
  destruct (find (fun r => v =? X11.vcode r) t) as [r|] eqn:F; [|reflexivity].
  apply find_row in F as [Hin E]. apply Z.eqb_eq in E.
  elim H. rewrite E. now apply in_map.
Qed.

Lemma x11_undefined_unmapped (st : X11.state) :
  x11_reachable st ->
  X11.vcode_to_keycode (X11.vcode_keycode_table st) UIOHook.VC_UNDEFINED = 0.
Proof.
  intros R. apply x11_vcode_absent. rewrite (x11_reachable_vcodes st R).
  intros H.
  assert (E : forallb (fun v => negb (v =? UIOHook.VC_UNDEFINED))
                      (map X11.vcode X11.initial_vcode_keycode_table) = true)
    by (vm_compute; reflexivity).
  rewrite forallb_forall in E. specialize (E _ H).
  rewrite Z.eqb_refl in E. discriminate.
Qed.

Section Unmapped.
Variable ev : UIOHook.uiohook_event.
Hypothesis key : is_key_event ev.

Lemma windows_unmapped_key (e : Windows.env) (st : Windows.monitor_state) :
  Windows.vcode_to_keycode (UIOHook.keycode (UIOHook.keyboard ev)) = 0 ->
  fst (fst (Windows.hook_post_event e ev st)) <> UIOHook.UIOHOOK_SUCCESS /\
  snd (Windows.hook_post_event e ev st) = [].
Proof.
  intros H.
  unfold Windows.hook_post_event, Windows.hook_post_event_with,
    Windows.map_keyboard_event.
  destruct (Windows.calloc e); cbn [negb];
    [|split; [discriminate|reflexivity]].
  destruct key as [K|K]; rewrite K, H; split; (discriminate || reflexivity).
Qed.

Lemma darwin_unmapped_key (e : Darwin.env) (st : Darwin.post_state) :
  Darwin.vcode_to_keycode (UIOHook.keycode (UIOHook.keyboard ev))
  = Darwin.kVK_Undefined ->
  fst (fst (Darwin.hook_post_event e ev st)) <> UIOHook.UIOHOOK_SUCCESS /\
  snd (Darwin.hook_post_event e ev st) = [].
Proof.
  intros H.
  unfold Darwin.hook_post_event, Darwin.post_key_event.
  destruct (Darwin.CGEventSourceCreate e); cbn [negb];
    [|split; [discriminate|reflexivity]].
  destruct key as [K|K]; rewrite K, H; split; (discriminate || reflexivity).
Qed.

Lemma x11_unmapped_key (e : X11.env) (st : X11.state) :
  X11.vcode_to_keycode
    (X11.vcode_keycode_table (X11.load_key_mappings (X11.xkb e) st))
    (UIOHook.keycode (UIOHook.keyboard ev)) = 0 ->
  fst (fst (X11.hook_post_event e ev st)) <> UIOHook.UIOHOOK_SUCCESS /\
  snd (X11.hook_post_event e ev st) = [].
Proof.
  intros H.
  unfold X11.hook_post_event, X11.post_key_event.
  destruct (X11.helper_disp e); cbn [negb];
    [|split; [discriminate|reflexivity]].
  destruct key as [K|K]; rewrite K, H; split; (discriminate || reflexivity).
Qed.
End Unmapped.

(** C7: on the three platforms, [hook_post_event] of a key press or
    release whose virtual code has no native code (the VC-to-native
    lookup returns its "no native code" value) returns a status other
    than [UIOHOOK_SUCCESS] and makes no native injection.  The virtual
    code [VC_UNDEFINED] has no native code on any platform; on X11 this
    holds whatever keyboard was loaded. *)
Theorem unmapped_key_not_posted :
  (forall ev e st, is_key_event ev ->
     Windows.vcode_to_keycode (UIOHook.keycode (UIOHook.keyboard ev)) = 0 ->
     fst (fst (Windows.hook_post_event e ev st)) <> UIOHook.UIOHOOK_SUCCESS /\
     snd (Windows.hook_post_event e ev st) = []) /\
  (forall ev e st, is_key_event ev ->
     Darwin.vcode_to_keycode (UIOHook.keycode (UIOHook.keyboard ev))
     = Darwin.kVK_Undefined ->
     fst (fst (Darwin.hook_post_event e ev st)) <> UIOHook.UIOHOOK_SUCCESS /\
     snd (Darwin.hook_post_event e ev st) = []) /\
  (forall ev e st, is_key_event ev ->
     X11.vcode_to_keycode
       (X11.vcode_keycode_table (X11.load_key_mappings (X11.xkb e) st))
       (UIOHook.keycode (UIOHook.keyboard ev)) = 0 ->
     fst (fst (X11.hook_post_event e ev st)) <> UIOHook.UIOHOOK_SUCCESS /\
     snd (X11.hook_post_event e ev st) = []) /\
  Windows.vcode_to_keycode UIOHook.VC_UNDEFINED = 0 /\
  Darwin.vcode_to_keycode UIOHook.VC_UNDEFINED = Darwin.kVK_Undefined /\
  (forall st, x11_reachable st ->
     X11.vcode_to_keycode (X11.vcode_keycode_table st) UIOHook.VC_UNDEFINED = 0).
Proof.
  split; [intros ev e st K; now apply windows_unmapped_key|].
  split; [intros ev e st K; now apply darwin_unmapped_key|].
  split; [intros ev e st K; now apply x11_unmapped_key|].
  split; [reflexivity|].
  split; [reflexivity|].
  exact x11_undefined_unmapped.
Qed.

(** Posting [VC_UNDEFINED] on the three platforms. *)
Lemma unmapped_key_not_posted_witness :
  (fst (fst (Windows.hook_post_event two_monitor_desktop
               (key_event UIOHook.EVENT_KEY_PRESSED UIOHook.VC_UNDEFINED)
               Windows.initial_monitor_state)) <> UIOHook.UIOHOOK_SUCCESS /\
   snd (Windows.hook_post_event two_monitor_desktop
          (key_event UIOHook.EVENT_KEY_PRESSED UIOHook.VC_UNDEFINED)
          Windows.initial_monitor_state) = []) /\
  (fst (fst (Darwin.hook_post_event core_graphics
               (key_event UIOHook.EVENT_KEY_PRESSED UIOHook.VC_UNDEFINED)
               Darwin.initial_post_state)) <> UIOHook.UIOHOOK_SUCCESS /\
   snd (Darwin.hook_post_event core_graphics
          (key_event UIOHook.EVENT_KEY_PRESSED UIOHook.VC_UNDEFINED)
          Darwin.initial_post_state) = []) /\
  (fst (fst (X11.hook_post_event failing_x_server
               (key_event UIOHook.EVENT_KEY_RELEASED UIOHook.VC_UNDEFINED)
               X11.initial_state)) <> UIOHook.UIOHOOK_SUCCESS /\
   snd (X11.hook_post_event failing_x_server
          (key_event UIOHook.EVENT_KEY_RELEASED UIOHook.VC_UNDEFINED)
          X11.initial_state) = []) /\
  X11.vcode_to_keycode
    (X11.vcode_keycode_table (X11.load_key_mappings (Some evdev_keyboard)
                                X11.initial_state))
    UIOHook.VC_UNDEFINED = 0.
Proof.
  destruct unmapped_key_not_posted as (W & D & X & _ & _ & U).
  split; [apply W; [left; reflexivity|reflexivity]|].
  split; [apply D; [left; reflexivity|reflexivity]|].
  split; [apply X; [right; reflexivity|vm_compute; reflexivity]|].
  apply U. apply reachable_load, reachable_initial.
Defined.

(** ** Failures of the native injection *)

(** C3, at inputs where the code departs from it: on Windows
    [hook_post_text] returns
    [UIOHOOK_SUCCESS] when [SendInput] inserts nothing, and on X11
    [hook_post_event] of a wheel event returns [UIOHOOK_SUCCESS] when
    [XTestFakeButtonEvent] fails: both functions record the failure in a
    local status and then return the constant. *)
Theorem injection_failure_reported_as_success :
  (forall e text,
     Windows.calloc e = true ->
     (forall inputs, Windows.SendInput e inputs = 0) ->
     fst (Windows.hook_post_text e (Some text)) = UIOHook.UIOHOOK_SUCCESS) /\
  (forall e ev st,
     X11.helper_disp e = true ->
     UIOHook.type ev = UIOHook.EVENT_MOUSE_WHEEL ->
     (forall b p, X11.XTestFakeButtonEvent e b p = 0) ->
     fst (fst (X11.hook_post_event e ev st)) = UIOHook.UIOHOOK_SUCCESS).
Proof.
  split.
  - intros e text Hc _. unfold Windows.hook_post_text. rewrite Hc. reflexivity.
  - intros e ev st Hd Ht _. unfold X11.hook_post_event. rewrite Hd, Ht. reflexivity.
Qed.

(** The text "a" on a desktop whose [SendInput] inserts nothing, and a
    wheel event on an X server whose XTest calls fail. *)
Lemma injection_failure_reported_as_success_witness :
  fst (Windows.hook_post_text blocked_desktop (Some [0x61; 0]))
  = UIOHook.UIOHOOK_SUCCESS /\
  fst (fst (X11.hook_post_event failing_x_server
              (wheel_event 1 UIOHook.WHEEL_VERTICAL_DIRECTION) X11.initial_state))
  = UIOHook.UIOHOOK_SUCCESS.
Proof.
  destruct injection_failure_reported_as_success as [W X]. split.
  - apply W; reflexivity.
  - apply X; reflexivity.
Defined.

(** What reaches the operating system in these two runs: the text is
    handed to [SendInput], which inserts nothing, and the wheel press is
    tried once. *)
Example failed_injections :
  Windows.hook_post_text blocked_desktop (Some [0x61; 0]) =
  (UIOHook.UIOHOOK_SUCCESS,
   [[ Windows.INPUT_KEYBOARD
        {| Windows.wVk := 0; Windows.wScan := 0x61; Windows.ki_dwFlags := 4 |};
      Windows.INPUT_KEYBOARD
        {| Windows.wVk := 0; Windows.wScan := 0x61; Windows.ki_dwFlags := 6 |} ]]) /\
  Windows.SendInput blocked_desktop
    (List.concat (snd (Windows.hook_post_text blocked_desktop (Some [0x61; 0])))) = 0 /\
  X11.hook_post_event failing_x_server
    (wheel_event 1 UIOHook.WHEEL_VERTICAL_DIRECTION) X11.initial_state =
  (UIOHook.UIOHOOK_SUCCESS, X11.initial_state, [X11.fake_button_event 4 true]).
Proof. repeat split. Qed.


(** On macOS a press of a modifier key that fails in
    [CGEventCreateKeyboardEvent] returns an error after the cached
    modifier mask of the synthesis engine was updated. *)
Example darwin_failed_post_keeps_mask :
  Darwin.hook_post_event
    {| Darwin.CGEventSourceCreate := true;
       Darwin.CGEventCreateKeyboardEvent := false;
       Darwin.CGEventCreateMouseEvent := true;
       Darwin.CGEventCreateScrollWheelEvent := true |}
    (key_event UIOHook.EVENT_KEY_PRESSED UIOHook.VC_SHIFT_L)
    Darwin.initial_post_state =
  (UIOHook.UIOHOOK_ERROR_OUT_OF_MEMORY,
   {| Darwin.current_modifier_mask := Darwin.kCGEventFlagMaskShift;
      Darwin.current_motion_event := Darwin.kCGEventMouseMoved;
      Darwin.current_motion_button := 0 |},
   []).
Proof. reflexivity. Qed.

(** * Further properties *)

(** ** UTF-16 and UTF-32 in the X11 text path *)

Section Surrogates.
(** Masking with [0xFFFFFC00] clears the ten low bits. *)
Lemma land_high_mask (x : Z) :
  0 <= x < 2 ^ 32 -> Z.land x 0xFFFFFC00 = 1024 * (x / 1024).
Proof.
  intros Hx.
  change 0xFFFFFC00 with (Z.land (Z.ones 32) (Z.lnot (Z.ones 10))).
  rewrite Z.land_assoc, Z.land_ones by lia.
  rewrite Z.mod_small by exact Hx.
  rewrite <- Z.ldiff_land, Z.ldiff_ones_r by lia.
  rewrite Z.shiftl_mul_pow2, Z.shiftr_div_pow2 by lia.
  change (2 ^ 10) with 1024. lia.
Qed.

Lemma is_surrogate_spec (uc : Z) :
  is_unit uc -> X11.is_surrogate uc = true <-> 0xD800 <= uc <= 0xDFFF.
Proof.
  unfold is_unit, X11.is_surrogate, uint32. intros Hu.
  rewrite Z.ltb_lt.
  destruct (Z_lt_le_dec uc 0xD800) as [L|L].
  - replace ((uc - 0xD800) mod 2 ^ 32) with (uc - 0xD800 + 2 ^ 32).
    + lia.
    + apply Z.mod_unique with (q := -1); lia.
  - rewrite Z.mod_small by lia. lia.
Qed.

Lemma is_high_surrogate_spec (uc : Z) :
  is_unit uc -> X11.is_high_surrogate uc = true <-> 0xD800 <= uc <= 0xDBFF.
Proof.
  unfold is_unit, X11.is_high_surrogate. intros Hu.
  rewrite land_high_mask by lia. rewrite Z.eqb_eq.
  pose proof (Z.div_mod uc 1024 ltac:(lia)).
  pose proof (Z.mod_pos_bound uc 1024 ltac:(lia)). lia.
Qed.

Lemma is_low_surrogate_spec (uc : Z) :
  is_unit uc -> X11.is_low_surrogate uc = true <-> 0xDC00 <= uc <= 0xDFFF.
Proof.
  unfold is_unit, X11.is_low_surrogate. intros Hu.
  rewrite land_high_mask by lia. rewrite Z.eqb_eq.
  pose proof (Z.div_mod uc 1024 ltac:(lia)).
  pose proof (Z.mod_pos_bound uc 1024 ltac:(lia)). lia.
Qed.

Lemma surrogate_to_utf32_value (high low : Z) :
  0xD800 <= high <= 0xDBFF -> 0xDC00 <= low <= 0xDFFF ->
  X11.surrogate_to_utf32 high low
  = 0x10000 + (high - 0xD800) * 0x400 + (low - 0xDC00).
Proof.
  intros Hh Hl. unfold X11.surrogate_to_utf32, uint32.
  rewrite Z.shiftl_mul_pow2 by lia. change (2 ^ 10) with 1024.
  rewrite Z.mod_small; lia.
Qed.
End Surrogates.

(** The units that [x_key_event_lookup] writes, for use in the proofs
    below. *)
Lemma lookup_units
  (count : Z) (buffer : list Z) (s0 s1 : Z) (rest : list Z) (length : Z) :
  0 < count <= 4 -> 2 <= length ->
  X11.x_key_event_lookup (count, buffer) (Some (s0 :: s1 :: rest)) length =
  if X11.utf8_codepoint count buffer <=? 0xFFFF
  then (1, Some (X11.utf8_codepoint count buffer :: s1 :: rest))
  else (2, Some (0xD7C0 + Z.shiftr (X11.utf8_codepoint count buffer) 10
                 :: 0xDC00 + Z.land (X11.utf8_codepoint count buffer) 0x3FF
                 :: rest)).
Proof.
  intros Hc Hl.
  pose proof (utf8_codepoint_bound count buffer Hc) as B.
  unfold X11.x_key_event_lookup.
  replace (0 <? count) with true by (symmetry; apply Z.ltb_lt; lia).
  replace (length =? 0) with false by (symmetry; apply Z.eqb_neq; lia).
  replace (1 <? length) with true by (symmetry; apply Z.ltb_lt; lia).
  cbn [X11.store].
  destruct (X11.utf8_codepoint count buffer <=? 0xFFFF).
  - rewrite wchar_t_small by lia. reflexivity.
  - assert (S : 0 <= Z.shiftr (X11.utf8_codepoint count buffer) 10 < 2 ^ 11).
    { rewrite Z.shiftr_div_pow2 by lia. split.
      - apply Z.div_pos; lia.
      - apply Z.div_lt_upper_bound; lia. }
    pose proof (land_mask_bound 10 0x3FF (X11.utf8_codepoint count buffer)
                  ltac:(lia) eq_refl) as L.
    rewrite (Z.land_comm 0x3FF) in L.
    change (uint32 (0xD800 - Z.shiftr 0x10000 10)) with 0xD7C0.
    unfold uint32. rewrite !Z.mod_small by lia.
    rewrite !wchar_t_small by lia. reflexivity.
Qed.

(** X1: what the key-event lookup resolves, the text path decodes back.
    For a lookup of one to four bytes whose code point is a Unicode
    scalar value, the UTF-16 units written by [x_key_event_lookup] are
    converted by [convert_utf16_to_utf32]'s loop to that one code
    point. *)
Theorem resolved_units_decode
  (count : Z) (buffer : list Z) (s0 s1 : Z) (rest : list Z) (length : Z) :
  0 < count <= 4 -> 2 <= length ->
  is_scalar (X11.utf8_codepoint count buffer) ->
  let r := X11.x_key_event_lookup (count, buffer) (Some (s0 :: s1 :: rest)) length in
  exists units,
    fst r = Z.of_nat (List.length units) /\
    snd r = Some (units ++ skipn (List.length units) (s0 :: s1 :: rest)) /\
    X11.utf16_to_utf32 units = [X11.utf8_codepoint count buffer].
Proof.
  intros Hc Hl [Hr Hs] r. subst r.
  rewrite lookup_units by assumption.
  set (cp := X11.utf8_codepoint count buffer) in *.
  destruct (Z.leb_spec cp 0xFFFF) as [L|L].
  - exists [cp]. repeat split.
    cbn [X11.utf16_to_utf32].
    destruct (X11.is_surrogate cp) eqn:E; [|reflexivity].
    apply is_surrogate_spec in E; [lia|unfold is_unit; lia].
  - pose proof (surrogate_pair_encodes cp ltac:(lia)) as (Hlead & Htrail & Hcp).
    cbv zeta in Hlead, Htrail, Hcp.
    set (lead := 0xD7C0 + Z.shiftr cp 10) in *.
    set (trail := 0xDC00 + Z.land cp 0x3FF) in *.
    exists [lead; trail]. repeat split.
    cbn [X11.utf16_to_utf32].
    assert (Ul : is_unit lead) by (unfold is_unit; lia).
    assert (Ut : is_unit trail) by (unfold is_unit; lia).
    replace (X11.is_surrogate lead) with true
      by (symmetry; apply is_surrogate_spec; [exact Ul|lia]).
    replace (X11.is_high_surrogate lead) with true
      by (symmetry; apply is_high_surrogate_spec; [exact Ul|lia]).
    replace (X11.is_low_surrogate trail) with true
      by (symmetry; apply is_low_surrogate_spec; [exact Ut|lia]).
    cbn [negb andb].
    rewrite surrogate_to_utf32_value by lia.
    f_equal. lia.
Qed.

(** U+1F600 through both functions. *)
Lemma resolved_units_decode_witness :
  exists units,
    fst (X11.x_key_event_lookup (4, [0xF0; 0x9F; 0x98; 0x80; 0]) (Some [0; 0]) 2)
    = Z.of_nat (List.length units) /\
    snd (X11.x_key_event_lookup (4, [0xF0; 0x9F; 0x98; 0x80; 0]) (Some [0; 0]) 2)
    = Some (units ++ skipn (List.length units) [0; 0]) /\
    X11.utf16_to_utf32 units = [0x1F600].
Proof.
  apply (resolved_units_decode 4 [0xF0; 0x9F; 0x98; 0x80; 0] 0 0 [] 2);
    [lia|lia|].
  change (X11.utf8_codepoint 4 [0xF0; 0x9F; 0x98; 0x80; 0]) with 0x1F600.
  unfold is_scalar. lia.
Defined.

Section Utf32.
Lemma unit_scalar (uc : Z) :
  is_unit uc -> X11.is_surrogate uc = false -> is_scalar uc.
Proof.
  intros Hu E. unfold is_scalar. split; [unfold is_unit in Hu; lia|].
  intros H. apply (is_surrogate_spec uc Hu) in H. congruence.
Qed.

Lemma replacement_scalar : is_scalar 0xFFFD.
Proof. unfold is_scalar. lia. Qed.

Lemma pair_scalar (high low : Z) :
  is_unit high -> is_unit low ->
  X11.is_high_surrogate high && X11.is_low_surrogate low = true ->
  is_scalar (X11.surrogate_to_utf32 high low) /\
  0x10000 <= X11.surrogate_to_utf32 high low.
Proof.
  intros Hh Hl E. apply andb_prop in E as [E1 E2].
  apply is_high_surrogate_spec in E1; [|exact Hh].
  apply is_low_surrogate_spec in E2; [|exact Hl].
  rewrite surrogate_to_utf32_value by assumption.
  unfold is_scalar. lia.
Qed.

(** The conversion, by induction on a bound of the length of the input:
    the loop consumes one or two units per round. *)
Lemma utf16_to_utf32_bounded (n : nat) :
  forall input,
    (List.length input <= n)%nat -> Forall is_unit input ->
    Forall is_scalar (X11.utf16_to_utf32 input) /\
    (List.length (X11.utf16_to_utf32 input) <= List.length input)%nat /\
    (Forall (fun u => u <> 0) input ->
     Forall (fun cp => cp <> 0) (X11.utf16_to_utf32 input)).
Proof.
  induction n as [|n IH]; intros input Hn Hu.
  - destruct input; [|cbn in Hn; lia]. cbn. repeat split; constructor.
  - destruct input as [|uc rest]; [cbn; repeat split; constructor|].
    inversion Hu as [|? ? Huc Hrest]; subst.
    cbn [List.length] in Hn.
    destruct (IH rest ltac:(lia) Hrest) as (R1 & R2 & R3).
    cbn [X11.utf16_to_utf32].
    destruct (X11.is_surrogate uc) eqn:E; cbn [negb].
    + destruct rest as [|low rest'].
      * cbn. repeat split; try lia;
          repeat constructor; (apply replacement_scalar || discriminate).
      * destruct (X11.is_high_surrogate uc && X11.is_low_surrogate low) eqn:P.
        -- inversion Hrest as [|? ? Hlow Hrest']; subst.
           cbn [List.length] in Hn.
           destruct (IH rest' ltac:(lia) Hrest') as (Q1 & Q2 & Q3).
           destruct (pair_scalar uc low Huc Hlow P) as [S1 S2].
           cbn [List.length]. repeat split.
           ++ constructor; assumption.
           ++ lia.
           ++ intros Hz. inversion Hz as [|? ? _ Hz']; subst.
              inversion Hz' as [|? ? _ Hz'']; subst.
              constructor; [lia|now apply Q3].
        -- cbn [List.length] in *. repeat split.
           ++ constructor; [apply replacement_scalar|exact R1].
           ++ lia.
           ++ intros Hz. inversion Hz; subst.
              constructor; [discriminate|now apply R3].
    + cbn [List.length]. repeat split.
      * constructor; [now apply unit_scalar|exact R1].
      * lia.
      * intros Hz. inversion Hz; subst. constructor; [assumption|now apply R3].
Qed.
(** The units of a scalar value are read back as that value. *)
Lemma utf16_units_decode (cp : Z) (rest : list Z) :
  is_scalar cp ->
  X11.utf16_to_utf32 (utf16_units cp ++ rest) = cp :: X11.utf16_to_utf32 rest.
Proof.
  intros [Hr Hs]. unfold utf16_units.
  destruct (Z.leb_spec cp 0xFFFF) as [L|L]; cbn [app X11.utf16_to_utf32].
  - destruct (X11.is_surrogate cp) eqn:E; [|reflexivity].
    apply is_surrogate_spec in E; [contradiction|unfold is_unit; lia].
  - pose proof (Z.div_mod (cp - 0x10000) 0x400 ltac:(lia)) as D.
    pose proof (Z.mod_pos_bound (cp - 0x10000) 0x400 ltac:(lia)) as M.
    assert (Q : 0 <= (cp - 0x10000) / 0x400 < 0x400).
    { split; [apply Z.div_pos; lia|apply Z.div_lt_upper_bound; lia]. }
    set (lead := 0xD800 + (cp - 0x10000) / 0x400) in *.
    set (trail := 0xDC00 + (cp - 0x10000) mod 0x400) in *.
    assert (Hl : 0xD800 <= lead <= 0xDBFF) by (subst lead; lia).
    assert (Ht : 0xDC00 <= trail <= 0xDFFF) by (subst trail; lia).
    assert (E1 : X11.is_surrogate lead = true)
      by (apply is_surrogate_spec; unfold is_unit; lia).
    assert (E2 : X11.is_high_surrogate lead = true)
      by (apply is_high_surrogate_spec; unfold is_unit; lia).
    assert (E3 : X11.is_low_surrogate trail = true)
      by (apply is_low_surrogate_spec; unfold is_unit; lia).
    rewrite E1, E2, E3. cbn [negb andb].
    rewrite surrogate_to_utf32_value by assumption.
    f_equal. subst lead trail. lia.
Qed.

Lemma utf16_units_decode_all (cps : list Z) (rest : list Z) :
  Forall is_scalar cps ->
  X11.utf16_to_utf32 (flat_map utf16_units cps ++ rest) =
  cps ++ X11.utf16_to_utf32 rest.
Proof.
  induction 1 as [|cp cps Hcp _ IH]; [reflexivity|].
  cbn [flat_map]. rewrite <- app_assoc, utf16_units_decode by assumption.
  rewrite IH. reflexivity.
Qed.

(** A surrogate that is not the lead of a pair is replaced by U+FFFD,
    and the conversion goes on with the unit after it. *)
Lemma lone_surrogate_replaced (u : Z) (rest : list Z) :
  is_unit u -> Forall is_unit rest -> lone_surrogate u rest ->
  X11.utf16_to_utf32 (u :: rest) = 0xFFFD :: X11.utf16_to_utf32 rest.
Proof.
  intros Hu Hrest Hl. cbn [X11.utf16_to_utf32].
  assert (E : X11.is_surrogate u = true).
  { apply is_surrogate_spec; [exact Hu|]. destruct Hl as [H|[H _]]; lia. }
  rewrite E. cbn [negb].
  destruct rest as [|next rest']; [reflexivity|].
  replace (X11.is_high_surrogate u && X11.is_low_surrogate next) with false;
    [reflexivity|].
  symmetry. apply andb_false_iff.
  inversion Hrest as [|? ? Hnext _]; subst.
  destruct Hl as [H|[_ H]].
  - left. destruct (X11.is_high_surrogate u) eqn:F; [|reflexivity].
    apply is_high_surrogate_spec in F; [lia|exact Hu].
  - right. destruct (X11.is_low_surrogate next) eqn:F; [|reflexivity].
    apply is_low_surrogate_spec in F; [contradiction|exact Hnext].
Qed.
End Utf32.

(** X2: [convert_utf16_to_utf32]'s loop decodes UTF-16.  It turns any
    sequence of 16-bit units into Unicode scalar values, never into
    more code points than there were units; the UTF-16 encoding of a
    sequence of scalar values is turned into these values; and a
    surrogate that is not the lead of a pair, after the encoding of some
    scalar values, becomes U+FFFD, the conversion going on with the
    unit after it. *)
Theorem utf16_to_utf32_scalars (input : list Z) :
  Forall is_unit input ->
  Forall is_scalar (X11.utf16_to_utf32 input) /\
  (List.length (X11.utf16_to_utf32 input) <= List.length input)%nat /\
  (forall cps,
     Forall is_scalar cps -> input = flat_map utf16_units cps ->
     X11.utf16_to_utf32 input = cps) /\
  (forall cps u rest,
     Forall is_scalar cps -> input = flat_map utf16_units cps ++ u :: rest ->
     lone_surrogate u rest ->
     X11.utf16_to_utf32 input = cps ++ 0xFFFD :: X11.utf16_to_utf32 rest).
Proof.
  intros Hu.
  destruct (utf16_to_utf32_bounded (List.length input) input (le_n _) Hu)
    as (H1 & H2 & _).
  repeat split; try assumption.
  - intros cps Hc ->.
    rewrite <- (app_nil_r (flat_map utf16_units cps)).
    rewrite utf16_units_decode_all by assumption.
    cbn. apply app_nil_r.
  - intros cps u rest Hc -> Hl.
    rewrite utf16_units_decode_all by assumption.
    apply Forall_app in Hu as [_ Hu].
    inversion Hu as [|? ? Hu1 Hu2]; subst.
    rewrite lone_surrogate_replaced by assumption.
    reflexivity.
Qed.

(** A letter, a pair, a lead surrogate without its trail and a letter. *)
Lemma utf16_to_utf32_scalars_witness :
  X11.utf16_to_utf32 [0x61; 0xD83D; 0xDE00; 0xD83D; 0x62] =
  [0x61; 0x1F600; 0xFFFD; 0x62] /\
  X11.utf16_to_utf32 [0x61; 0xD83D; 0xDE00] = [0x61; 0x1F600].
Proof.
  split.
  - destruct (utf16_to_utf32_scalars [0x61; 0xD83D; 0xDE00; 0xD83D; 0x62])
      as (_ & _ & _ & H).
    + repeat constructor; unfold is_unit; lia.
    + rewrite (H [0x61; 0x1F600] 0xD83D [0x62]).
      * reflexivity.
      * repeat constructor; unfold is_scalar; lia.
      * reflexivity.
      * right. split; [lia|]. intros C. lia.
  - destruct (utf16_to_utf32_scalars [0x61; 0xD83D; 0xDE00])
      as (_ & _ & H & _).
    + repeat constructor; unfold is_unit; lia.
    + apply H.
      * repeat constructor; unfold is_scalar; lia.
      * reflexivity.
Defined.

Example utf16_to_utf32_values :
  X11.utf16_to_utf32 [0xD83D; 0x61; 0xD83D; 0xDE00; 0xDE00]
  = [0xFFFD; 0x61; 0x1F600; 0xFFFD].
Proof. reflexivity. Qed.

Section KeysymNames.
Lemma string_length_append (s t : string) :
  String.length (s ++ t)%string = (String.length s + String.length t)%nat.
Proof. induction s as [|c s IH]; cbn; [reflexivity|now rewrite IH]. Qed.

Lemma string_length_repeat (c : ascii) (n : nat) :
  String.length (string_of_list_ascii (repeat c n)) = n.
Proof. induction n as [|n IH]; cbn; [reflexivity|now rewrite IH]. Qed.

Lemma pad4_length (s : string) :
  String.length (X11.pad4 s) = Nat.max 4 (String.length s).
Proof.
  unfold X11.pad4. rewrite string_length_append, string_length_repeat. lia.
Qed.

(** A number below [16 ^ k] is printed with one to [k] digits. *)
Lemma hex_digits_length (fuel : nat) :
  forall (n : Z) (acc : string) (k : nat),
    0 <= n < 16 ^ Z.of_nat k -> (1 <= k <= fuel)%nat ->
    (S (String.length acc) <= String.length (X11.hex_digits fuel n acc)
     <= k + String.length acc)%nat.
Proof.
  induction fuel as [|fuel IH]; intros n acc k Hn Hk; [lia|].
  cbn [X11.hex_digits].
  destruct (Z.eqb_spec (n / 16) 0) as [E|E].
  - cbn [String.length]. lia.
  - assert (K : (2 <= k)%nat).
    { destruct k as [|[|k]]; [lia| |lia].
      exfalso. apply E. apply Z.div_small. cbn in Hn. lia. }
    assert (Hq : 0 <= n / 16 < 16 ^ Z.of_nat (k - 1)).
    { split; [apply Z.div_pos; lia|].
      apply Z.div_lt_upper_bound; [lia|].
      replace (Z.of_nat k) with (1 + Z.of_nat (k - 1)) in Hn by lia.
      rewrite Z.pow_add_r in Hn by lia. lia. }
    specialize (IH (n / 16) (String (X11.hex_digit (n mod 16)) acc) (k - 1)%nat
                  Hq ltac:(lia)).
    cbn [String.length] in IH. lia.
Qed.

Lemma keysym_name_length (cp : Z) :
  0 <= cp <= 0x10FFFF ->
  (5 <= String.length (X11.keysym_name cp) <= 7)%nat.
Proof.
  intros Hcp. unfold X11.keysym_name. cbn [String.length].
  rewrite pad4_length.
  unfold uint32. rewrite Z.mod_small by lia.
  pose proof (hex_digits_length 8 cp EmptyString 6 ltac:(cbn; lia) ltac:(lia)) as H.
  cbn [String.length] in H. lia.
Qed.
End KeysymNames.

(** X3: the name that [map_to_keysyms] prints for a code point of a
    converted text is U and four to six digits: with its final zero it
    fits the nine bytes of [str]. *)
Theorem keysym_names_fit (text : list Z) :
  Forall is_unit text ->
  Forall (fun cp => (5 <= String.length (X11.keysym_name cp) <= 7)%nat)
         (X11.utf16_to_utf32 text).
Proof.
  intros Hu.
  destruct (utf16_to_utf32_bounded (List.length text) text (le_n _) Hu)
    as (H & _ & _).
  eapply Forall_impl; [|exact H].
  intros cp [Hcp _]. now apply keysym_name_length.
Qed.

Lemma keysym_names_fit_witness :
  Forall (fun cp => (5 <= String.length (X11.keysym_name cp) <= 7)%nat)
         (X11.utf16_to_utf32 [0x61; 0xD83D; 0xDE00; 0xDBFF; 0xDFFF]%Z).
Proof.
  apply (keysym_names_fit [0x61; 0xD83D; 0xDE00; 0xDBFF; 0xDFFF]%Z).
  repeat constructor; unfold is_unit; lia.
Defined.

Example keysym_name_values :
  map X11.keysym_name [0x61; 0x20AC; 0x1F600; 0x10FFFF]
  = ["U0061"; "U20AC"; "U1F600"; "U10FFFF"]%string.
Proof. reflexivity. Qed.

Section Keysyms.
Lemma until_zero_nonzero (l : list Z) : Forall (fun u => u <> 0) (X11.until_zero l).
Proof.
  induction l as [|c l IH]; cbn; [constructor|].
  destruct (Z.eqb_spec c 0); [constructor|now constructor].
Qed.

Lemma until_zero_prefix (l : list Z) :
  firstn (List.length (X11.until_zero l)) l = X11.until_zero l.
Proof.
  induction l as [|c l IH]; cbn; [reflexivity|].
  destruct (Z.eqb_spec c 0); cbn; [reflexivity|now rewrite IH].
Qed.

Lemma until_zero_unit (l : list Z) :
  Forall is_unit l -> Forall is_unit (X11.until_zero l).
Proof.
  induction 1 as [|c l Hc Hl IH]; cbn; [constructor|].
  destruct (Z.eqb_spec c 0); [constructor|now constructor].
Qed.

Lemma until_zero_padded (l : list Z) (k : nat) :
  Forall (fun cp => cp <> 0) l -> X11.until_zero (l ++ repeat 0 k) = l.
Proof.
  induction 1 as [|c l Hc Hl IH]; cbn.
  - destruct k; reflexivity.
  - destruct (Z.eqb_spec c 0); [contradiction|now rewrite IH].
Qed.
End Keysyms.

(** The keysyms of a text whose length was counted up to its final
    zero. *)
Lemma map_to_keysyms_code_points_eq (XStringToKeysym : string -> Z) (text : list Z) :
  Forall is_unit text ->
  X11.map_to_keysyms XStringToKeysym text (List.length (X11.until_zero text))
  = map (fun cp => XStringToKeysym (X11.keysym_name cp))
        (X11.utf16_to_utf32 (X11.until_zero text)).
Proof.
  intros Hu. unfold X11.map_to_keysyms, X11.convert_utf16_to_utf32.
  rewrite until_zero_prefix. f_equal.
  apply until_zero_padded.
  apply (utf16_to_utf32_bounded (List.length (X11.until_zero text)));
    [apply le_n|now apply until_zero_unit|apply until_zero_nonzero].
Qed.

(** X4: [map_to_keysyms], called as [hook_post_text] calls it, fills in
    one keysym for each code point of the text before its final zero:
    a surrogate pair gives one keysym, not two, and no code point is
    taken for the end of the array.  Their number is at most [count],
    the number of entries allocated for them. *)
Theorem map_to_keysyms_code_points (XStringToKeysym : string -> Z) (text : list Z) :
  Forall is_unit text ->
  let count := List.length (X11.until_zero text) in
  X11.map_to_keysyms XStringToKeysym text count
  = map (fun cp => XStringToKeysym (X11.keysym_name cp))
        (X11.utf16_to_utf32 (X11.until_zero text)) /\
  (List.length (X11.map_to_keysyms XStringToKeysym text count) <= count)%nat.
Proof.
  intros Hu count. subst count.
  rewrite map_to_keysyms_code_points_eq by exact Hu.
  split; [reflexivity|]. rewrite length_map.
  apply (utf16_to_utf32_bounded (List.length (X11.until_zero text)));
    [apply le_n|now apply until_zero_unit].
Qed.

Lemma map_to_keysyms_code_points_witness :
  let count := List.length (X11.until_zero [0x61; 0xD83D; 0xDE00; 0; 0x62]%Z) in
  X11.map_to_keysyms (fun s => Z.of_nat (String.length s))
    [0x61; 0xD83D; 0xDE00; 0; 0x62]%Z count
  = map (fun cp => Z.of_nat (String.length (X11.keysym_name cp)))
        (X11.utf16_to_utf32 (X11.until_zero [0x61; 0xD83D; 0xDE00; 0; 0x62]%Z)) /\
  (List.length (X11.map_to_keysyms (fun s => Z.of_nat (String.length s))
                  [0x61; 0xD83D; 0xDE00; 0; 0x62]%Z count) <= count)%nat.
Proof.
  apply (map_to_keysyms_code_points (fun s => Z.of_nat (String.length s))
           [0x61; 0xD83D; 0xDE00; 0; 0x62]%Z).
  repeat constructor; unfold is_unit; lia.
Defined.

(** ** x11/post_event.c: the key code borrowed for text *)

Section FindUnused.
Variable e : X11.text_env.
Variable min_keycode : Z.
Hypothesis free_ok : X11.XFree e = true.
Hypothesis min_positive : 1 <= min_keycode.

Lemma find_unused_keycode_from_spec (rounds : nat) :
  forall keycode,
    0 <= keycode <= 255 ->
    Z.max 0 (keycode - min_keycode + 1) < Z.of_nat rounds ->
    exists k,
      X11.find_unused_keycode_from e rounds min_keycode keycode = Some k /\
      ((k = 0 /\ forall c, min_keycode <= c <= keycode -> keycode_in_use e c = true) \/
       (min_keycode <= k <= keycode /\ keycode_in_use e k = false /\
        forall c, k < c <= keycode -> keycode_in_use e c = true)).
Proof.
  induction rounds as [|rounds IH]; intros keycode Hk Hr; [lia|].
  cbn [X11.find_unused_keycode_from].
  destruct (Z.leb_spec min_keycode keycode) as [L|L].
  - rewrite free_ok. cbn [negb].
    fold (keycode_in_use e keycode).
    destruct (keycode_in_use e keycode) eqn:U; cbn [negb].
    + assert (E : uint8 (keycode - 1) = keycode - 1)
        by (unfold uint8; apply Z.mod_small; lia).
      rewrite E.
      destruct (IH (keycode - 1) ltac:(lia) ltac:(lia)) as (k & Hf & Hs).
      exists k. split; [exact Hf|].
      destruct Hs as [[K0 Hall]|(Hin & Hfree & Hall)].
      * left. split; [exact K0|]. intros c Hc.
        destruct (Z.eq_dec c keycode) as [->|N]; [exact U|apply Hall; lia].
      * right. repeat split; try lia; try assumption. intros c Hc.
        destruct (Z.eq_dec c keycode) as [->|N]; [exact U|apply Hall; lia].
    + exists keycode. split; [reflexivity|]. right.
      repeat split; try lia; try assumption.
  - exists 0. split; [reflexivity|]. left. split; [reflexivity|].
    intros c Hc. lia.
Qed.
End FindUnused.

(** X5: on a server whose key codes are [min_keycode] to [max_keycode],
    with [1 <= min_keycode], [find_unused_keycode] returns: the highest
    key code of the range all of whose keysyms are [NoSymbol]; or 0 when
    every key code of the range has a keysym. *)
Theorem find_unused_keycode_highest (e : X11.text_env) (min_keycode max_keycode : Z) :
  X11.XDisplayKeycodes e = Some (min_keycode, max_keycode) ->
  X11.XFree e = true ->
  1 <= min_keycode -> 0 <= max_keycode <= 255 ->
  exists k,
    X11.find_unused_keycode e = Some k /\
    ((k = 0 /\
      forall c, min_keycode <= c <= max_keycode -> keycode_in_use e c = true) \/
     (min_keycode <= k <= max_keycode /\ keycode_in_use e k = false /\
      forall c, k < c <= max_keycode -> keycode_in_use e c = true)).
Proof.
  intros Hd Hf Hmin Hmax. unfold X11.find_unused_keycode. rewrite Hd.
  assert (E : uint8 max_keycode = max_keycode)
    by (unfold uint8; apply Z.mod_small; lia).
  rewrite E.
  apply find_unused_keycode_from_spec; try assumption. cbn. lia.
Qed.

Lemma find_unused_keycode_highest_witness :
  exists k,
    X11.find_unused_keycode (text_server 0) = Some k /\
    ((k = 0 /\
      forall c, 8 <= c <= 255 -> keycode_in_use (text_server 0) c = true) \/
     (8 <= k <= 255 /\ keycode_in_use (text_server 0) k = false /\
      forall c, k < c <= 255 -> keycode_in_use (text_server 0) c = true)).
Proof.
  apply (find_unused_keycode_highest (text_server 0) 8 255);
    [reflexivity|reflexivity|lia|lia].
Defined.

Example find_unused_keycode_value :
  X11.find_unused_keycode (text_server 0) = Some 249.
Proof. vm_compute. reflexivity. Qed.

(** When the server reports a range that starts at 0 or below and every
    key code has a keysym, the loop of [find_unused_keycode] returns
    after no number of rounds: its unsigned counter wraps from 0 to
    255. *)
Lemma find_unused_keycode_wraps (e : X11.text_env) (min_keycode : Z) (rounds : nat) :
  X11.XFree e = true -> min_keycode <= 0 ->
  (forall c, 0 <= c <= 255 -> keycode_in_use e c = true) ->
  forall keycode, 0 <= keycode <= 255 ->
    X11.find_unused_keycode_from e rounds min_keycode keycode = None.
Proof.
  intros Hf Hmin Hall.
  induction rounds as [|rounds IH]; intros keycode Hk; [reflexivity|].
  cbn [X11.find_unused_keycode_from].
  replace (min_keycode <=? keycode) with true by (symmetry; apply Z.leb_le; lia).
  rewrite Hf. fold (keycode_in_use e keycode). rewrite (Hall keycode Hk).
  cbn [negb]. apply IH. unfold uint8.
  pose proof (Z.mod_pos_bound (keycode - 1) (2 ^ 8) ltac:(lia)). lia.
Qed.

(** ** x11/post_event.c: posting text *)

Section PostKeysyms.
Variable e : X11.text_env.
Variable delay : Z.
Variable keycode : Z.

Lemma post_keysym_cases (keysym : Z) :
  (fst (X11.post_keysym e delay keysym keycode) = UIOHook.UIOHOOK_SUCCESS /\
   snd (X11.post_keysym e delay keysym keycode) = keysym_requests delay keycode keysym /\
   X11.XChangeKeyboardMapping e keycode [keysym; keysym; keysym; keysym] = X11.Success /\
   X11.XTestFakeKeyEvent (X11.server e) keycode true <> 0 /\
   X11.XTestFakeKeyEvent (X11.server e) keycode false <> 0) \/
  (fst (X11.post_keysym e delay keysym keycode) = UIOHook.UIOHOOK_FAILURE /\
   (X11.XChangeKeyboardMapping e keycode [keysym; keysym; keysym; keysym] <> X11.Success \/
    X11.XTestFakeKeyEvent (X11.server e) keycode true = 0 \/
    X11.XTestFakeKeyEvent (X11.server e) keycode false = 0)).
Proof.
  unfold X11.post_keysym.
  destruct (Z.eqb_spec (X11.XChangeKeyboardMapping e keycode
                          [keysym; keysym; keysym; keysym]) X11.Success) as [C|C];
    cbn [negb]; [|right; split; [reflexivity|now left]].
  destruct (Z.eqb_spec (X11.XTestFakeKeyEvent (X11.server e) keycode true) 0) as [P|P];
    [right; split; [reflexivity|now right; left]|].
  destruct (Z.eqb_spec (X11.XTestFakeKeyEvent (X11.server e) keycode false) 0) as [R|R];
    [right; split; [reflexivity|now right; right]|].
  left. repeat split; assumption.
Qed.

Lemma post_keysym_touches (keysym : Z) :
  Forall (touches_only keycode) (snd (X11.post_keysym e delay keysym keycode)).
Proof.
  unfold X11.post_keysym.
  destruct (negb _); [|destruct (_ =? 0); [|destruct (_ =? 0)]];
    cbn [snd app]; repeat (apply Forall_cons || apply Forall_nil);
    unfold touches_only; cbn; auto.
Qed.

Lemma post_keysyms_touches (keysyms : list Z) :
  Forall (touches_only keycode) (snd (X11.post_keysyms e delay keysyms keycode)).
Proof.
  induction keysyms as [|keysym rest IH]; cbn [X11.post_keysyms]; [constructor|].
  pose proof (post_keysym_touches keysym) as T.
  destruct (X11.post_keysym e delay keysym keycode) as [status requests].
  cbn [snd] in T.
  destruct (status =? UIOHook.UIOHOOK_SUCCESS); [|exact T].
  destruct (X11.post_keysyms e delay rest keycode) as [status' requests'].
  cbn [snd] in *. apply Forall_app. split; assumption.
Qed.

Lemma post_keysyms_status (keysyms : list Z) :
  fst (X11.post_keysyms e delay keysyms keycode) = UIOHook.UIOHOOK_SUCCESS \/
  fst (X11.post_keysyms e delay keysyms keycode) = UIOHook.UIOHOOK_FAILURE.
Proof.
  induction keysyms as [|keysym rest IH]; cbn [X11.post_keysyms]; [now left|].
  destruct (X11.post_keysym e delay keysym keycode) as [status requests].
  destruct (status =? UIOHook.UIOHOOK_SUCCESS); [|now right].
  destruct (X11.post_keysyms e delay rest keycode) as [status' requests'].
  exact IH.
Qed.

(** A loop that ends in success has posted every keysym in full. *)
Lemma post_keysyms_success (keysyms : list Z) :
  fst (X11.post_keysyms e delay keysyms keycode) = UIOHook.UIOHOOK_SUCCESS ->
  snd (X11.post_keysyms e delay keysyms keycode)
  = flat_map (keysym_requests delay keycode) keysyms /\
  Forall (fun keysym =>
            X11.XChangeKeyboardMapping e keycode [keysym; keysym; keysym; keysym]
            = X11.Success) keysyms /\
  (keysyms <> [] ->
   X11.XTestFakeKeyEvent (X11.server e) keycode true <> 0 /\
   X11.XTestFakeKeyEvent (X11.server e) keycode false <> 0).
Proof.
  induction keysyms as [|keysym rest IH]; cbn [X11.post_keysyms flat_map].
  - intros _. repeat split; [constructor|congruence|congruence].
  - pose proof (post_keysym_cases keysym) as C.
    destruct (X11.post_keysym e delay keysym keycode) as [status requests].
    cbn [fst snd] in C.
    destruct C as [(-> & -> & C1 & C2 & C3)|[-> _]].
    + change (UIOHook.UIOHOOK_SUCCESS =? UIOHook.UIOHOOK_SUCCESS) with true. cbv iota.
      destruct (X11.post_keysyms e delay rest keycode) as [status' requests'].
      cbn [fst snd] in *. intros S. destruct (IH S) as (-> & F & _).
      repeat split; [now constructor|assumption|assumption].
    + change (UIOHook.UIOHOOK_FAILURE =? UIOHook.UIOHOOK_SUCCESS) with false. cbv iota.
      cbn [fst]. discriminate.
Qed.

(** A loop all of whose requests succeed. *)
Lemma post_keysyms_all (keysyms : list Z) :
  (forall keysym, X11.XChangeKeyboardMapping e keycode [keysym; keysym; keysym; keysym]
                  = X11.Success) ->
  X11.XTestFakeKeyEvent (X11.server e) keycode true <> 0 ->
  X11.XTestFakeKeyEvent (X11.server e) keycode false <> 0 ->
  X11.post_keysyms e delay keysyms keycode
  = (UIOHook.UIOHOOK_SUCCESS, flat_map (keysym_requests delay keycode) keysyms).
Proof.
  intros C P R.
  induction keysyms as [|keysym rest IH]; cbn [X11.post_keysyms flat_map];
    [reflexivity|].
  pose proof (post_keysym_cases keysym) as K.
  destruct (X11.post_keysym e delay keysym keycode) as [status requests].
  cbn [fst snd] in K.
  destruct K as [(-> & -> & _)|[_ [K|[K|K]]]];
    [|exfalso; apply K, C|contradiction|contradiction].
  change (UIOHook.UIOHOOK_SUCCESS =? UIOHook.UIOHOOK_SUCCESS) with true. cbv iota.
  rewrite IH. reflexivity.
Qed.
End PostKeysyms.

(** X6: the requests of a text that is posted with success.  On a
    display with an unused key code [k], when the server accepts every
    request, [hook_post_text] locks the display; for each code point of
    the text maps [k] to its keysym, presses and releases [k]; then
    gives [k] back its empty mapping and unlocks the display. *)
Theorem hook_post_text_requests
  (e : X11.text_env) (delay : Z) (text : list Z) (k : Z) :
  X11.helper_disp (X11.server e) = true ->
  X11.find_unused_keycode e = Some k -> k <> 0 ->
  (forall keysyms, X11.XChangeKeyboardMapping e k keysyms = X11.Success) ->
  X11.XTestFakeKeyEvent (X11.server e) k true <> 0 ->
  X11.XTestFakeKeyEvent (X11.server e) k false <> 0 ->
  Forall is_unit text ->
  X11.hook_post_text e delay (Some text)
  = Some (UIOHook.UIOHOOK_SUCCESS,
          X11.lock_display
          :: flat_map (keysym_requests delay k) (text_keysyms e text)
          ++ [restore_request k; X11.sync; X11.unlock_display]).
Proof.
  intros Hd Hf Hk C P R Hu. unfold X11.hook_post_text.
  rewrite Hd, Hf. cbn [negb].
  replace (k =? 0) with false by (symmetry; now apply Z.eqb_neq).
  rewrite map_to_keysyms_code_points_eq by exact Hu.
  rewrite post_keysyms_all by (try assumption; intros; apply C).
  rewrite C. reflexivity.
Qed.

Lemma hook_post_text_requests_witness :
  X11.hook_post_text (text_server 0) X11.initial_post_text_delay
    (Some [0x61; 0xD83D; 0xDE00; 0]%Z)
  = Some (UIOHook.UIOHOOK_SUCCESS,
          X11.lock_display
          :: flat_map (keysym_requests X11.initial_post_text_delay 249)
               (text_keysyms (text_server 0) [0x61; 0xD83D; 0xDE00; 0]%Z)
          ++ [restore_request 249; X11.sync; X11.unlock_display]).
Proof.
  apply (hook_post_text_requests (text_server 0) X11.initial_post_text_delay
           [0x61; 0xD83D; 0xDE00; 0]%Z 249).
  - reflexivity.
  - vm_compute. reflexivity.
  - lia.
  - intros [|keysym [|keysym' keysyms]]; reflexivity.
  - cbn. lia.
  - cbn. lia.
  - repeat constructor; unfold is_unit; lia.
Defined.

(** X7: a text that was not posted in full is not reported as posted.
    When [hook_post_text] returns [UIOHOOK_SUCCESS], an unused key code
    was found, the server accepted the mapping of every keysym of the
    text and the restoring of the key code, and the requests are those
    of the whole text. *)
Theorem hook_post_text_success_complete
  (e : X11.text_env) (delay : Z) (text : list Z) (requests : list X11.x_request) :
  Forall is_unit text ->
  X11.hook_post_text e delay (Some text)
  = Some (UIOHook.UIOHOOK_SUCCESS, requests) ->
  exists k,
    X11.find_unused_keycode e = Some k /\ k <> 0 /\
    Forall (fun keysym =>
              X11.XChangeKeyboardMapping e k [keysym; keysym; keysym; keysym]
              = X11.Success) (text_keysyms e text) /\
    X11.XChangeKeyboardMapping e k [X11.NoSymbol] = X11.Success /\
    requests = X11.lock_display
               :: flat_map (keysym_requests delay k) (text_keysyms e text)
               ++ [restore_request k; X11.sync; X11.unlock_display].
Proof.
  intros Hu. unfold X11.hook_post_text.
  destruct (X11.helper_disp (X11.server e)); cbn [negb];
    [|intros H; injection H as H _; vm_compute in H; discriminate].
  destruct (X11.find_unused_keycode e) as [k|]; [|discriminate].
  destruct (Z.eqb_spec k 0) as [K|K];
    [intros H; injection H as H _; vm_compute in H; discriminate|].
  rewrite map_to_keysyms_code_points_eq by exact Hu.
  fold (text_keysyms e text).
  pose proof (post_keysyms_success e delay k (text_keysyms e text)) as S.
  destruct (X11.post_keysyms e delay (text_keysyms e text) k) as [status posted].
  cbn [fst snd] in S.
  destruct (Z.eqb_spec (X11.XChangeKeyboardMapping e k [X11.NoSymbol]) X11.Success)
    as [C|C]; cbn [negb];
    [|intros H; injection H as H _; vm_compute in H; discriminate].
  intros H. injection H as -> <-.
  destruct (S eq_refl) as (-> & F & _).
  exists k. repeat split; assumption.
Qed.

Lemma hook_post_text_success_complete_witness :
  exists k,
    X11.find_unused_keycode (text_server 0) = Some k /\ k <> 0 /\
    Forall (fun keysym =>
              X11.XChangeKeyboardMapping (text_server 0) k
                [keysym; keysym; keysym; keysym] = X11.Success)
           (text_keysyms (text_server 0) [0x20AC; 0]%Z) /\
    X11.XChangeKeyboardMapping (text_server 0) k [X11.NoSymbol] = X11.Success /\
    X11.lock_display
    :: keysym_requests 1500000000 249 0x1000005
    ++ [restore_request 249; X11.sync; X11.unlock_display]
    = X11.lock_display
      :: flat_map (keysym_requests 1500000000 k)
           (text_keysyms (text_server 0) [0x20AC; 0]%Z)
      ++ [restore_request k; X11.sync; X11.unlock_display].
Proof.
  apply (hook_post_text_success_complete (text_server 0) 1500000000 [0x20AC; 0]%Z).
  - repeat constructor; unfold is_unit; lia.
  - vm_compute. reflexivity.
Defined.

(** X8: the borrowed key code is always given back, and one path leaves
    the display locked.  Once an unused key code [k] is found, whatever
    request fails while the text is posted, [hook_post_text] sends the
    request that restores the mapping of [k], and before it no request
    remaps or presses another key code.  When that restoring request
    succeeds the display is unlocked and the status of the loop is
    returned; when it fails, [UIOHOOK_FAILURE] is returned and the
    display, locked at the start, is not unlocked. *)
Theorem hook_post_text_restores_mapping
  (e : X11.text_env) (delay : Z) (text : list Z) (k : Z) :
  X11.helper_disp (X11.server e) = true ->
  X11.find_unused_keycode e = Some k -> k <> 0 ->
  exists status posted,
    Forall (touches_only k) posted /\
    X11.hook_post_text e delay (Some text)
    = Some (status,
            X11.lock_display :: posted ++ restore_request k ::
            (if X11.XChangeKeyboardMapping e k [X11.NoSymbol] =? X11.Success
             then [X11.sync; X11.unlock_display] else [])) /\
    (X11.XChangeKeyboardMapping e k [X11.NoSymbol] <> X11.Success ->
     status = UIOHook.UIOHOOK_FAILURE).
Proof.
  intros Hd Hf Hk. unfold X11.hook_post_text.
  rewrite Hd, Hf. cbn [negb].
  replace (k =? 0) with false by (symmetry; now apply Z.eqb_neq).
  set (keysyms := X11.map_to_keysyms _ _ _).
  pose proof (post_keysyms_touches e delay k keysyms) as T.
  destruct (X11.post_keysyms e delay keysyms k) as [status posted].
  cbn [snd] in T.
  destruct (Z.eqb_spec (X11.XChangeKeyboardMapping e k [X11.NoSymbol]) X11.Success)
    as [C|C]; cbn [negb].
  - exists status, posted. repeat split; [exact T|contradiction].
  - exists UIOHook.UIOHOOK_FAILURE, posted. repeat split. exact T.
Qed.

(** A server that refuses the restoring request. *)
Lemma hook_post_text_restores_mapping_witness :
  exists status posted,
    Forall (touches_only 249) posted /\
    X11.hook_post_text (text_server 1) X11.initial_post_text_delay (Some [0x61; 0]%Z)
    = Some (status,
            X11.lock_display :: posted ++ restore_request 249 ::
            (if X11.XChangeKeyboardMapping (text_server 1) 249 [X11.NoSymbol]
                =? X11.Success
             then [X11.sync; X11.unlock_display] else [])) /\
    (X11.XChangeKeyboardMapping (text_server 1) 249 [X11.NoSymbol] <> X11.Success ->
     status = UIOHook.UIOHOOK_FAILURE).
Proof.
  apply (hook_post_text_restores_mapping (text_server 1)
           X11.initial_post_text_delay [0x61; 0]%Z 249).
  - reflexivity.
  - vm_compute. reflexivity.
  - lia.
Defined.

Example hook_post_text_left_locked :
  X11.hook_post_text (text_server 1) X11.initial_post_text_delay (Some [0x61; 0]%Z)
  = Some (UIOHook.UIOHOOK_FAILURE,
          X11.lock_display
          :: keysym_requests X11.initial_post_text_delay 249 0x1000005
          ++ [restore_request 249]).
Proof. vm_compute. reflexivity. Qed.

(** ** x11: the key code that a posted key event presses *)

Section LoadedLookup.
Variable kb : X11.XkbDesc.

Lemma load_rows_vcode (n : nat) :
  forall (lo : Z) (r : X11.key_mapping),
    X11.vcode (for_loop n lo (X11.load_row kb) r) = X11.vcode r.
Proof.
  induction n as [|n IH]; intros lo r; cbn [for_loop]; [reflexivity|].
  rewrite IH. unfold X11.load_row.
  destruct (X11.strncmp_eq _ _ _); reflexivity.
Qed.

Lemma find_map_vcode (f : X11.key_mapping -> X11.key_mapping) (vc : Z) :
  (forall r, X11.vcode (f r) = X11.vcode r) ->
  forall t, first_row (map f t) vc = option_map f (first_row t vc).
Proof.
  intros Hf. unfold first_row.
  induction t as [|r t IH]; cbn [map find]; [reflexivity|].
  rewrite Hf. destruct (vc =? X11.vcode r); [reflexivity|exact IH].
Qed.

(** After loading, the reverse lookup answers with the key code that the
    loader left in the first row of the virtual code. *)
Lemma vcode_to_keycode_loaded (t : list X11.key_mapping) (vc : Z) (r : X11.key_mapping) :
  first_row t vc = Some r ->
  X11.vcode_to_keycode (X11.load_table kb t) vc
  = uint8 (X11.x11_key_code
             (for_loop (Z.to_nat (X11.max_key_code kb - X11.min_key_code kb))
                       (X11.min_key_code kb) (X11.load_row kb) r)).
Proof.
  intros F. unfold X11.vcode_to_keycode, X11.load_table.
  rewrite for_loop_map.
  fold (first_row (map (for_loop (Z.to_nat (X11.max_key_code kb - X11.min_key_code kb))
                          (X11.min_key_code kb) (X11.load_row kb)) t) vc).
  rewrite find_map_vcode by (intros; apply load_rows_vcode).
  rewrite F. reflexivity.
Qed.
End LoadedLookup.

(** X9: the first key event posted loads the keyboard and presses the
    key code under which the keyboard has the name of the first row of
    the virtual code: the last key code below [max_key_code] with that
    name. *)
Theorem x11_post_key_presses_loaded_keycode
  (e : X11.env) (kb : X11.XkbDesc) (st : X11.state) (ev : UIOHook.uiohook_event)
  (pressed : bool) (r : X11.key_mapping) (k : Z) :
  X11.xkb e = Some kb ->
  X11.key_mappings_loaded st = false ->
  UIOHook.type ev = key_type pressed ->
  first_row (X11.vcode_keycode_table st) (UIOHook.keycode (UIOHook.keyboard ev)) = Some r ->
  X11.min_key_code kb <= k < X11.max_key_code kb -> 0 < k < 256 ->
  matches kb r k = true ->
  (forall j, k < j < X11.max_key_code kb -> matches kb r j = false) ->
  X11.post_key_event e ev st
  = (if X11.XTestFakeKeyEvent e k pressed =? 0
     then UIOHook.UIOHOOK_FAILURE else UIOHook.UIOHOOK_SUCCESS,
     loaded kb st, [X11.fake_key_event k pressed]).
Proof.
  intros Hx Hl Ht Hf Hk Hk' Hm Hlast.
  unfold X11.post_key_event, X11.load_key_mappings.
  rewrite Hl, Hx. cbn [X11.vcode_keycode_table].
  rewrite (vcode_to_keycode_loaded kb _ _ r Hf).
  rewrite (load_rows_last_match kb _ _ r k); [|lia|exact Hm|intros j Hj; apply Hlast; lia].
  cbn [X11.x11_key_code].
  assert (E : uint8 k = k) by (unfold uint8; apply Z.mod_small; lia).
  rewrite E.
  replace (k =? 0) with false by (symmetry; apply Z.eqb_neq; lia).
  rewrite Ht. fold (loaded kb st).
  destruct pressed; cbn [key_type];
    destruct (X11.XTestFakeKeyEvent e k _ =? 0); reflexivity.
Qed.

(** [VC_ESCAPE] on the evdev keyboard: key code 9. *)
Lemma x11_post_key_presses_loaded_keycode_witness :
  X11.post_key_event x_server
    (key_event UIOHook.EVENT_KEY_PRESSED UIOHook.VC_ESCAPE) X11.initial_state
  = (if X11.XTestFakeKeyEvent x_server 9 true =? 0
     then UIOHook.UIOHOOK_FAILURE else UIOHook.UIOHOOK_SUCCESS,
     loaded evdev_keyboard X11.initial_state, [X11.fake_key_event 9 true]).
Proof.
  apply (x11_post_key_presses_loaded_keycode x_server evdev_keyboard
           X11.initial_state
           (key_event UIOHook.EVENT_KEY_PRESSED UIOHook.VC_ESCAPE) true
           (X11.row UIOHook.VC_ESCAPE "ESC") 9).
  - reflexivity.
  - reflexivity.
  - reflexivity.
  - vm_compute. reflexivity.
  - cbn. lia.
  - lia.
  - vm_compute. reflexivity.
  - intros j Hj. unfold matches, evdev_keyboard. cbn [X11.names X11.x11_key_name X11.row].
    replace (j =? 9) with false by (symmetry; apply Z.eqb_neq; lia).
    destruct (j =? 38); [reflexivity|]. destruct (j =? 255); reflexivity.
Defined.

(** X10: a virtual code can be posted only through its first row.  When
    the keyboard has no key of the name of the first row of the virtual
    code, the key event is refused and nothing is sent, whatever other
    rows of that virtual code the loader has filled in. *)
Theorem x11_post_key_needs_first_row
  (e : X11.env) (kb : X11.XkbDesc) (st : X11.state) (ev : UIOHook.uiohook_event)
  (r : X11.key_mapping) :
  X11.xkb e = Some kb ->
  X11.key_mappings_loaded st = false ->
  first_row (X11.vcode_keycode_table st) (UIOHook.keycode (UIOHook.keyboard ev)) = Some r ->
  X11.x11_key_code r = 0 ->
  (forall j, X11.min_key_code kb <= j < X11.max_key_code kb -> matches kb r j = false) ->
  X11.post_key_event e ev st = (UIOHook.UIOHOOK_FAILURE, loaded kb st, []).
Proof.
  intros Hx Hl Hf H0 Hno.
  unfold X11.post_key_event, X11.load_key_mappings.
  rewrite Hl, Hx. cbn [X11.vcode_keycode_table].
  rewrite (vcode_to_keycode_loaded kb _ _ r Hf).
  rewrite load_rows_no_match by (intros j Hj; apply Hno; lia).
  rewrite H0. reflexivity.
Qed.

(** On a keyboard with [MENU] and without [COMP], the menu key is
    captured as [VC_CONTEXT_MENU] and cannot be posted. *)
Lemma x11_post_key_needs_first_row_witness :
  X11.post_key_event
    {| X11.helper_disp := true; X11.xkb := Some menu_only_keyboard;
       X11.mouse_button_table := true; X11.XGetPointerMapping := [];
       X11.XQueryPointer := None;
       X11.XTestFakeKeyEvent := fun _ _ => 1;
       X11.XTestFakeButtonEvent := fun _ _ => 1;
       X11.XTestFakeMotionEvent := fun _ _ => 1;
       X11.WheelUp := 4; X11.WheelDown := 5; X11.WheelLeft := 6; X11.WheelRight := 7 |}
    (key_event UIOHook.EVENT_KEY_PRESSED UIOHook.VC_CONTEXT_MENU) X11.initial_state
  = (UIOHook.UIOHOOK_FAILURE, loaded menu_only_keyboard X11.initial_state, []).
Proof.
  apply (x11_post_key_needs_first_row _ menu_only_keyboard X11.initial_state
           (key_event UIOHook.EVENT_KEY_PRESSED UIOHook.VC_CONTEXT_MENU)
           (X11.row UIOHook.VC_CONTEXT_MENU "COMP")).
  - reflexivity.
  - reflexivity.
  - vm_compute. reflexivity.
  - reflexivity.
  - intros j Hj. unfold matches, menu_only_keyboard.
    cbn [X11.names X11.x11_key_name X11.row].
    destruct (j =? 135); reflexivity.
Defined.

Example menu_key_captured_not_posted :
  let t := X11.vcode_keycode_table (loaded menu_only_keyboard X11.initial_state) in
  X11.keycode_to_vcode t 135 = UIOHook.VC_CONTEXT_MENU /\
  X11.vcode_to_keycode t UIOHook.VC_CONTEXT_MENU = 0.
Proof.
  cbv zeta.
  remember (X11.vcode_keycode_table (loaded menu_only_keyboard X11.initial_state))
    as t eqn:Et.
  vm_compute in Et. subst t. split; vm_compute; reflexivity.
Qed.

(** ** x11/input_helper.c: the bounds of [x_key_event_lookup] *)

Section Store.
Lemma store_length (i : nat) (v : Z) :
  forall l, List.length (X11.store i v l) = List.length l.
Proof.
  induction i as [|i IH]; intros [|a l]; cbn; try reflexivity.
  now rewrite IH.
Qed.

Lemma skipn_store (i : nat) (v : Z) :
  forall (n : nat) (l : list Z),
    (i < n)%nat -> skipn n (X11.store i v l) = skipn n l.
Proof.
  induction i as [|i IH]; intros n [|a l] Hn;
    destruct n as [|n]; try lia; cbn; try reflexivity.
  apply IH. lia.
Qed.
End Store.

(** X11: [x_key_event_lookup] stays inside the buffer it is given.  For
    a lookup of at most four bytes and a buffer of [size] units, the
    count returned is at most [size] and at most 2, the buffer keeps its
    length and the units from the returned count on are left as they
    were.  A code point above U+FFFF with room for one unit only is
    dropped: the count is 0 and the buffer is untouched. *)
Theorem x_key_event_lookup_in_buffer
  (count : Z) (buffer s : list Z) (size : Z) :
  0 <= count <= 4 -> 0 <= size <= Z.of_nat (List.length s) ->
  let r := X11.x_key_event_lookup (count, buffer) (Some s) size in
  0 <= fst r <= size /\ fst r <= 2 /\
  exists s',
    snd r = Some s' /\ List.length s' = List.length s /\
    skipn (Z.to_nat (fst r)) s' = skipn (Z.to_nat (fst r)) s /\
    (size = 1 -> 0xFFFF < X11.utf8_codepoint count buffer -> fst r = 0 /\ s' = s).
Proof.
  intros Hc Hs r. subst r. unfold X11.x_key_event_lookup.
  destruct (Z.ltb_spec 0 count) as [C|C].
  - destruct (Z.eqb_spec size 0) as [Z0|Z0].
    + cbn [fst snd]. repeat split; try lia. exists s. repeat split; lia.
    + destruct (Z.leb_spec (X11.utf8_codepoint count buffer) 0xFFFF) as [B|B].
      * cbn [fst snd]. repeat split; try lia.
        eexists. repeat split; [apply store_length|apply skipn_store; lia|lia|lia].
      * destruct (Z.ltb_spec 1 size) as [L|L].
        -- cbn [fst snd]. repeat split; try lia.
           eexists. repeat split.
           ++ now rewrite !store_length.
           ++ rewrite !skipn_store by lia. reflexivity.
           ++ lia.
           ++ lia.
        -- cbn [fst snd]. repeat split; try lia. exists s. repeat split.
  - assert (count = 0) by lia. subst count. cbn [fst snd].
    repeat split; try lia. exists s. repeat split.
Qed.

(** U+1F600 with room for one unit. *)
Lemma x_key_event_lookup_in_buffer_witness :
  let r := X11.x_key_event_lookup (4, [0xF0; 0x9F; 0x98; 0x80; 0]) (Some [7; 7]) 1 in
  0 <= fst r <= 1 /\ fst r <= 2 /\
  exists s',
    snd r = Some s' /\ List.length s' = List.length [7; 7] /\
    skipn (Z.to_nat (fst r)) s' = skipn (Z.to_nat (fst r)) [7; 7] /\
    (1 = 1 -> 0xFFFF < X11.utf8_codepoint 4 [0xF0; 0x9F; 0x98; 0x80; 0] ->
     fst r = 0 /\ s' = [7; 7]).
Proof.
  apply (x_key_event_lookup_in_buffer 4 [0xF0; 0x9F; 0x98; 0x80; 0] [7; 7] 1).
  - lia.
  - cbn. lia.
Defined.

(** ** The modifier mask *)

Section MaskAlgebra.
Lemma lor_mask_testbit (m mask k : Z) :
  Z.testbit (uint16 (Z.lor m (uint16 mask))) k
  = (k <? 16) && (Z.testbit m k || Z.testbit mask k).
Proof.
  rewrite uint16_testbit, Z.lor_spec, uint16_testbit.
  destruct (k <? 16), (Z.testbit m k), (Z.testbit mask k); reflexivity.
Qed.

Lemma ldiff_mask_testbit (m mask k : Z) :
  Z.testbit (uint16 (Z.land m (Z.lnot (uint16 mask)))) k
  = (k <? 16) && Z.testbit m k && negb (Z.testbit mask k).
Proof.
  rewrite uint16_testbit.
  destruct (Z.ltb_spec k 0) as [N|N].
  - rewrite !Z.testbit_neg_r by lia. now destruct (k <? 16).
  - rewrite Z.land_spec, Z.lnot_spec, uint16_testbit by lia.
    destruct (k <? 16), (Z.testbit m k), (Z.testbit mask k); reflexivity.
Qed.

Lemma uint16_range (z : Z) : 0 <= uint16 z < 2 ^ 16.
Proof. unfold uint16. apply Z.mod_pos_bound. lia. Qed.

Lemma shiftl_1_testbit (n k : Z) :
  0 <= n -> Z.testbit (Z.shiftl 1 n) k = (k =? n).
Proof.
  intros Hn. destruct (Z.ltb_spec k 0) as [N|N].
  - rewrite Z.testbit_neg_r by lia. symmetry. apply Z.eqb_neq. lia.
  - rewrite Z.shiftl_spec by lia.
    destruct (Z.eqb_spec k n) as [->|Hne].
    + now rewrite Z.sub_diag.
    + destruct (Z.ltb_spec k n) as [L|L].
      * apply Z.testbit_neg_r. lia.
      * apply Z.bits_above_log2; cbn; lia.
Qed.

(** [x & (1 << n)] is not zero exactly when bit [n] of [x] is set. *)
Lemma land_bit_test (x n : Z) :
  0 <= n -> negb (Z.land x (Z.shiftl 1 n) =? 0) = Z.testbit x n.
Proof.
  intros Hn.
  assert (E : Z.land x (Z.shiftl 1 n) = if Z.testbit x n then Z.shiftl 1 n else 0).
  { apply Z.bits_inj'. intros k Hk.
    rewrite Z.land_spec, shiftl_1_testbit by lia.
    destruct (Z.eqb_spec k n) as [->|Hne].
    - destruct (Z.testbit x n); cbn [andb].
      + rewrite shiftl_1_testbit by lia. symmetry. apply Z.eqb_refl.
      + now rewrite Z.bits_0.
    - rewrite andb_false_r. destruct (Z.testbit x n).
      + rewrite shiftl_1_testbit by lia. symmetry. now apply Z.eqb_neq.
      + now rewrite Z.bits_0. }
  rewrite E. destruct (Z.testbit x n); [|reflexivity].
  rewrite Z.shiftl_1_l.
  assert (0 < 2 ^ n) by (apply Z.pow_pos_nonneg; lia).
  replace (2 ^ n =? 0) with false by (symmetry; apply Z.eqb_neq; lia).
  reflexivity.
Qed.
End MaskAlgebra.

(** X12: [set_modifier_mask] and [unset_modifier_mask], the same code on
    the three platforms, in terms of the bits that [get_modifiers]
    returns: setting a mask turns on its low sixteen bits and leaves the
    others as they were, clearing a mask turns its bits off and leaves
    the others, and the mask always fits sixteen bits. *)
Theorem modifier_mask_bits (mask m k : Z) :
  0 <= m < 2 ^ 16 ->
  let spec (set unset : Z -> Z -> Z) (get : Z -> Z) :=
    Z.testbit (get (set mask m)) k = Z.testbit m k || ((k <? 16) && Z.testbit mask k) /\
    Z.testbit (get (unset mask m)) k = Z.testbit m k && negb (Z.testbit mask k) /\
    0 <= get (set mask m) < 2 ^ 16 /\ 0 <= get (unset mask m) < 2 ^ 16 in
  spec Windows.set_modifier_mask Windows.unset_modifier_mask Windows.get_modifiers /\
  spec Darwin.set_modifier_mask Darwin.unset_modifier_mask Darwin.get_modifiers /\
  spec X11.set_modifier_mask X11.unset_modifier_mask X11.get_modifiers.
Proof.
  intros Hm spec.
  assert (M : Z.testbit m k = (k <? 16) && Z.testbit m k).
  { rewrite <- uint16_testbit. unfold uint16. now rewrite Z.mod_small. }
  assert (S : spec (fun mask m => uint16 (Z.lor m (uint16 mask)))
                   (fun mask m => uint16 (Z.land m (Z.lnot (uint16 mask))))
                   (fun m => m)).
  { unfold spec. rewrite lor_mask_testbit, ldiff_mask_testbit.
    repeat split; try apply uint16_range.
    - rewrite M. destruct (k <? 16), (Z.testbit m k), (Z.testbit mask k); reflexivity.
    - rewrite M. destruct (k <? 16), (Z.testbit m k), (Z.testbit mask k); reflexivity. }
  repeat split; apply S.
Qed.

Lemma modifier_mask_bits_witness :
  let spec (set unset : Z -> Z -> Z) (get : Z -> Z) :=
    Z.testbit (get (set UIOHook.MASK_ALT 0x0101)) 7
    = Z.testbit 0x0101 7 || ((7 <? 16) && Z.testbit UIOHook.MASK_ALT 7) /\
    Z.testbit (get (unset UIOHook.MASK_ALT 0x0101)) 7
    = Z.testbit 0x0101 7 && negb (Z.testbit UIOHook.MASK_ALT 7) /\
    0 <= get (set UIOHook.MASK_ALT 0x0101) < 2 ^ 16 /\
    0 <= get (unset UIOHook.MASK_ALT 0x0101) < 2 ^ 16 in
  spec Windows.set_modifier_mask Windows.unset_modifier_mask Windows.get_modifiers /\
  spec Darwin.set_modifier_mask Darwin.unset_modifier_mask Darwin.get_modifiers /\
  spec X11.set_modifier_mask X11.unset_modifier_mask X11.get_modifiers.
Proof.
  apply (modifier_mask_bits UIOHook.MASK_ALT 0x0101 7). lia.
Defined.

(** ** x11/input_helper.c: the locks and the modifiers at the start *)

(** One of the three tests of [initialize_locks]. *)
Lemma x11_lock_step_bits (b : bool) (n m k : Z) :
  0 <= n ->
  Z.testbit (if b then X11.set_modifier_mask (Z.shiftl 1 n) m
             else X11.unset_modifier_mask (Z.shiftl 1 n) m) k
  = (k <? 16) && (if k =? n then b else Z.testbit m k).
Proof.
  intros Hn. unfold X11.set_modifier_mask, X11.unset_modifier_mask.
  destruct b; rewrite ?lor_mask_testbit, ?ldiff_mask_testbit, shiftl_1_testbit by lia;
    destruct (k <? 16), (k =? n), (Z.testbit m k); reflexivity.
Qed.

(** X13: [initialize_locks] copies the three indicator bits that the
    server reports to the lock bits of the mask (caps lock from bit 0,
    num lock from bit 1, scroll lock from bit 2) and leaves the
    thirteen bits below them as they were; when the server does not
    answer, the mask is not changed. *)
Theorem initialize_locks_bits (led_mask m : Z) :
  let r := X11.get_modifiers (X11.initialize_locks (Some led_mask) m) in
  Z.testbit r 14 = Z.testbit led_mask 0 /\
  Z.testbit r 13 = Z.testbit led_mask 1 /\
  Z.testbit r 15 = Z.testbit led_mask 2 /\
  (forall k, k < 13 -> Z.testbit r k = Z.testbit m k) /\
  X11.initialize_locks None m = m.
Proof.
  intros r. subst r. unfold X11.get_modifiers, X11.initialize_locks.
  change 0x01 with (Z.shiftl 1 0). change 0x02 with (Z.shiftl 1 1).
  change 0x04 with (Z.shiftl 1 2).
  rewrite !land_bit_test by lia.
  unfold UIOHook.MASK_SCROLL_LOCK, UIOHook.MASK_NUM_LOCK, UIOHook.MASK_CAPS_LOCK.
  repeat split.
  - rewrite !x11_lock_step_bits by lia. reflexivity.
  - rewrite !x11_lock_step_bits by lia. reflexivity.
  - rewrite !x11_lock_step_bits by lia. reflexivity.
  - intros k Hk. rewrite !x11_lock_step_bits by lia.
    replace (k <? 16) with true by (symmetry; apply Z.ltb_lt; lia).
    replace (k =? 15) with false by (symmetry; apply Z.eqb_neq; lia).
    replace (k =? 13) with false by (symmetry; apply Z.eqb_neq; lia).
    replace (k =? 14) with false by (symmetry; apply Z.eqb_neq; lia).
    reflexivity.
Qed.

Section InitializeModifiers.
Lemma x11_set_if_range (b : bool) (mask m : Z) :
  0 <= m < 2 ^ 16 -> 0 <= X11.set_if b mask m < 2 ^ 16.
Proof.
  intros Hm. unfold X11.set_if, X11.set_modifier_mask.
  destruct b; [apply uint16_range|exact Hm].
Qed.

Lemma x11_set_if_bits (b : bool) (n m k : Z) :
  0 <= n -> 0 <= m < 2 ^ 16 ->
  Z.testbit (X11.set_if b (Z.shiftl 1 n) m) k
  = Z.testbit m k || (b && (k <? 16) && (k =? n)).
Proof.
  intros Hn Hm.
  assert (M : Z.testbit m k = (k <? 16) && Z.testbit m k).
  { rewrite <- uint16_testbit. unfold uint16. now rewrite Z.mod_small. }
  unfold X11.set_if, X11.set_modifier_mask. destruct b.
  - rewrite lor_mask_testbit, shiftl_1_testbit, M by lia.
    destruct (k <? 16), (Z.testbit m k), (k =? n); reflexivity.
  - cbn [andb]. now rewrite orb_false_r.
Qed.

(** The two keys of a modifier, looked at only when the server reports
    the modifier. *)
Lemma x11_modifier_pair (h a b : bool) (M M' m : Z) :
  (if h then X11.set_if b M' (X11.set_if a M m) else m)
  = X11.set_if (h && b) M' (X11.set_if (h && a) M m).
Proof. destruct h; reflexivity. Qed.

(** The bits of the mask that [initialize_modifiers] computes. *)
Lemma x11_initialize_modifiers_testbit (q : X11.keyboard_query) (m k : Z) :
  Z.testbit (X11.initialize_modifiers q m) k
  = (k <? 16) &&
    ((modifier_reported q 0 && X11.key_is_down q X11.XK_Shift_L && (k =? 0))
     || (modifier_reported q 0 && X11.key_is_down q X11.XK_Shift_R && (k =? 4))
     || (modifier_reported q 2 && X11.key_is_down q X11.XK_Control_L && (k =? 1))
     || (modifier_reported q 2 && X11.key_is_down q X11.XK_Control_R && (k =? 5))
     || (modifier_reported q 3 && X11.key_is_down q X11.XK_Alt_L && (k =? 3))
     || (modifier_reported q 3 && X11.key_is_down q X11.XK_Alt_R && (k =? 7))
     || (modifier_reported q 6 && X11.key_is_down q X11.XK_Super_L && (k =? 2))
     || (modifier_reported q 6 && X11.key_is_down q X11.XK_Super_R && (k =? 6))
     || (button_reported q 8 && (k =? 8))
     || (button_reported q 9 && (k =? 9))
     || (button_reported q 10 && (k =? 10))
     || (button_reported q 11 && (k =? 11))
     || (button_reported q 12 && (k =? 12))).
Proof.
  unfold X11.initialize_modifiers, modifier_reported, button_reported.
  unfold X11.ShiftMask, X11.ControlMask, X11.Mod1Mask, X11.Mod4Mask,
    X11.Button1Mask, X11.Button2Mask, X11.Button3Mask, X11.Button4Mask,
    X11.Button5Mask.
  unfold UIOHook.MASK_SHIFT_L, UIOHook.MASK_SHIFT_R, UIOHook.MASK_CTRL_L,
    UIOHook.MASK_CTRL_R, UIOHook.MASK_ALT_L, UIOHook.MASK_ALT_R,
    UIOHook.MASK_META_L, UIOHook.MASK_META_R, UIOHook.MASK_BUTTON1,
    UIOHook.MASK_BUTTON2, UIOHook.MASK_BUTTON3, UIOHook.MASK_BUTTON4,
    UIOHook.MASK_BUTTON5.
  destruct (X11.XQueryPointer_mask q) as [mask|]; cbv zeta.
  - rewrite !land_bit_test by lia. rewrite !x11_modifier_pair.
    repeat (rewrite x11_set_if_bits;
            [|lia|repeat apply x11_set_if_range; lia]).
    rewrite Z.bits_0.
    generalize (X11.key_is_down q X11.XK_Shift_L) (X11.key_is_down q X11.XK_Shift_R)
      (X11.key_is_down q X11.XK_Control_L) (X11.key_is_down q X11.XK_Control_R)
      (X11.key_is_down q X11.XK_Alt_L) (X11.key_is_down q X11.XK_Alt_R)
      (X11.key_is_down q X11.XK_Super_L) (X11.key_is_down q X11.XK_Super_R).
    intros a1 a2 a3 a4 a5 a6 a7 a8.
    destruct (k <? 16); [|cbn [andb]; rewrite ?andb_false_r; reflexivity].
    cbn [andb]. rewrite ?andb_true_r. cbn [orb]. reflexivity.
  - repeat (rewrite x11_set_if_bits;
            [|lia|repeat apply x11_set_if_range; lia]).
    rewrite Z.bits_0.
    generalize (X11.key_is_down q X11.XK_Shift_L) (X11.key_is_down q X11.XK_Shift_R)
      (X11.key_is_down q X11.XK_Control_L) (X11.key_is_down q X11.XK_Control_R)
      (X11.key_is_down q X11.XK_Alt_L) (X11.key_is_down q X11.XK_Alt_R)
      (X11.key_is_down q X11.XK_Super_L) (X11.key_is_down q X11.XK_Super_R).
    intros a1 a2 a3 a4 a5 a6 a7 a8.
    destruct (k <? 16); [|cbn [andb]; rewrite ?andb_false_r; reflexivity].
    cbn [andb orb]. rewrite ?andb_true_r, ?orb_false_r. reflexivity.
Qed.
End InitializeModifiers.

(** X14: the mask that the X11 [initialize_modifiers] leaves.  Whatever
    the mask was, afterwards: the bit of each of the eight modifier keys
    is set exactly when the key is down in the key map and, if the
    pointer query succeeds, the server reports its modifier as active;
    the five button bits are those of the pointer mask, and clear if
    the pointer query fails; the three lock bits are clear. *)
Theorem x11_initialize_modifiers_bits (q : X11.keyboard_query) (m : Z) :
  let r := X11.get_modifiers (X11.initialize_modifiers q m) in
  Forall (fun '(bit, xbit, keysym) =>
            Z.testbit r bit = modifier_reported q xbit && X11.key_is_down q keysym)
         x11_modifier_keys /\
  (forall k, 8 <= k <= 12 -> Z.testbit r k = button_reported q k) /\
  (forall k, 13 <= k -> Z.testbit r k = false).
Proof.
  intros r. subst r. unfold X11.get_modifiers. repeat split.
  - unfold x11_modifier_keys.
    repeat (apply Forall_cons || apply Forall_nil);
      rewrite x11_initialize_modifiers_testbit;
      cbn [Z.ltb Z.eqb Z.compare Pos.compare Pos.compare_cont Pos.eqb andb orb];
      rewrite ?andb_false_r, ?andb_true_r, ?orb_false_r; cbn [orb]; reflexivity.
  - intros k Hk. rewrite x11_initialize_modifiers_testbit.
    assert (K : k = 8 \/ k = 9 \/ k = 10 \/ k = 11 \/ k = 12) by lia.
    destruct K as [-> | [-> | [-> | [-> | ->]]]];
      cbn [Z.ltb Z.eqb Z.compare Pos.compare Pos.compare_cont Pos.eqb andb orb];
      rewrite ?andb_false_r, ?andb_true_r, ?orb_false_r; cbn [orb]; reflexivity.
  - intros k Hk. rewrite x11_initialize_modifiers_testbit.
    repeat match goal with
           | |- context [k =? ?n] =>
               replace (k =? n) with false by (symmetry; apply Z.eqb_neq; lia)
           end.
    rewrite ?andb_false_r. cbn [orb]. rewrite ?andb_false_r. reflexivity.
Qed.

(** ** The modifiers when the hook starts, on Windows and on macOS *)

Section KeepsBits.
Variable k : Z.

Lemma lor_mask_keeps (mask m : Z) :
  k < 16 -> Z.testbit m k = true ->
  Z.testbit (uint16 (Z.lor m (uint16 mask))) k = true.
Proof.
  intros Hk H. rewrite lor_mask_testbit, H.
  replace (k <? 16) with true by (symmetry; apply Z.ltb_lt; lia). reflexivity.
Qed.

Lemma windows_set_if_down_keeps (GetKeyState : Z -> Z) (vk mask m : Z) :
  k < 16 -> Z.testbit m k = true ->
  Z.testbit (Windows.set_if_down GetKeyState vk mask m) k = true.
Proof.
  intros Hk H. unfold Windows.set_if_down.
  destruct (GetKeyState vk <? 0); [now apply lor_mask_keeps|exact H].
Qed.

Lemma darwin_set_if_keeps (b : bool) (mask m : Z) :
  k < 16 -> Z.testbit m k = true ->
  Z.testbit (Darwin.set_if b mask m) k = true.
Proof.
  intros Hk H. unfold Darwin.set_if.
  destruct b; [now apply lor_mask_keeps|exact H].
Qed.

Lemma darwin_unset_keeps (n m : Z) :
  0 <= n -> k < 16 -> k <> n -> Z.testbit m k = true ->
  Z.testbit (Darwin.unset_modifier_mask (Z.shiftl 1 n) m) k = true.
Proof.
  intros Hn Hk Hne H. unfold Darwin.unset_modifier_mask.
  rewrite ldiff_mask_testbit, shiftl_1_testbit, H by lia.
  replace (k <? 16) with true by (symmetry; apply Z.ltb_lt; lia).
  replace (k =? n) with false by (symmetry; now apply Z.eqb_neq).
  reflexivity.
Qed.
End KeepsBits.

(** X15: on Windows and on macOS [initialize_modifiers] does not start
    from an empty mask.  On Windows the function resets
    [current_modifiers], a variable of its own file, and then only sets
    bits of the mask that [get_modifiers] returns; on macOS it only
    sets bits and clears the num-lock and scroll-lock bits.  So a bit
    that is set when the hook starts, say of a key released while no
    hook was running, is still set afterwards.  The X11 function
    starts from zero: its result does not depend on the old mask. *)
Theorem initialize_modifiers_keeps_bits
  (GetKeyState : Z -> Z) (keyboard mouse : bool) (current_modifiers : Z)
  (s : Darwin.source_state) (q : X11.keyboard_query) (m k : Z) :
  k < 16 -> Z.testbit m k = true ->
  Z.testbit (Windows.get_modifiers
               (snd (Windows.initialize_modifiers GetKeyState keyboard mouse
                       current_modifiers m))) k = true /\
  (k <> 13 -> k <> 15 ->
   Z.testbit (Darwin.get_modifiers (Darwin.initialize_modifiers s m)) k = true) /\
  X11.initialize_modifiers q m = X11.initialize_modifiers q 0.
Proof.
  intros Hk H. repeat split.
  - unfold Windows.get_modifiers, Windows.initialize_modifiers. cbn [snd].
    destruct keyboard, mouse;
      repeat apply windows_set_if_down_keeps; assumption.
  - intros N13 N15. unfold Darwin.get_modifiers, Darwin.initialize_modifiers.
    unfold UIOHook.MASK_SCROLL_LOCK, UIOHook.MASK_NUM_LOCK.
    apply darwin_unset_keeps; [lia|assumption|assumption|].
    apply darwin_unset_keeps; [lia|assumption|assumption|].
    repeat apply darwin_set_if_keeps; assumption.
Qed.

(** The bit of the left shift key, set before the hook starts, with no
    key down. *)
Lemma initialize_modifiers_keeps_bits_witness :
  Z.testbit (Windows.get_modifiers
               (snd (Windows.initialize_modifiers (fun _ => 0) true true 0
                       UIOHook.MASK_SHIFT_L))) 0 = true /\
  (0 <> 13 -> 0 <> 15 ->
   Z.testbit (Darwin.get_modifiers
                (Darwin.initialize_modifiers
                   {| Darwin.CGEventSourceKeyState := fun _ => false;
                      Darwin.CGEventSourceButtonState := fun _ => false;
                      Darwin.CGEventSourceFlagsState := 0 |}
                   UIOHook.MASK_SHIFT_L)) 0 = true) /\
  X11.initialize_modifiers
    {| X11.XQueryKeymap := fun _ => 0; X11.XKeysymToKeycode := fun _ => 0;
       X11.XQueryPointer_mask := Some 0 |} UIOHook.MASK_SHIFT_L
  = X11.initialize_modifiers
      {| X11.XQueryKeymap := fun _ => 0; X11.XKeysymToKeycode := fun _ => 0;
         X11.XQueryPointer_mask := Some 0 |} 0.
Proof.
  apply (initialize_modifiers_keeps_bits (fun _ => 0) true true 0
           {| Darwin.CGEventSourceKeyState := fun _ => false;
              Darwin.CGEventSourceButtonState := fun _ => false;
              Darwin.CGEventSourceFlagsState := 0 |}
           {| X11.XQueryKeymap := fun _ => 0; X11.XKeysymToKeycode := fun _ => 0;
              X11.XQueryPointer_mask := Some 0 |}
           UIOHook.MASK_SHIFT_L 0).
  - lia.
  - reflexivity.
Defined.

(** ** Posting pointer events *)

Section MonitorCache.
Lemma get_largest_negative_coordinates_again
  (monitors : list (option Windows.RECT)) (st : Windows.monitor_state) :
  Windows.get_largest_negative_coordinates monitors
    (snd (Windows.get_largest_negative_coordinates monitors st))
  = Windows.get_largest_negative_coordinates monitors st.
Proof.
  unfold Windows.get_largest_negative_coordinates.
  destruct (Windows.monitors_enumerated st) eqn:E; cbn [snd]; [now rewrite E|].
  reflexivity.
Qed.

Lemma normalize_coordinates_again (e : Windows.env) (x y x' y' : Z)
  (st : Windows.monitor_state) :
  Windows.normalize_coordinates e x' y' (snd (Windows.normalize_coordinates e x y st))
  = (fst (Windows.normalize_coordinates e x' y' st),
     snd (Windows.normalize_coordinates e x y st)).
Proof.
  unfold Windows.normalize_coordinates.
  pose proof (get_largest_negative_coordinates_again (Windows.monitors e) st) as A.
  destruct (Windows.get_largest_negative_coordinates (Windows.monitors e) st)
    as [lnc st1].
  cbn [snd] in *. rewrite A. reflexivity.
Qed.
End MonitorCache.

(** X16: a button event with coordinates is the move followed by the
    same event without coordinates.  On X11 and on Windows, posting
    [EVENT_MOUSE_PRESSED] or [EVENT_MOUSE_RELEASED] sends what posting
    [EVENT_MOUSE_MOVED] to the same position sends, then what the
    [IGNORE_COORDS] event of the same button sends, and returns the
    status of the latter: the result of the move is not reported.  On
    X11 this holds for every button number, so the pointer is moved
    even when the button is refused. *)
Theorem button_event_is_move_then_button
  (ex : X11.env) (xs : X11.state) (ew : Windows.env) (ws : Windows.monitor_state)
  (ev : UIOHook.uiohook_event) (pressed : bool) :
  let with_coords := if pressed then UIOHook.EVENT_MOUSE_PRESSED
                     else UIOHook.EVENT_MOUSE_RELEASED in
  let ignore_coords := if pressed then UIOHook.EVENT_MOUSE_PRESSED_IGNORE_COORDS
                       else UIOHook.EVENT_MOUSE_RELEASED_IGNORE_COORDS in
  let moved := Windows.with_type UIOHook.EVENT_MOUSE_MOVED ev in
  X11.helper_disp ex = true ->
  Windows.calloc ew = true ->
  UIOHook.button (UIOHook.mouse ev) <> UIOHook.MOUSE_NOBUTTON ->
  (let '(_, xs1, move) := X11.hook_post_event ex moved xs in
   let '(status, xs2, calls) :=
     X11.hook_post_event ex (Windows.with_type ignore_coords ev) xs1 in
   X11.hook_post_event ex (Windows.with_type with_coords ev) xs
   = (status, xs2, move ++ calls)) /\
  (let '(_, ws1, move) := Windows.hook_post_event ew moved ws in
   let '(status, ws2, inputs) :=
     Windows.hook_post_event ew (Windows.with_type ignore_coords ev) ws1 in
   Windows.hook_post_event ew (Windows.with_type with_coords ev) ws
   = (status, ws2, move ++ inputs)).
Proof.
  intros with_coords ignore_coords moved Hd Hc Hb. split.
  - subst with_coords ignore_coords moved.
    unfold X11.hook_post_event. rewrite Hd. cbn [negb].
    destruct pressed; cbn [Windows.with_type UIOHook.type];
      unfold X11.post_mouse_motion_event, X11.post_mouse_button_event;
      cbn [Windows.with_type UIOHook.type UIOHook.mouse];
      destruct (negb (X11.XTestFakeMotionEvent ex _ _ =? 0));
      destruct (_ || _); try reflexivity;
      destruct (negb (X11.XTestFakeButtonEvent ex _ _ =? 0)); reflexivity.
  - subst with_coords ignore_coords moved.
    unfold Windows.hook_post_event, Windows.hook_post_move,
      Windows.hook_post_event_with.
    rewrite Hc. cbn [negb].
    apply Z.eqb_neq in Hb.
    destruct pressed; cbn [Windows.with_type UIOHook.type];
      unfold Windows.map_mouse_event;
      cbn [Windows.with_type UIOHook.type UIOHook.mouse];
      rewrite Hb;
      destruct (Windows.normalize_coordinates ew _ _ ws) as [nc ws1] eqn:N;
      change (UIOHook.UIOHOOK_SUCCESS =? UIOHook.UIOHOOK_SUCCESS) with true;
      cbv iota;
      pose proof (normalize_coordinates_again ew
                    (UIOHook.mouse_x (UIOHook.mouse ev))
                    (UIOHook.mouse_y (UIOHook.mouse ev))
                    (UIOHook.mouse_x (UIOHook.mouse ev))
                    (UIOHook.mouse_y (UIOHook.mouse ev)) ws) as A;
      rewrite N in A; cbn [fst snd] in A;
      repeat (rewrite ?A; cbv beta iota zeta;
              change (UIOHook.UIOHOOK_SUCCESS =? UIOHook.UIOHOOK_SUCCESS) with true;
              match goal with
              | |- context [Windows.SendInput ew ?i =? 0] =>
                  destruct (Windows.SendInput ew i =? 0)
              end);
      reflexivity.
Qed.

(** A press of the left button at (10, 20). *)
Lemma button_event_is_move_then_button_witness :
  let ev := pointer_event UIOHook.EVENT_MOUSE_PRESSED UIOHook.MOUSE_BUTTON1 10 20 in
  let moved := Windows.with_type UIOHook.EVENT_MOUSE_MOVED ev in
  let ignore_coords := Windows.with_type UIOHook.EVENT_MOUSE_PRESSED_IGNORE_COORDS ev in
  let with_coords := Windows.with_type UIOHook.EVENT_MOUSE_PRESSED ev in
  (let '(_, xs1, move) := X11.hook_post_event x_server moved X11.initial_state in
   let '(status, xs2, calls) := X11.hook_post_event x_server ignore_coords xs1 in
   X11.hook_post_event x_server with_coords X11.initial_state
   = (status, xs2, move ++ calls)) /\
  (let '(_, ws1, move) :=
     Windows.hook_post_event two_monitor_desktop moved Windows.initial_monitor_state in
   let '(status, ws2, inputs) :=
     Windows.hook_post_event two_monitor_desktop ignore_coords ws1 in
   Windows.hook_post_event two_monitor_desktop with_coords Windows.initial_monitor_state
   = (status, ws2, move ++ inputs)).
Proof.
  apply (button_event_is_move_then_button x_server X11.initial_state
           two_monitor_desktop Windows.initial_monitor_state
           (pointer_event UIOHook.EVENT_MOUSE_PRESSED UIOHook.MOUSE_BUTTON1 10 20)
           true).
  - reflexivity.
  - reflexivity.
  - vm_compute. discriminate.
Defined.

(** ** windows/post_event.c: the keyboard input *)

Lemma mask_and_MASK_ALT_nonzero (mask : Z) :
  (Windows.mask_and_MASK_ALT mask =? 0) = false.
Proof.
  apply Z.eqb_neq. unfold Windows.mask_and_MASK_ALT. intros H.
  apply Z.lor_eq_0_iff in H as [_ H]. discriminate H.
Qed.

(** X17: the key input that Windows is sent.  For a key press or release
    whose virtual code has the native code [vk], [map_keyboard_event]
    succeeds with [wVk = vk] and the scan code of [MapVirtualKeyW], and
    in [dwFlags]: the bit of [KEYEVENTF_KEYUP] is set exactly for a
    release, the bit of [KEYEVENTF_EXTENDEDKEY] exactly when the scan
    code has a high byte, and the bit of [KF_ALTDOWN] is set always,
    whatever the mask of the event: [MASK_ALT] is defined without
    parentheses, so the test [event->mask & MASK_ALT] is never zero. *)
Theorem windows_key_event_flags
  (e : Windows.env) (ev : UIOHook.uiohook_event) (pressed : bool) (vk : Z) :
  UIOHook.type ev = key_type pressed ->
  Windows.vcode_to_keycode (UIOHook.keycode (UIOHook.keyboard ev)) = vk ->
  0 < vk < 2 ^ 16 ->
  let scan := uint16 (Windows.MapVirtualKeyW e vk Windows.MAPVK_VK_TO_VSC_EX) in
  exists flags,
    Windows.map_keyboard_event e ev
    = (UIOHook.UIOHOOK_SUCCESS,
       {| Windows.wVk := vk; Windows.wScan := scan; Windows.ki_dwFlags := flags |}) /\
    Z.testbit flags 1 = negb pressed /\
    Z.testbit flags 0 = negb (Windows.HIBYTE scan =? 0) /\
    Z.land flags Windows.KF_ALTDOWN = Windows.KF_ALTDOWN.
Proof.
  intros Ht Hv Hvk scan. unfold Windows.map_keyboard_event.
  rewrite Ht, Hv, mask_and_MASK_ALT_nonzero.
  assert (E : uint16 vk = vk) by (unfold uint16; apply Z.mod_small; lia).
  rewrite E.
  replace (vk =? 0) with false by (symmetry; apply Z.eqb_neq; lia).
  fold scan.
  destruct pressed; cbn [key_type]; destruct (Windows.HIBYTE scan =? 0);
    eexists; (split; [reflexivity|repeat split]).
Qed.

(** The release of [VC_A]. *)
Lemma windows_key_event_flags_witness :
  let scan := uint16 (Windows.MapVirtualKeyW two_monitor_desktop 0x41
                        Windows.MAPVK_VK_TO_VSC_EX) in
  exists flags,
    Windows.map_keyboard_event two_monitor_desktop
      (key_event UIOHook.EVENT_KEY_RELEASED UIOHook.VC_A)
    = (UIOHook.UIOHOOK_SUCCESS,
       {| Windows.wVk := 0x41; Windows.wScan := scan; Windows.ki_dwFlags := flags |}) /\
    Z.testbit flags 1 = negb false /\
    Z.testbit flags 0 = negb (Windows.HIBYTE scan =? 0) /\
    Z.land flags Windows.KF_ALTDOWN = Windows.KF_ALTDOWN.
Proof.
  apply (windows_key_event_flags two_monitor_desktop
           (key_event UIOHook.EVENT_KEY_RELEASED UIOHook.VC_A) false 0x41).
  - reflexivity.
  - vm_compute. reflexivity.
  - lia.
Defined.

(** ** windows/input_helper.c: a posted key, captured again *)

Section PostCapture.
Lemma vcode_to_keycode_defined (v : Z) :
  Windows.vcode_to_keycode v <> 0 ->
  In v (map fst Windows.vcode_keycode_table).
Proof.
  unfold Windows.vcode_to_keycode.
  destruct (find _ _) as [r|] eqn:F; [|intros H; now elim H].
  intros _. apply find_row in F as [Hin Heq].
  apply Z.eqb_eq in Heq. subst v. now apply in_map.
Qed.

Lemma windows_post_capture_table (ext : bool) :
  forallb (windows_post_capture_ok ext) (map fst Windows.vcode_keycode_table) = true.
Proof. destruct ext; vm_compute; reflexivity. Qed.
End PostCapture.

(** X18: a key is captured as it was posted, with three exceptions.  For
    a virtual code [v] that has a Windows key code, looking that key
    code up again under the flags of the captured event gives [v],
    unless [v] is [VC_HANGUL] or [VC_KANJI], which share their key code
    with [VC_KANA] and [VC_HANJA], or [v] is the one of [VC_ENTER] and
    [VC_KP_ENTER] that the extended-key flag excludes. *)
Theorem windows_posted_key_captured (v flags : Z) :
  Windows.vcode_to_keycode v <> 0 ->
  ~ In v (windows_capture_exceptions (Z.testbit flags 0)) ->
  Windows.keycode_to_vcode (Windows.vcode_to_keycode v) flags = v.
Proof.
  intros Hn Hex.
  pose proof (windows_post_capture_table (Z.testbit flags 0)) as T.
  rewrite forallb_forall in T.
  specialize (T v (vcode_to_keycode_defined v Hn)).
  unfold windows_post_capture_ok in T.
  apply orb_prop in T as [T|T].
  - rewrite keycode_to_vcode_bit0. now apply Z.eqb_eq.
  - apply existsb_exists in T as (x & Hx & E).
    apply Z.eqb_eq in E. subst x. contradiction.
Qed.

Lemma windows_posted_key_captured_witness :
  Windows.keycode_to_vcode (Windows.vcode_to_keycode UIOHook.VC_SHIFT_R) 0
  = UIOHook.VC_SHIFT_R.
Proof.
  apply (windows_posted_key_captured UIOHook.VC_SHIFT_R 0).
  - vm_compute. discriminate.
  - vm_compute. intros [H|[H|[H|H]]]; try discriminate H. exact H.
Defined.

(** What the three exceptions are captured as. *)
Example windows_posted_key_exceptions :
  Windows.keycode_to_vcode (Windows.vcode_to_keycode UIOHook.VC_HANGUL) 0
  = UIOHook.VC_KANA /\
  Windows.keycode_to_vcode (Windows.vcode_to_keycode UIOHook.VC_KANJI) 0
  = UIOHook.VC_HANJA /\
  Windows.keycode_to_vcode (Windows.vcode_to_keycode UIOHook.VC_KP_ENTER) 0
  = UIOHook.VC_ENTER /\
  Windows.keycode_to_vcode (Windows.vcode_to_keycode UIOHook.VC_ENTER) 1
  = UIOHook.VC_KP_ENTER.
Proof. repeat split. Qed.

(** ** windows/monitor_helper.c *)

Section Monitors.
Lemma enum_monitor_proc_left (rc0 : Windows.RECT) (s : Windows.monitor_state) :
  let s1 := Windows.enum_monitor_proc (Some rc0) s in
  Windows.left s1 <= Windows.left s /\ Windows.left s1 <= Windows.rc_left rc0 /\
  (Windows.left s1 = Windows.left s \/ Windows.left s1 = Windows.rc_left rc0).
Proof.
  cbn. destruct (Z.ltb_spec (Windows.rc_left rc0) (Windows.left s)); lia.
Qed.

Lemma enum_monitor_proc_top (rc0 : Windows.RECT) (s : Windows.monitor_state) :
  let s1 := Windows.enum_monitor_proc (Some rc0) s in
  Windows.top s1 <= Windows.top s /\ Windows.top s1 <= Windows.rc_top rc0 /\
  (Windows.top s1 = Windows.top s \/ Windows.top s1 = Windows.rc_top rc0).
Proof.
  cbn. destruct (Z.ltb_spec (Windows.rc_top rc0) (Windows.top s)); lia.
Qed.

(** The callbacks of one enumeration compute a minimum. *)
Lemma enum_monitors_left (monitors : list (option Windows.RECT)) :
  forall s : Windows.monitor_state,
    let s' := fold_left (fun s m => Windows.enum_monitor_proc m s) monitors s in
    Windows.left s' <= Windows.left s /\
    (forall rc, In rc (monitor_rects monitors) -> Windows.left s' <= Windows.rc_left rc) /\
    (Windows.left s' = Windows.left s \/
     exists rc, In rc (monitor_rects monitors) /\ Windows.left s' = Windows.rc_left rc).
Proof.
  induction monitors as [|m monitors IH]; intros s; cbn [fold_left].
  - cbn. split; [lia|]. split; [intros rc []|now left].
  - destruct (IH (Windows.enum_monitor_proc m s)) as (L1 & L2 & L3).
    destruct m as [rc0|].
    + destruct (enum_monitor_proc_left rc0 s) as (P1 & P2 & P3).
      cbv zeta. cbn [monitor_rects flat_map app]. fold (monitor_rects monitors).
      split; [lia|]. split.
      * intros rc [<-|Hrc]; [lia|now apply L2].
      * destruct L3 as [L3|(rc & Hrc & L3)].
        -- destruct P3 as [P3|P3]; [left; lia|].
           right. exists rc0. split; [now left|lia].
        -- right. exists rc. split; [now right|exact L3].
    + cbv zeta. cbn [monitor_rects flat_map app]. fold (monitor_rects monitors).
      repeat split; assumption.
Qed.

Lemma enum_monitors_top (monitors : list (option Windows.RECT)) :
  forall s : Windows.monitor_state,
    let s' := fold_left (fun s m => Windows.enum_monitor_proc m s) monitors s in
    Windows.top s' <= Windows.top s /\
    (forall rc, In rc (monitor_rects monitors) -> Windows.top s' <= Windows.rc_top rc) /\
    (Windows.top s' = Windows.top s \/
     exists rc, In rc (monitor_rects monitors) /\ Windows.top s' = Windows.rc_top rc).
Proof.
  induction monitors as [|m monitors IH]; intros s; cbn [fold_left].
  - cbn. split; [lia|]. split; [intros rc []|now left].
  - destruct (IH (Windows.enum_monitor_proc m s)) as (L1 & L2 & L3).
    destruct m as [rc0|].
    + destruct (enum_monitor_proc_top rc0 s) as (P1 & P2 & P3).
      cbv zeta. cbn [monitor_rects flat_map app]. fold (monitor_rects monitors).
      split; [lia|]. split.
      * intros rc [<-|Hrc]; [lia|now apply L2].
      * destruct L3 as [L3|(rc & Hrc & L3)].
        -- destruct P3 as [P3|P3]; [left; lia|].
           right. exists rc0. split; [now left|lia].
        -- right. exists rc. split; [now right|exact L3].
    + cbv zeta. cbn [monitor_rects flat_map app]. fold (monitor_rects monitors).
      repeat split; assumption.
Qed.

(** The flag [monitors_enumerated] has no part in the enumeration. *)
Lemma enum_monitors_flag (monitors : list (option Windows.RECT)) :
  forall s s' : Windows.monitor_state,
    Windows.left s = Windows.left s' -> Windows.top s = Windows.top s' ->
    Windows.left (fold_left (fun s m => Windows.enum_monitor_proc m s) monitors s)
    = Windows.left (fold_left (fun s m => Windows.enum_monitor_proc m s) monitors s') /\
    Windows.top (fold_left (fun s m => Windows.enum_monitor_proc m s) monitors s)
    = Windows.top (fold_left (fun s m => Windows.enum_monitor_proc m s) monitors s').
Proof.
  induction monitors as [|m monitors IH]; intros s s' Hl Ht; cbn [fold_left].
  - now split.
  - apply IH; destruct m as [rc|]; cbn; rewrite ?Hl, ?Ht; (reflexivity || assumption).
Qed.
End Monitors.

(** X19: the offsets of the virtual screen.  The first call of
    [get_largest_negative_coordinates] enumerates the monitors: its
    [left] is the least left edge of the monitors, or 0 when no monitor
    lies left of the origin, and likewise its [top].  The values are
    then kept: later calls return them again whatever the monitors have
    become, until [enumerate_displays] is run. *)
Theorem largest_negative_coordinates_spec
  (monitors : list (option Windows.RECT)) (st : Windows.monitor_state) :
  Windows.monitors_enumerated st = false ->
  let r := Windows.get_largest_negative_coordinates monitors st in
  let l := fst (fst r) in
  let t := snd (fst r) in
  (l <= 0 /\
   (forall rc, In rc (monitor_rects monitors) -> l <= Windows.rc_left rc) /\
   (l = 0 \/ exists rc, In rc (monitor_rects monitors) /\ l = Windows.rc_left rc)) /\
  (t <= 0 /\
   (forall rc, In rc (monitor_rects monitors) -> t <= Windows.rc_top rc) /\
   (t = 0 \/ exists rc, In rc (monitor_rects monitors) /\ t = Windows.rc_top rc)) /\
  (forall monitors',
     Windows.get_largest_negative_coordinates monitors' (snd r) = ((l, t), snd r)) /\
  (forall monitors',
     fst (Windows.get_largest_negative_coordinates monitors'
            (Windows.enumerate_displays monitors' (snd r)))
     = fst (Windows.get_largest_negative_coordinates monitors'
              Windows.initial_monitor_state)).
Proof.
  intros Hs r l t. subst l t r.
  unfold Windows.get_largest_negative_coordinates. rewrite Hs.
  cbn [fst snd Windows.enumerate_displays Windows.monitors_enumerated
       Windows.left Windows.top Windows.initial_monitor_state].
  match goal with
  | |- context [fold_left _ monitors ?s] =>
      pose proof (enum_monitors_left monitors s) as L;
      pose proof (enum_monitors_top monitors s) as T
  end.
  cbv zeta in L, T. cbn [Windows.left Windows.top] in L, T.
  split; [exact L|]. split; [exact T|]. split; [reflexivity|].
  intros monitors'.
  destruct (enum_monitors_flag monitors'
              {| Windows.monitors_enumerated := true;
                 Windows.left := 0; Windows.top := 0 |}
              {| Windows.monitors_enumerated := false;
                 Windows.left := 0; Windows.top := 0 |} eq_refl eq_refl) as [E1 E2].
  cbn [Windows.monitors_enumerated]. now rewrite E1, E2.
Qed.

Lemma largest_negative_coordinates_spec_witness :
  let monitors := Windows.monitors two_monitor_desktop in
  let r := Windows.get_largest_negative_coordinates monitors
             Windows.initial_monitor_state in
  let l := fst (fst r) in
  let t := snd (fst r) in
  (l <= 0 /\
   (forall rc, In rc (monitor_rects monitors) -> l <= Windows.rc_left rc) /\
   (l = 0 \/ exists rc, In rc (monitor_rects monitors) /\ l = Windows.rc_left rc)) /\
  (t <= 0 /\
   (forall rc, In rc (monitor_rects monitors) -> t <= Windows.rc_top rc) /\
   (t = 0 \/ exists rc, In rc (monitor_rects monitors) /\ t = Windows.rc_top rc)) /\
  (forall monitors',
     Windows.get_largest_negative_coordinates monitors' (snd r) = ((l, t), snd r)) /\
  (forall monitors',
     fst (Windows.get_largest_negative_coordinates monitors'
            (Windows.enumerate_displays monitors' (snd r)))
     = fst (Windows.get_largest_negative_coordinates monitors'
              Windows.initial_monitor_state)).
Proof.
  apply (largest_negative_coordinates_spec (Windows.monitors two_monitor_desktop)
           Windows.initial_monitor_state).
  reflexivity.
Defined.

(** ** windows/post_event.c: the coordinates handed to Windows *)

Section Normalize.
Lemma int32_small (z : Z) : - 2 ^ 31 <= z < 2 ^ 31 -> Windows.int32 z = z.
Proof. intros H. unfold Windows.int32. rewrite Z.mod_small; lia. Qed.

(** Inside the screen [MulDiv] is a division rounded to the nearest. *)
Lemma get_absolute_coordinate_value (v w : Z) :
  0 < w < 2 ^ 16 -> 0 <= v <= w ->
  Windows.get_absolute_coordinate v w = (v * 65535 + w / 2) / w /\
  0 <= (v * 65535 + w / 2) / w <= 65535.
Proof.
  intros Hw Hv.
  assert (H2 : 0 <= w / 2 < w) by (split; [apply Z.div_pos; lia|apply Z.div_lt; lia]).
  assert (R : 0 <= (v * 65535 + w / 2) / w <= 65535).
  { split; [apply Z.div_pos; nia|].
    apply Z.lt_succ_r. apply Z.div_lt_upper_bound; nia. }
  split; [|exact R].
  unfold Windows.get_absolute_coordinate, Windows.MulDiv, Windows.MAX_WINDOWS_COORD_VALUE.
  rewrite int32_small by lia.
  change (Z.shiftl 1 16 - 1) with 65535.
  replace (w =? 0) with false by (symmetry; apply Z.eqb_neq; lia).
  rewrite (Z.abs_eq w) by lia. rewrite (Z.abs_eq (v * 65535)) by lia.
  rewrite (Z.sgn_pos w) by lia.
  destruct (Z.eq_dec v 0) as [->|Hv0].
  - cbn [Z.mul Z.sgn Z.add]. rewrite (Z.div_small (w / 2) w) by lia. reflexivity.
  - rewrite (Z.sgn_pos (v * 65535)) by lia.
    rewrite !Z.mul_1_l.
    replace (_ || _) with false; [reflexivity|].
    symmetry. apply orb_false_iff. split; [apply Z.ltb_ge|apply Z.ltb_ge]; lia.
Qed.

Lemma rounded_division (a w : Z) :
  0 < w -> 2 * Z.abs ((a + w / 2) / w * w - a) <= w.
Proof.
  intros Hw.
  pose proof (Z.div_mod (a + w / 2) w ltac:(lia)) as D.
  pose proof (Z.mod_pos_bound (a + w / 2) w Hw) as M.
  pose proof (Z.div_mod w 2 ltac:(lia)) as D2.
  pose proof (Z.mod_pos_bound w 2 ltac:(lia)) as M2.
  lia.
Qed.
End Normalize.

(** X20: the coordinates of a point inside the virtual screen.  With a
    virtual screen of [w] by [h] pixels, both below 65536, and a point
    whose distance from the left and top edge of the desktop is between
    0 and [w] and between 0 and [h], [normalize_coordinates] returns
    values between 0 and 65535, each the position scaled by 65535 over
    the size and rounded to the nearest integer, and a point further
    right is not given a smaller value. *)
Theorem normalized_coordinates_in_range
  (e : Windows.env) (x y : Z) (st : Windows.monitor_state) :
  let w := Windows.SM_CXVIRTUALSCREEN e in
  let h := Windows.SM_CYVIRTUALSCREEN e in
  let lnc := fst (Windows.get_largest_negative_coordinates (Windows.monitors e) st) in
  let px := x + Z.abs (fst lnc) in
  let py := y + Z.abs (snd lnc) in
  0 < w < 2 ^ 16 -> 0 < h < 2 ^ 16 -> 0 <= px <= w -> 0 <= py <= h ->
  let nc := fst (Windows.normalize_coordinates e x y st) in
  0 <= fst nc <= 65535 /\ 0 <= snd nc <= 65535 /\
  2 * Z.abs (fst nc * w - px * 65535) <= w /\
  2 * Z.abs (snd nc * h - py * 65535) <= h /\
  (forall x', x <= x' -> x' + Z.abs (fst lnc) <= w ->
     fst nc <= fst (fst (Windows.normalize_coordinates e x' y st))).
Proof.
  intros w h lnc px py Hw Hh Hx Hy nc. subst nc px py lnc.
  unfold Windows.normalize_coordinates.
  destruct (Windows.get_largest_negative_coordinates (Windows.monitors e) st)
    as [[l t] st'].
  cbn [fst snd] in *.
  assert (Ew : uint16 (Windows.SM_CXVIRTUALSCREEN e) = w)
    by (unfold uint16; apply Z.mod_small; subst w; lia).
  assert (Eh : uint16 (Windows.SM_CYVIRTUALSCREEN e) = h)
    by (unfold uint16; apply Z.mod_small; subst h; lia).
  rewrite Ew, Eh.
  rewrite (int32_small (x + Z.abs l)), (int32_small (y + Z.abs t)) by lia.
  destruct (get_absolute_coordinate_value (x + Z.abs l) w Hw Hx) as [Vx Rx].
  destruct (get_absolute_coordinate_value (y + Z.abs t) h Hh Hy) as [Vy Ry].
  rewrite Vx, Vy.
  split; [exact Rx|]. split; [exact Ry|].
  split; [apply rounded_division; lia|]. split; [apply rounded_division; lia|].
  intros x' Hx' Hw'.
  rewrite (int32_small (x' + Z.abs l)) by lia.
  destruct (get_absolute_coordinate_value (x' + Z.abs l) w Hw ltac:(lia)) as [Vx' _].
  rewrite Vx'. apply Z.div_le_mono; nia.
Qed.

(** The middle of the right monitor of the two-monitor desktop. *)
Lemma normalized_coordinates_in_range_witness :
  let nc := fst (Windows.normalize_coordinates two_monitor_desktop 960 540
                   Windows.initial_monitor_state) in
  0 <= fst nc <= 65535 /\ 0 <= snd nc <= 65535 /\
  2 * Z.abs (fst nc * 3840 - (960 + Z.abs (-1920)) * 65535) <= 3840 /\
  2 * Z.abs (snd nc * 1080 - (540 + Z.abs 0) * 65535) <= 1080 /\
  (forall x', 960 <= x' -> x' + Z.abs (-1920) <= 3840 ->
     fst nc <= fst (fst (Windows.normalize_coordinates two_monitor_desktop x' 540
                           Windows.initial_monitor_state))).
Proof.
  apply (normalized_coordinates_in_range two_monitor_desktop 960 540
           Windows.initial_monitor_state); cbn; lia.
Defined.

(** A virtual screen of 65536 pixels is taken for one of width 0, and
    every position is then given the value -1. *)
Example normalized_dx_wide_screen :
  forall x, Windows.get_absolute_coordinate x (uint16 65536) = -1.
Proof. intros x. reflexivity. Qed.

(** ** windows/input_hook.c: the mouse hook and the mask *)

(** The five buttons that Windows names. *)
Lemma mouse_hook_known_buttons_witness :
  let dispatch := fun (_ : Windows.dispatch_call) (_ : Z) => false in
  let st := {| Windows.modifier_mask := 0; Windows.dispatched := [] |} in
  let pressed :=
    snd (Windows.mouse_hook_event_proc dispatch 0 0 Windows.WM_XBUTTONDOWN
           0x00020000 st) in
  let released :=
    snd (Windows.mouse_hook_event_proc dispatch 0 0 Windows.WM_XBUTTONUP
           0x00020000 pressed) in
  Z.testbit (Windows.get_modifiers (Windows.modifier_mask pressed)) (7 + 5) = true /\
  Z.testbit (Windows.get_modifiers (Windows.modifier_mask released)) (7 + 5) = false.
Proof.
  apply (mouse_hook_known_buttons (fun _ _ => false) 0 0
           {| Windows.modifier_mask := 0; Windows.dispatched := [] |}
           Windows.WM_XBUTTONDOWN Windows.WM_XBUTTONUP 0x00020000 5).
  cbn. tauto.
Defined.

Section OtherBits.
Variables m k : Z.
Hypothesis m_range : 0 <= m < 2 ^ 16.

Lemma mask_bit_range : Z.testbit m k = (k <? 16) && Z.testbit m k.
Proof. rewrite <- uint16_testbit. unfold uint16. now rewrite Z.mod_small. Qed.

Lemma windows_set_other_bit (n : Z) :
  0 <= n -> k <> n ->
  Z.testbit (Windows.set_modifier_mask (Z.shiftl 1 n) m) k = Z.testbit m k.
Proof.
  intros Hn Hk. unfold Windows.set_modifier_mask.
  rewrite lor_mask_testbit, shiftl_1_testbit by lia.
  replace (k =? n) with false by (symmetry; now apply Z.eqb_neq).
  rewrite orb_false_r. symmetry. apply mask_bit_range.
Qed.

Lemma windows_unset_other_bit (n : Z) :
  0 <= n -> k <> n ->
  Z.testbit (Windows.unset_modifier_mask (Z.shiftl 1 n) m) k = Z.testbit m k.
Proof.
  intros Hn Hk. unfold Windows.unset_modifier_mask.
  rewrite ldiff_mask_testbit, shiftl_1_testbit by lia.
  replace (k =? n) with false by (symmetry; now apply Z.eqb_neq).
  cbn [negb]. rewrite andb_true_r. symmetry. apply mask_bit_range.
Qed.
End OtherBits.

(** X22: the mouse hook leaves the bits of the keys and of the locks
    alone, but for one branch.  Whatever message the hook procedure
    receives, the bits of the mask other than the five button bits are
    after the call what they were before, unless the message is one of
    an X button whose high word of [mouseData] is 4 or 5: the branch of
    the extra buttons, which passes a button number where a mask is
    expected. *)
Theorem mouse_hook_keeps_other_bits
  (dispatch : Windows.dispatch_call -> Z -> bool) (next nCode wParam mouseData : Z)
  (st : Windows.hook_state) (k : Z) :
  0 <= Windows.modifier_mask st < 2 ^ 16 ->
  k < 8 \/ 12 < k ->
  is_x_button_message wParam = false \/
  (Windows.HIWORD mouseData <> 4 /\ Windows.HIWORD mouseData <> 5) ->
  let st' := snd (Windows.mouse_hook_event_proc dispatch next nCode wParam mouseData st) in
  Z.testbit (Windows.get_modifiers (Windows.modifier_mask st')) k
  = Z.testbit (Windows.get_modifiers (Windows.modifier_mask st)) k.
Proof.
  intros Hm Hk Hx st'. subst st'.
  unfold Windows.get_modifiers, Windows.mouse_hook_event_proc.
  destruct (Windows.mouse_hook_switch dispatch wParam mouseData st)
    as [consumed st1] eqn:S.
  cbn [snd]. revert S. unfold Windows.mouse_hook_switch, is_x_button_message in *.
  assert (U : uint16 (Windows.HIWORD mouseData) = Windows.HIWORD mouseData).
  { unfold uint16, Windows.HIWORD. apply Z.mod_small.
    change 0xFFFF with (Z.ones 16). rewrite Z.land_ones by lia.
    apply Z.mod_pos_bound. lia. }
  rewrite U.
  unfold UIOHook.MASK_BUTTON1, UIOHook.MASK_BUTTON2, UIOHook.MASK_BUTTON3,
    UIOHook.MASK_BUTTON4, UIOHook.MASK_BUTTON5.
  repeat match goal with
         | |- context [if ?c then _ else _] => destruct c eqn:?
         end;
    unfold Windows.call, Windows.with_mask; cbn [Windows.modifier_mask];
    intros [= _ <-]; cbn [Windows.modifier_mask];
    try reflexivity;
    try (first [ apply (windows_set_other_bit _ k Hm 8)
               | apply (windows_set_other_bit _ k Hm 9)
               | apply (windows_set_other_bit _ k Hm 10)
               | apply (windows_set_other_bit _ k Hm 11)
               | apply (windows_set_other_bit _ k Hm 12)
               | apply (windows_unset_other_bit _ k Hm 8)
               | apply (windows_unset_other_bit _ k Hm 9)
               | apply (windows_unset_other_bit _ k Hm 10)
               | apply (windows_unset_other_bit _ k Hm 11)
               | apply (windows_unset_other_bit _ k Hm 12) ]; lia).
  all: exfalso; destruct Hx as [Hx|[H4 H5]];
    repeat match goal with
           | H : (_ =? _) = true |- _ => apply Z.eqb_eq in H
           | H : (_ || _) = true |- _ => apply orb_prop in H
           | H : (_ || _) = false |- _ => apply orb_false_iff in H as [? ?]
           end; try congruence; try lia.
Qed.

(** A press of the left button while the left shift key is down. *)
Lemma mouse_hook_keeps_other_bits_witness :
  let st := {| Windows.modifier_mask := UIOHook.MASK_SHIFT_L;
               Windows.dispatched := [] |} in
  let st' := snd (Windows.mouse_hook_event_proc (fun _ _ => false) 0 0
                    Windows.WM_LBUTTONDOWN 0 st) in
  Z.testbit (Windows.get_modifiers (Windows.modifier_mask st')) 0
  = Z.testbit (Windows.get_modifiers (Windows.modifier_mask st)) 0.
Proof.
  apply (mouse_hook_keeps_other_bits (fun _ _ => false) 0 0
           Windows.WM_LBUTTONDOWN 0
           {| Windows.modifier_mask := UIOHook.MASK_SHIFT_L;
              Windows.dispatched := [] |} 0).
  - cbn. lia.
  - lia.
  - left. reflexivity.
Defined.

(** ** darwin/input_helper.c: the two lookups *)

Section DarwinTable.
Lemma darwin_table_ok : forallb darwin_row_ok Darwin.vcode_keycode_table = true.
Proof. vm_compute. reflexivity. Qed.

Lemma darwin_vcode_row (v : Z) :
  Darwin.vcode_to_keycode v <> Darwin.kVK_Undefined ->
  exists row, In row Darwin.vcode_keycode_table /\ fst row = v.
Proof.
  unfold Darwin.vcode_to_keycode.
  destruct (find _ _) as [r|] eqn:F; [|intros H; now elim H].
  intros _. apply find_row in F as [Hin Heq].
  apply Z.eqb_eq in Heq. now exists r.
Qed.

Lemma darwin_keycode_row (n : Z) :
  Darwin.keycode_to_vcode n <> UIOHook.VC_UNDEFINED ->
  exists row, In row Darwin.vcode_keycode_table /\ snd row = n.
Proof.
  unfold Darwin.keycode_to_vcode.
  destruct (find _ _) as [r|] eqn:F; [|intros H; now elim H].
  intros _. apply find_row in F as [Hin Heq].
  apply Z.eqb_eq in Heq. now exists r.
Qed.
End DarwinTable.

(** X23: on macOS the two lookups are inverse to each other: a virtual
    code that has a key code is found again from that key code, and a
    key code that has a virtual code is found again from that virtual
    code.  The macOS table has no two rows with the same virtual code
    or with the same key code. *)
Theorem darwin_lookups_inverse (v n : Z) :
  (Darwin.vcode_to_keycode v <> Darwin.kVK_Undefined ->
   Darwin.keycode_to_vcode (Darwin.vcode_to_keycode v) = v) /\
  (Darwin.keycode_to_vcode n <> UIOHook.VC_UNDEFINED ->
   Darwin.vcode_to_keycode (Darwin.keycode_to_vcode n) = n).
Proof.
  pose proof darwin_table_ok as T. rewrite forallb_forall in T.
  split; intros H.
  - apply darwin_vcode_row in H as (row & Hin & <-).
    specialize (T row Hin). apply andb_prop in T as [T _].
    now apply Z.eqb_eq.
  - apply darwin_keycode_row in H as (row & Hin & <-).
    specialize (T row Hin). apply andb_prop in T as [_ T].
    now apply Z.eqb_eq.
Qed.

Lemma darwin_lookups_inverse_witness :
  Darwin.keycode_to_vcode (Darwin.vcode_to_keycode UIOHook.VC_SHIFT_R)
  = UIOHook.VC_SHIFT_R /\
  Darwin.vcode_to_keycode (Darwin.keycode_to_vcode Darwin.kVK_RightShift)
  = Darwin.kVK_RightShift.
Proof.
  destruct (darwin_lookups_inverse UIOHook.VC_SHIFT_R Darwin.kVK_RightShift)
    as [H1 H2].
  split; [apply H1|apply H2]; vm_compute; discriminate.
Defined.

(** ** darwin/post_event.c: the flags of posted keys *)

Section DarwinFlags.
Variable e : Darwin.env.
Hypothesis source_created : Darwin.CGEventSourceCreate e = true.
Hypothesis key_created : Darwin.CGEventCreateKeyboardEvent e = true.

(** The eight modifier keys have a key code and are not keypad keys;
    their flag is one bit of the 64. *)
Lemma modifier_key_facts (vc f : Z) :
  Darwin.modifier_flag vc = Some f ->
  (uint16 (Darwin.vcode_to_keycode vc) =? Darwin.kVK_Undefined) = false /\
  Darwin.is_numeric_pad vc = false /\
  exists n, 0 <= n < 64 /\ f = Z.shiftl 1 n.
Proof.
  unfold Darwin.modifier_flag.
  repeat match goal with
         | |- context [?a =? ?b] =>
             destruct (Z.eqb_spec a b) as [->|?]; cbn [orb];
             [intros [= <-]; repeat split;
              first [ now exists 17 | now exists 18 | now exists 19 | now exists 20 ]|]
         end.
  discriminate.
Qed.




End DarwinFlags.



(** ** darwin/post_event.c: the release of another button *)

Section OtherButton.
Variable e : Darwin.env.
Hypothesis source_created : Darwin.CGEventSourceCreate e = true.
Hypothesis mouse_event_created : Darwin.CGEventCreateMouseEvent e = true.

(** A release in any state of the statics. *)
Lemma post_release_any (ev : UIOHook.uiohook_event) (st : Darwin.post_state) :
  is_release ev -> UIOHook.button (UIOHook.mouse ev) <> UIOHook.MOUSE_NOBUTTON ->
  let b := UIOHook.button (UIOHook.mouse ev) in
  Darwin.hook_post_event e ev st =
  (UIOHook.UIOHOOK_SUCCESS,
   Darwin.with_motion (after_release (Darwin.current_motion_event st) (dragged_type b))
     (native_button b) st,
   snd (posted_as (up_type b) (native_button b) ev)).
Proof.
  intros H Hb b. subst b.
  unfold after_release, dragged_type, native_button, up_type, posted_as.
  unfold Darwin.hook_post_event, Darwin.post_mouse_event, Darwin.mouse_event_switch.
  rewrite source_created.
  destruct H as [H|H]; rewrite H; cbn [negb];
    (destruct (Z.eqb_spec (UIOHook.button (UIOHook.mouse ev)) UIOHook.MOUSE_NOBUTTON);
     [contradiction|]);
    destruct (UIOHook.button (UIOHook.mouse ev) =? UIOHook.MOUSE_BUTTON1);
    [|destruct (UIOHook.button (UIOHook.mouse ev) =? UIOHook.MOUSE_BUTTON2)| |
      destruct (UIOHook.button (UIOHook.mouse ev) =? UIOHook.MOUSE_BUTTON2)];
    rewrite mouse_event_created; reflexivity.
Qed.
End OtherButton.

(** X25: macOS remembers one button only.  When a button [b1] is pressed
    and then another button [b2] is released, the motion events posted
    afterwards carry the native button of [b2].  They are still posted
    as drags of [b1] if the two buttons have different dragged types;
    if they have the same one, as any two buttons beyond the second
    have, they are posted as plain moves although [b1] is still
    held. *)
Theorem darwin_release_of_other_button
  (e : Darwin.env) (st : Darwin.post_state)
  (press release : UIOHook.uiohook_event) (b1 b2 : Z)
  (after : list UIOHook.uiohook_event) :
  Darwin.CGEventSourceCreate e = true ->
  Darwin.CGEventCreateMouseEvent e = true ->
  is_press press -> UIOHook.button (UIOHook.mouse press) = b1 ->
  is_release release -> UIOHook.button (UIOHook.mouse release) = b2 ->
  b1 <> UIOHook.MOUSE_NOBUTTON -> b2 <> UIOHook.MOUSE_NOBUTTON ->
  Forall is_motion after ->
  fst (Darwin.post_events e (press :: release :: after) st) =
  posted_as (down_type b1) (native_button b1) press
  :: posted_as (up_type b2) (native_button b2) release
  :: map (posted_as (after_release (dragged_type b1) (dragged_type b2))
                    (native_button b2)) after.
Proof.
  intros Hs Hm Hp Hpb Hr Hrb Hb1 Hb2 Ha.
  cbn [Darwin.post_events].
  rewrite (post_press e Hs Hm press st Hp) by congruence.
  rewrite (post_release_any e Hs Hm release _ Hr) by congruence.
  rewrite Hpb, Hrb.
  rewrite (post_motions e Hs Hm after _ Ha).
  reflexivity.
Qed.

(** The left button is pressed, the right one released: the pointer
    goes on dragging, with the right button. *)
Lemma darwin_release_of_other_button_witness :
  fst (Darwin.post_events core_graphics
         [ pointer_event UIOHook.EVENT_MOUSE_PRESSED UIOHook.MOUSE_BUTTON1 10 10;
           pointer_event UIOHook.EVENT_MOUSE_RELEASED UIOHook.MOUSE_BUTTON2 10 10;
           pointer_event UIOHook.EVENT_MOUSE_MOVED 0 20 20 ]
         Darwin.initial_post_state) =
  posted_as (down_type 1) (native_button 1)
    (pointer_event UIOHook.EVENT_MOUSE_PRESSED UIOHook.MOUSE_BUTTON1 10 10)
  :: posted_as (up_type 2) (native_button 2)
       (pointer_event UIOHook.EVENT_MOUSE_RELEASED UIOHook.MOUSE_BUTTON2 10 10)
  :: map (posted_as (after_release (dragged_type 1) (dragged_type 2))
                    (native_button 2))
       [pointer_event UIOHook.EVENT_MOUSE_MOVED 0 20 20].
Proof.
  apply (darwin_release_of_other_button core_graphics Darwin.initial_post_state
           (pointer_event UIOHook.EVENT_MOUSE_PRESSED UIOHook.MOUSE_BUTTON1 10 10)
           (pointer_event UIOHook.EVENT_MOUSE_RELEASED UIOHook.MOUSE_BUTTON2 10 10)
           1 2 [pointer_event UIOHook.EVENT_MOUSE_MOVED 0 20 20]).
  - reflexivity.
  - reflexivity.
  - left. reflexivity.
  - reflexivity.
  - left. reflexivity.
  - reflexivity.
  - vm_compute. discriminate.
  - vm_compute. discriminate.
  - repeat constructor.
Defined.

Example darwin_two_buttons :
  after_release (dragged_type 1) (dragged_type 2) = Darwin.kCGEventLeftMouseDragged /\
  after_release (dragged_type 3) (dragged_type 4) = Darwin.kCGEventMouseMoved.
Proof. split; reflexivity. Qed.

(** ** Events that are not posted, and events posted as others *)

(** X26: the notifications of the hook cannot be posted.  On the three
    platforms [hook_post_event] answers an event of type
    [EVENT_HOOK_ENABLED], [EVENT_HOOK_DISABLED], [EVENT_KEY_TYPED] or
    [EVENT_MOUSE_CLICKED] with a status other than [UIOHOOK_SUCCESS],
    sends nothing to the system and leaves its statics as they were;
    on X11 it does not load the key mappings either. *)
Theorem notifications_are_not_posted
  (ew : Windows.env) (ws : Windows.monitor_state)
  (ed : Darwin.env) (ds : Darwin.post_state)
  (ex : X11.env) (xs : X11.state) (ev : UIOHook.uiohook_event) :
  is_notification (UIOHook.type ev) = true ->
  (fst (fst (Windows.hook_post_event ew ev ws)) <> UIOHook.UIOHOOK_SUCCESS /\
   snd (fst (Windows.hook_post_event ew ev ws)) = ws /\
   snd (Windows.hook_post_event ew ev ws) = []) /\
  (fst (fst (Darwin.hook_post_event ed ev ds)) <> UIOHook.UIOHOOK_SUCCESS /\
   snd (fst (Darwin.hook_post_event ed ev ds)) = ds /\
   snd (Darwin.hook_post_event ed ev ds) = []) /\
  (fst (fst (X11.hook_post_event ex ev xs)) <> UIOHook.UIOHOOK_SUCCESS /\
   snd (fst (X11.hook_post_event ex ev xs)) = xs /\
   snd (X11.hook_post_event ex ev xs) = []).
Proof.
  intros H.
  unfold Windows.hook_post_event, Windows.hook_post_event_with,
    Darwin.hook_post_event, X11.hook_post_event.
  destruct (Windows.calloc ew), (Darwin.CGEventSourceCreate ed),
    (X11.helper_disp ex);
    destruct (UIOHook.type ev); try discriminate H;
    cbn; repeat split; discriminate.
Qed.

Lemma notifications_are_not_posted_witness :
  let ev := key_event UIOHook.EVENT_KEY_TYPED UIOHook.VC_A in
  (fst (fst (Windows.hook_post_event two_monitor_desktop ev
               Windows.initial_monitor_state)) <> UIOHook.UIOHOOK_SUCCESS /\
   snd (fst (Windows.hook_post_event two_monitor_desktop ev
               Windows.initial_monitor_state)) = Windows.initial_monitor_state /\
   snd (Windows.hook_post_event two_monitor_desktop ev
          Windows.initial_monitor_state) = []) /\
  (fst (fst (Darwin.hook_post_event core_graphics ev Darwin.initial_post_state))
   <> UIOHook.UIOHOOK_SUCCESS /\
   snd (fst (Darwin.hook_post_event core_graphics ev Darwin.initial_post_state))
   = Darwin.initial_post_state /\
   snd (Darwin.hook_post_event core_graphics ev Darwin.initial_post_state) = []) /\
  (fst (fst (X11.hook_post_event x_server ev X11.initial_state))
   <> UIOHook.UIOHOOK_SUCCESS /\
   snd (fst (X11.hook_post_event x_server ev X11.initial_state)) = X11.initial_state /\
   snd (X11.hook_post_event x_server ev X11.initial_state) = []).
Proof.
  apply (notifications_are_not_posted two_monitor_desktop
           Windows.initial_monitor_state core_graphics Darwin.initial_post_state
           x_server X11.initial_state
           (key_event UIOHook.EVENT_KEY_TYPED UIOHook.VC_A)).
  reflexivity.
Defined.

(** ** x11: the wheel and the pointer mapping *)



(** X28: [button_map_lookup] under the pointer mapping that maps every
    button to itself, or without a display or a table: buttons 2 and 3
    change places and every other button is returned as it is, so that
    looking a button up twice gives the button back. *)
Theorem button_map_lookup_swaps (e : X11.env) (button : Z) :
  0 <= button < 256 ->
  identity_mapping (X11.XGetPointerMapping e) ->
  X11.button_map_lookup e button = swap_2_3 button /\
  X11.button_map_lookup e (X11.button_map_lookup e button) = button.
Proof.
  intros Hb Hid.
  assert (L : forall b, 0 <= b < 256 -> X11.button_map_lookup e b = swap_2_3 b).
  { intros b Hr. unfold X11.button_map_lookup, swap_2_3, X11.Button2, X11.Button3.
    assert (M : (if X11.helper_disp e && X11.mouse_button_table e
                 then if (0 <? b) && (b <=? Z.of_nat (List.length (X11.XGetPointerMapping e)))
                      then nth (Z.to_nat (b - 1)) (X11.XGetPointerMapping e) 0
                      else b
                 else b) = b).
    { destruct (X11.helper_disp e && X11.mouse_button_table e); [|reflexivity].
      destruct (Z.ltb_spec 0 b); [|reflexivity].
      destruct (Z.leb_spec b (Z.of_nat (List.length (X11.XGetPointerMapping e))));
        [|reflexivity].
      cbn [andb]. rewrite Hid by lia. lia. }
    rewrite M.
    destruct (Z.eqb_spec b 2); [reflexivity|].
    destruct (Z.eqb_spec b 3); [reflexivity|].
    unfold uint8. apply Z.mod_small. lia. }
  split; [now apply L|].
  rewrite (L button Hb).
  assert (R : 0 <= swap_2_3 button < 256).
  { unfold swap_2_3. destruct (button =? 2); [lia|]. destruct (button =? 3); lia. }
  rewrite (L _ R). unfold swap_2_3.
  destruct (Z.eqb_spec button 2) as [->|N2]; [reflexivity|].
  destruct (Z.eqb_spec button 3) as [->|N3]; [reflexivity|].
  replace (button =? 2) with false by (symmetry; now apply Z.eqb_neq).
  replace (button =? 3) with false by (symmetry; now apply Z.eqb_neq).
  reflexivity.
Qed.

Lemma button_map_lookup_swaps_witness :
  X11.button_map_lookup x_server 3 = swap_2_3 3 /\
  X11.button_map_lookup x_server (X11.button_map_lookup x_server 3) = 3.
Proof.
  apply (button_map_lookup_swaps x_server 3).
  - lia.
  - intros i Hi. cbn in Hi.
    do 7 (destruct i as [|i]; [reflexivity|]). lia.
Defined.

(** ** Moves relative to the cursor *)

(** X29: a move relative to the cursor, on X11 and on Windows.  When the
    system reports the cursor at [(px, py)], posting
    [EVENT_MOUSE_MOVED_RELATIVE_TO_CURSOR] does what posting
    [EVENT_MOUSE_MOVED] to the sum of the cursor position and the
    coordinates of the event does.  When the system does not report
    the cursor, X11 returns [UIOHOOK_FAILURE] and sends nothing, while
    Windows posts a move to the coordinates of the event, taken as a
    position. *)
Theorem relative_move_is_move_from_cursor
  (ex : X11.env) (xs : X11.state) (ew : Windows.env) (ws : Windows.monitor_state)
  (ev : UIOHook.uiohook_event) :
  X11.helper_disp ex = true ->
  let relative := Windows.with_type UIOHook.EVENT_MOUSE_MOVED_RELATIVE_TO_CURSOR ev in
  let x := UIOHook.mouse_x (UIOHook.mouse ev) in
  let y := UIOHook.mouse_y (UIOHook.mouse ev) in
  X11.hook_post_event ex relative xs
  = match X11.XQueryPointer ex with
    | Some (px, py) => X11.hook_post_event ex (moved_to (px + x) (py + y) ev) xs
    | None => (UIOHook.UIOHOOK_FAILURE, xs, [])
    end /\
  Windows.hook_post_event ew relative ws
  = match Windows.GetCursorPos ew with
    | Some (px, py) =>
        Windows.hook_post_event ew
          (moved_to (Windows.int32 (x + px)) (Windows.int32 (y + py)) ev) ws
    | None =>
        Windows.hook_post_event ew (Windows.with_type UIOHook.EVENT_MOUSE_MOVED ev) ws
    end.
Proof.
  intros Hd relative x y. subst relative x y. split.
  - unfold X11.hook_post_event, X11.post_mouse_motion_event. rewrite Hd.
    cbn [negb Windows.with_type moved_to UIOHook.type UIOHook.mouse
         UIOHook.mouse_x UIOHook.mouse_y].
    destruct (X11.XQueryPointer ex) as [[px py]|]; reflexivity.
  - unfold Windows.hook_post_event, Windows.hook_post_event_with,
      Windows.map_mouse_event.
    cbn [Windows.with_type moved_to UIOHook.type UIOHook.mouse
         UIOHook.mouse_x UIOHook.mouse_y].
    destruct (Windows.GetCursorPos ew) as [[px py]|]; reflexivity.
Qed.

Lemma relative_move_is_move_from_cursor_witness :
  let ev := pointer_event UIOHook.EVENT_MOUSE_MOVED 0 5 7 in
  let relative := Windows.with_type UIOHook.EVENT_MOUSE_MOVED_RELATIVE_TO_CURSOR ev in
  X11.hook_post_event x_server relative X11.initial_state
  = match X11.XQueryPointer x_server with
    | Some (px, py) =>
        X11.hook_post_event x_server (moved_to (px + 5) (py + 7) ev) X11.initial_state
    | None => (UIOHook.UIOHOOK_FAILURE, X11.initial_state, [])
    end /\
  Windows.hook_post_event two_monitor_desktop relative Windows.initial_monitor_state
  = match Windows.GetCursorPos two_monitor_desktop with
    | Some (px, py) =>
        Windows.hook_post_event two_monitor_desktop
          (moved_to (Windows.int32 (5 + px)) (Windows.int32 (7 + py)) ev)
          Windows.initial_monitor_state
    | None =>
        Windows.hook_post_event two_monitor_desktop
          (Windows.with_type UIOHook.EVENT_MOUSE_MOVED ev) Windows.initial_monitor_state
    end.
Proof.
  apply (relative_move_is_move_from_cursor x_server X11.initial_state
           two_monitor_desktop Windows.initial_monitor_state
           (pointer_event UIOHook.EVENT_MOUSE_MOVED 0 5 7)).
  reflexivity.
Defined.

(** ** darwin/post_event.c: what a failed call leaves behind *)

(** X30: on macOS a call that fails has already changed the statics.
    When Core Graphics cannot create the event, [hook_post_event]
    returns [UIOHOOK_ERROR_OUT_OF_MEMORY] and posts nothing, but the
    press of a modifier key has added its flag to the flags of the key
    events to come, and the press of a button has armed its dragged
    type: the motion events that follow are posted as drags of a
    button whose press was never injected. *)
Theorem darwin_failed_post_changes_state
  (e : Darwin.env) (st : Darwin.post_state) (vc f : Z)
  (press : UIOHook.uiohook_event) (after : list UIOHook.uiohook_event) :
  Darwin.CGEventSourceCreate e = true ->
  Darwin.modifier_flag vc = Some f ->
  is_press press ->
  UIOHook.button (UIOHook.mouse press) <> UIOHook.MOUSE_NOBUTTON ->
  Forall is_motion after ->
  let b := UIOHook.button (UIOHook.mouse press) in
  (Darwin.CGEventCreateKeyboardEvent e = false ->
   Darwin.hook_post_event e (key_event UIOHook.EVENT_KEY_PRESSED vc) st
   = (UIOHook.UIOHOOK_ERROR_OUT_OF_MEMORY,
      Darwin.with_modifier_mask (Z.lor (Darwin.current_modifier_mask st) f) st,
      [])) /\
  (Darwin.CGEventCreateMouseEvent e = false ->
   Darwin.hook_post_event e press st
   = (UIOHook.UIOHOOK_ERROR_OUT_OF_MEMORY,
      Darwin.with_motion (dragged_type b) (native_button b) st, []) /\
   forall e',
     Darwin.CGEventSourceCreate e' = true ->
     Darwin.CGEventCreateMouseEvent e' = true ->
     fst (Darwin.post_events e' after
            (snd (fst (Darwin.hook_post_event e press st))))
     = map (posted_as (dragged_type b) (native_button b)) after).
Proof.
  intros Hs Hf Hp Hb Ha b. subst b. split.
  - intros Hk. destruct (modifier_key_facts vc f Hf) as (K & N & _).
    unfold Darwin.hook_post_event, Darwin.post_key_event.
    rewrite Hs, Hk.
    cbn [negb key_event UIOHook.type UIOHook.keyboard UIOHook.keycode].
    rewrite Hf, ?N, K. reflexivity.
  - intros Hm.
    assert (E : Darwin.hook_post_event e press st
                = (UIOHook.UIOHOOK_ERROR_OUT_OF_MEMORY,
                   Darwin.with_motion
                     (dragged_type (UIOHook.button (UIOHook.mouse press)))
                     (native_button (UIOHook.button (UIOHook.mouse press))) st, [])).
    { unfold dragged_type, native_button.
      unfold Darwin.hook_post_event, Darwin.post_mouse_event, Darwin.mouse_event_switch.
      rewrite Hs.
      destruct Hp as [H|H]; rewrite H; cbn [negb];
        (destruct (Z.eqb_spec (UIOHook.button (UIOHook.mouse press))
                     UIOHook.MOUSE_NOBUTTON); [contradiction|]);
        destruct (UIOHook.button (UIOHook.mouse press) =? UIOHook.MOUSE_BUTTON1);
        [|destruct (UIOHook.button (UIOHook.mouse press) =? UIOHook.MOUSE_BUTTON2)| |
          destruct (UIOHook.button (UIOHook.mouse press) =? UIOHook.MOUSE_BUTTON2)];
        rewrite Hm; reflexivity. }
    split; [exact E|].
    intros e' Hs' Hm'. rewrite E. cbn [fst snd].
    rewrite (post_motions e' Hs' Hm' after _ Ha). reflexivity.
Qed.

(** The left shift key and the left button, with no event created. *)
Lemma darwin_failed_post_changes_state_witness :
  let e := {| Darwin.CGEventSourceCreate := true;
              Darwin.CGEventCreateKeyboardEvent := false;
              Darwin.CGEventCreateMouseEvent := false;
              Darwin.CGEventCreateScrollWheelEvent := false |} in
  let press := pointer_event UIOHook.EVENT_MOUSE_PRESSED UIOHook.MOUSE_BUTTON1 1 1 in
  let after := [pointer_event UIOHook.EVENT_MOUSE_MOVED 0 2 2] in
  let st := Darwin.initial_post_state in
  (Darwin.CGEventCreateKeyboardEvent e = false ->
   Darwin.hook_post_event e (key_event UIOHook.EVENT_KEY_PRESSED UIOHook.VC_SHIFT_L) st
   = (UIOHook.UIOHOOK_ERROR_OUT_OF_MEMORY,
      Darwin.with_modifier_mask
        (Z.lor (Darwin.current_modifier_mask st) Darwin.kCGEventFlagMaskShift) st,
      [])) /\
  (Darwin.CGEventCreateMouseEvent e = false ->
   Darwin.hook_post_event e press st
   = (UIOHook.UIOHOOK_ERROR_OUT_OF_MEMORY,
      Darwin.with_motion (dragged_type 1) (native_button 1) st, []) /\
   forall e',
     Darwin.CGEventSourceCreate e' = true ->
     Darwin.CGEventCreateMouseEvent e' = true ->
     fst (Darwin.post_events e' after
            (snd (fst (Darwin.hook_post_event e press st))))
     = map (posted_as (dragged_type 1) (native_button 1)) after).
Proof.
  apply (darwin_failed_post_changes_state
           {| Darwin.CGEventSourceCreate := true;
              Darwin.CGEventCreateKeyboardEvent := false;
              Darwin.CGEventCreateMouseEvent := false;
              Darwin.CGEventCreateScrollWheelEvent := false |}
           Darwin.initial_post_state UIOHook.VC_SHIFT_L Darwin.kCGEventFlagMaskShift
           (pointer_event UIOHook.EVENT_MOUSE_PRESSED UIOHook.MOUSE_BUTTON1 1 1)
           [pointer_event UIOHook.EVENT_MOUSE_MOVED 0 2 2]).
  - reflexivity.
  - reflexivity.
  - left. reflexivity.
  - vm_compute. discriminate.
  - repeat constructor.
Defined.
